(** * CVMatcher front-end: a shallow embedding of its client-side logic

    The repository is a Next.js/React front-end.  The logic that carries
    behaviour lives in a handful of event handlers and render-time
    computations:

    - [components/common/resume_previewer_context.tsx]: the context and
      its hook [useResumePreview];
    - [components/common/file-upload.tsx]: the upload component
      [FileUpload] and its callbacks;
    - [components/jd-upload/text-area.tsx]: the job-description form
      [JobDescriptionUploadTextArea];
    - [app/dashboard/page.tsx]: [DashboardPage] with the score card and
      the preview of suggestions;
    - [components/dashboard/vector-analysis.tsx]: [VectorAnalysis] with
      the coverage figure.

    JavaScript strings are sequences of UTF-16 code units, JavaScript
    numbers are IEEE-754 binary64 values; both are modelled as such.
    Calls to [console] are left out: nothing reads what they print. *)

From Stdlib Require Import ZArith NArith List Bool Ascii String Lia.
From Stdlib Require Import SpecFloat DecimalString.
From stdpp Require Import base option list countable gmap.

Local Open Scope N_scope.

(** ** JavaScript strings *)

Module JS.

(** A string is its list of UTF-16 code units (each below 65536). *)
Definition jsstring := list N.

(** Code units of one code point (UTF-16 encoding). *)
Definition units_of_code_point (cp : N) : jsstring :=
  if cp <? 0x10000 then [cp]
  else [0xD800 + (cp - 0x10000) / 0x400; 0xDC00 + (cp - 0x10000) mod 0x400].

(** String literals of the source are written as Rocq strings (UTF-8
    bytes) and read back into code units. *)
Fixpoint literal_units (pending : nat) (acc : N) (bytes : list N) : jsstring :=
  match bytes with
  | [] => []
  | b :: rest =>
      match pending with
      | O =>
          if b <? 0x80 then b :: literal_units 0 0 rest
          else if b <? 0xE0 then literal_units 1 (b - 0xC0) rest
          else if b <? 0xF0 then literal_units 2 (b - 0xE0) rest
          else literal_units 3 (b - 0xF0) rest
      | S k =>
          let acc' := acc * 64 + (b - 0x80) in
          match k with
          | O => units_of_code_point acc' ++ literal_units 0 0 rest
          | S _ => literal_units k acc' rest
          end
      end
  end.

Definition js (s : string) : jsstring :=
  literal_units 0 0 (map N_of_ascii (list_ascii_of_string s)).

(** [!s] on a string: only the empty string is falsy. *)
Definition is_empty (s : jsstring) : bool :=
  match s with [] => true | _ :: _ => false end.

(** WhiteSpace and LineTerminator code units, the ones [trim] strips. *)
Definition is_white_space (c : N) : bool :=
  (c =? 0x0009) || (c =? 0x000A) || (c =? 0x000B) || (c =? 0x000C) ||
  (c =? 0x000D) || (c =? 0x0020) || (c =? 0x00A0) || (c =? 0x1680) ||
  ((0x2000 <=? c) && (c <=? 0x200A)) ||
  (c =? 0x2028) || (c =? 0x2029) || (c =? 0x202F) || (c =? 0x205F) ||
  (c =? 0x3000) || (c =? 0xFEFF).

Fixpoint trimStart (s : jsstring) : jsstring :=
  match s with
  | [] => []
  | c :: rest => if is_white_space c then trimStart rest else s
  end.

Definition trimEnd (s : jsstring) : jsstring := rev (trimStart (rev s)).

(** [String.prototype.trim]. *)
Definition trim (s : jsstring) : jsstring := trimEnd (trimStart s).

(** Thrown values.  Every value the modelled code throws or catches is
    an [Error] object; [message] is the only property that is read. *)
Record Error := mkError { error_name : jsstring; message : jsstring }.

Inductive completion (A : Type) : Type :=
  | Normal (a : A)
  | Throw (e : Error).
Arguments Normal {A} a.
Arguments Throw {A} e.

(** *** [encodeURIComponent] *)

Definition is_uri_unescaped (c : N) : bool :=
  ((0x41 <=? c) && (c <=? 0x5A)) ||      (* A-Z *)
  ((0x61 <=? c) && (c <=? 0x7A)) ||      (* a-z *)
  ((0x30 <=? c) && (c <=? 0x39)) ||      (* 0-9 *)
  (c =? 0x2D) || (c =? 0x5F) || (c =? 0x2E) || (c =? 0x21) || (c =? 0x7E) ||
  (c =? 0x2A) || (c =? 0x27) || (c =? 0x28) || (c =? 0x29).
                                          (* - _ . ! ~ * ' ( ) *)

Definition is_lead_surrogate (c : N) : bool := (0xD800 <=? c) && (c <=? 0xDBFF).
Definition is_trail_surrogate (c : N) : bool := (0xDC00 <=? c) && (c <=? 0xDFFF).

Definition utf8_octets (cp : N) : list N :=
  if cp <? 0x80 then [cp]
  else if cp <? 0x800 then [0xC0 + cp / 64; 0x80 + cp mod 64]
  else if cp <? 0x10000 then
    [0xE0 + cp / 4096; 0x80 + (cp / 64) mod 64; 0x80 + cp mod 64]
  else
    [0xF0 + cp / 262144; 0x80 + (cp / 4096) mod 64;
     0x80 + (cp / 64) mod 64; 0x80 + cp mod 64].

Definition hex_digit (d : N) : N :=
  if d <? 10 then 0x30 + d else 0x41 + (d - 10).

Definition percent_octet (o : N) : jsstring :=
  [0x25; hex_digit (o / 16); hex_digit (o mod 16)].

Definition percent_encode (cp : N) : jsstring :=
  flat_map percent_octet (utf8_octets cp).

Definition URIError : Error := mkError (js "URIError") (js "URI malformed").

Fixpoint encodeURIComponent (s : jsstring) : completion jsstring :=
  match s with
  | [] => Normal []
  | c :: rest =>
      if is_uri_unescaped c then
        match encodeURIComponent rest with
        | Normal r => Normal (c :: r)
        | Throw e => Throw e
        end
      else if is_trail_surrogate c then Throw URIError
      else if is_lead_surrogate c then
        match rest with
        | [] => Throw URIError
        | d :: rest' =>
            if is_trail_surrogate d then
              match encodeURIComponent rest' with
              | Normal r =>
                  Normal (percent_encode
                            ((c - 0xD800) * 0x400 + (d - 0xDC00) + 0x10000) ++ r)
              | Throw e => Throw e
              end
            else Throw URIError
        end
      else
        match encodeURIComponent rest with
        | Normal r => Normal (percent_encode c ++ r)
        | Throw e => Throw e
        end
  end.

(** [String.prototype.isWellFormed]: no lone surrogate. *)
Fixpoint isWellFormed (s : jsstring) : bool :=
  match s with
  | [] => true
  | c :: rest =>
      if is_trail_surrogate c then false
      else if is_lead_surrogate c then
        match rest with
        | [] => false
        | d :: rest' => is_trail_surrogate d && isWellFormed rest'
        end
      else isWellFormed rest
  end.

(** *** Numbers: IEEE-754 binary64 *)

Definition number := spec_float.

Definition num_mul : number -> number -> number := SFmul 53 1024.
Definition num_div : number -> number -> number := SFdiv 53 1024.
Definition num_sub : number -> number -> number := SFsub 53 1024.

#[global] Instance number_eq_dec : EqDecision number.
Proof. solve_decision. Defined.

(** The number denoted by an integer literal. *)
Definition num_of_Z (n : Z) : number := binary_normalize 53 1024 n 0 false.

(** [x === y] and [x !== y] on numbers. *)
Definition num_strict_eq : number -> number -> bool := SFeqb.
Definition num_strict_ne (x y : number) : bool := negb (SFeqb x y).

(** [x > y] on numbers. *)
Definition num_gt (x y : number) : bool := SFltb y x.

Definition is_NaN (x : number) : bool :=
  match x with S754_nan => true | _ => false end.

Definition is_zero (x : number) : bool :=
  match x with S754_zero _ => true | _ => false end.

Definition is_infinite (x : number) : bool :=
  match x with S754_infinity _ => true | _ => false end.

(** [Number.isFinite]. *)
Definition isFinite (x : number) : bool :=
  match x with S754_zero _ | S754_finite _ _ _ => true | _ => false end.

(** The sign bit of a number that has one. *)
Definition sign_bit (x : number) : bool :=
  match x with
  | S754_zero s | S754_infinity s | S754_finite s _ _ => s
  | S754_nan => false
  end.

(** The integer closest to [v·2^e] for [e < 0], the larger one on a
    tie: [floor (v·2^e + 1/2)]. *)
Definition round_half_up (v e : Z) : Z :=
  ((2 * v + 2 ^ (- e)) / 2 ^ (1 - e))%Z.

(** [Math.round]: the integral number closest to [x], ties towards
    +infinity; NaN, the infinities and the zeros are returned unchanged
    and a negative [x] that rounds to zero gives [-0].  A binary64
    [x = ±m·2^e] with [e < 0] is below 2^52 in magnitude, so the integer
    it rounds to is represented exactly. *)
Definition Math_round (x : number) : number :=
  match x with
  | S754_finite s m e =>
      if (0 <=? e)%Z then x
      else
        let n := round_half_up (cond_Zopp s (Zpos m)) e in
        if (n =? 0)%Z then S754_zero s else num_of_Z n
  | _ => x
  end.

(** The text [Number.prototype.toFixed] produces. *)
Inductive NumberText :=
  | TextNaN                               (* "NaN" *)
  | TextInfinity (negative : bool)        (* "Infinity", "-Infinity" *)
  | TextDigits (negative : bool) (n : N)  (* optional "-", then n in decimal *)
  | TextToString (x : number).            (* x >= 1e21: Number::toString x *)

(** [x.toFixed(0)].  A non-finite [x] is printed by name.  Otherwise the
    sign is split off and the magnitude [m·2^e], when below 10^21, is
    replaced by the integer [n] closest to it, the larger one on a tie. *)
Definition toFixed0 (x : number) : NumberText :=
  match x with
  | S754_nan => TextNaN
  | S754_infinity s => TextInfinity s
  | S754_zero _ => TextDigits false 0
  | S754_finite s m e =>
      if (0 <=? e)%Z then
        let v := (Zpos m * 2 ^ e)%Z in
        if (10 ^ 21 <=? v)%Z then TextToString x else TextDigits s (Z.to_N v)
      else
        if (10 ^ 21 * 2 ^ (- e) <=? Zpos m)%Z then TextToString x
        else TextDigits s (Z.to_N (round_half_up (Zpos m) e))
  end.

(** Decimal digits of a natural number, as code units. *)
Definition decimal_units (n : N) : jsstring :=
  map N_of_ascii (list_ascii_of_string (NilEmpty.string_of_uint (N.to_uint n))).

(** The characters of a [toFixed] result; [None] where they are those
    of [Number::toString], which is not modelled. *)
Definition text_units (t : NumberText) : option jsstring :=
  match t with
  | TextNaN => Some (js "NaN")
  | TextInfinity s => Some ((if s then js "-" else []) ++ js "Infinity")
  | TextDigits s n => Some ((if s then js "-" else []) ++ decimal_units n)
  | TextToString _ => None
  end.

(** *** Values of unknown type *)

#[warnings="-register-all"]
Inductive JSValue :=
  | JUndefined
  | JNull
  | JBool (b : bool)
  | JNumber (x : number)
  | JString (s : jsstring)
  | JArray (items : list JSValue)
  | JObject (props : list (jsstring * JSValue)).

(** [typeof v === 'string' ? v : undefined]. *)
Definition string_or_undefined (v : option JSValue) : option jsstring :=
  match v with
  | Some (JString s) => Some s
  | _ => None
  end.

(** Truthiness of [string | undefined] and [string | null]. *)
Definition truthy_string (v : option jsstring) : bool :=
  match v with
  | Some s => negb (is_empty s)
  | None => false
  end.

(** *** Handlers: state passing with exceptions *)

Definition Eff (S A : Type) : Type := S -> S * completion A.

Definition ret {S A} (a : A) : Eff S A := fun s => (s, Normal a).

Definition bind {S A B} (m : Eff S A) (k : A -> Eff S B) : Eff S B :=
  fun s =>
    match m s with
    | (s', Normal a) => k a s'
    | (s', Throw e) => (s', Throw e)
    end.

Definition modify {S} (f : S -> S) : Eff S unit := fun s => (f s, Normal tt).

Definition throw {S A} (e : Error) : Eff S A := fun s => (s, Throw e).

#[global] Instance eff_ret {S} : MRet (Eff S) := fun A a => ret a.
#[global] Instance eff_bind {S} : MBind (Eff S) := fun A B k m => bind m k.

(** Lift a pure computation that may throw. *)
Definition lift {S A} (c : completion A) : Eff S A := fun s => (s, c).

(** [try { body } catch (err) { handler err }]. *)
Definition try_catch {S A} (body : Eff S A) (handler : Error -> Eff S A) : Eff S A :=
  fun s =>
    match body s with
    | (s', Normal a) => (s', Normal a)
    | (s', Throw e) => handler e s'
    end.

End JS.

Import JS.

(** ** components/common/resume_previewer_context.tsx *)

Module ResumePreviewContext.

Record PersonalInfo := {
  name : jsstring;
  title : option jsstring;
  email : jsstring;
  phone : jsstring;
  location : jsstring;
  website : option jsstring;
  linkedin : option jsstring;
  github : option jsstring
}.

Record ExperienceEntry := {
  exp_id : number;
  exp_title : jsstring;
  exp_company : jsstring;
  exp_location : option jsstring;
  exp_years : option jsstring;
  exp_description : list jsstring
}.

Record EducationEntry := {
  edu_id : number;
  edu_institution : jsstring;
  edu_degree : jsstring;
  edu_years : option jsstring;
  edu_description : option jsstring
}.

Record ResumePreview := {
  personalInfo : PersonalInfo;
  summary : option jsstring;
  experience : list ExperienceEntry;
  education : list EducationEntry;
  skills : list jsstring
}.

(** An entry of [improvements]; [lineNumber?: string | number]. *)
Record Improvement := {
  suggestion : jsstring;
  lineNumber : option (jsstring + number)
}.

Record SkillAnalysis := {
  job_skill : jsstring;
  best_resume_match : jsstring;
  similarity_score : number;
  match_level : jsstring;
  coverage_percentage : number
}.

Record CoverageGap := {
  missing_skill : jsstring;
  gap_severity : jsstring;
  suggested_action : jsstring
}.

Record StrengthArea := {
  strong_skill : jsstring;
  resume_match : jsstring;
  strength_level : jsstring
}.

Record CoverageStats := {
  high_coverage : number;
  medium_coverage : number;
  low_coverage : number;
  total_skills_required : number;
  well_matched_skills : number;
  gaps_count : number
}.

Record Recommendation := {
  rec_type : jsstring;
  rec_skill : option jsstring;
  rec_suggestion : jsstring;
  rec_priority : jsstring;
  rec_action : jsstring
}.

Record VectorAnalysisData := {
  skill_by_skill_analysis : list SkillAnalysis;
  coverage_gaps : list CoverageGap;
  strength_areas : list StrengthArea;
  coverage_statistics : CoverageStats;
  detailed_recommendations : list Recommendation
}.

(** A property the payload may carry as a value, as [null], or not at
    all.  The interface declares both scores as [number]; the dashboard
    nevertheless tests them against [undefined] and defaults them with
    [??], so the three cases are kept apart. *)
Inductive field (A : Type) : Type :=
  | Undefined
  | Null
  | Value (a : A).
Arguments Undefined {A}.
Arguments Null {A}.
Arguments Value {A} a.

Record Data := {
  request_id : jsstring;
  resume_id : jsstring;
  job_id : jsstring;
  original_score : field number;
  new_score : field number;
  resume_preview : option ResumePreview;
  details : option jsstring;
  commentary : option jsstring;
  improvements : option (list Improvement);
  vector_analysis : option VectorAnalysisData
}.

Record ImprovedResult := { data : Data }.

(** The state cell of one [ResumePreviewProvider]
    ([useState<ImprovedResult | null>(null)]). *)
Definition ProviderState := option ImprovedResult.

Definition initial_provider_state : ProviderState := None.

(** [ContextValue]; the setter is the state update it performs on the
    provider's cell. *)
Record ContextValue := {
  improvedData : option ImprovedResult;
  setImprovedData : option ImprovedResult -> ProviderState -> ProviderState
}.

(** The value a [ResumePreviewProvider] whose cell holds [st] passes
    down: [{ improvedData, setImprovedData }]. *)
Definition provided_value (st : ProviderState) : ContextValue :=
  {| improvedData := st; setImprovedData := fun d _ => d |}.

(** [useContext(ResumePreviewContext)] at a place of the component tree
    whose enclosing providers, innermost first, have the given cells:
    the innermost provider's value, or the default [undefined] of
    [createContext<ContextValue | undefined>(undefined)]. *)
Definition useContext (providers : list ProviderState) : option ContextValue :=
  match providers with
  | [] => None
  | st :: _ => Some (provided_value st)
  end.

Definition outside_provider_error : Error :=
  mkError (js "Error") (js "useResumePreview must be used within ResumePreviewProvider").

Definition useResumePreview (providers : list ProviderState) : completion ContextValue :=
  match useContext providers with
  | None => Throw outside_provider_error
  | Some ctx => Normal ctx
  end.

End ResumePreviewContext.

(** ** components/dashboard/vector-analysis.tsx *)

Module VectorAnalysis.
Import ResumePreviewContext.

(** The quotient under "整体覆盖率":
    [well_matched_skills / total_skills_required]. *)
Definition coverage_quotient (stats : CoverageStats) : number :=
  num_div (well_matched_skills stats) (total_skills_required stats).

(** The figure: [((well_matched_skills / total_skills_required) * 100).toFixed(0)]. *)
Definition overall_coverage (stats : CoverageStats) : NumberText :=
  toFixed0 (num_mul (coverage_quotient stats) (num_of_Z 100)).

(** The characters shown: the figure followed by a percent sign. *)
Definition overall_coverage_label (stats : CoverageStats) : option jsstring :=
  match text_units (overall_coverage stats) with
  | Some digits => Some (digits ++ js "%")
  | None => None
  end.

End VectorAnalysis.

(** ** app/dashboard/page.tsx *)

Module Dashboard.
Import ResumePreviewContext.

Inductive Tab := metrics | resume.

(** [v ?? d]. *)
Definition nullish {A} (v : field A) (d : A) : A :=
  match v with
  | Value a => a
  | Undefined | Null => d
  end.

(** [v === undefined]. *)
Definition is_undefined {A} (v : field A) : bool :=
  match v with
  | Undefined => true
  | Null | Value _ => false
  end.

Definition originalPct (d : Data) : number :=
  Math_round (num_mul (nullish (original_score d) (num_of_Z 0)) (num_of_Z 100)).

Definition newPct (d : Data) : number :=
  Math_round (num_mul (nullish (new_score d) (num_of_Z 0)) (num_of_Z 100)).

Definition improvementPct (d : Data) : number :=
  num_sub (newPct d) (originalPct d).

(** The line under the new percentage: an optional "+" and the change. *)
Record ChangeLine := {
  change_plus : bool;
  change_value : number
}.

(** The "匹配度评分" card. *)
Record ScoreCard := {
  shown_original : number;
  shown_new : number;
  shown_change : option ChangeLine
}.

(** The card is rendered when neither score is [undefined]; the change
    line when [improvementPct !== 0]. *)
Definition score_card (d : Data) : option ScoreCard :=
  if negb (is_undefined (original_score d)) && negb (is_undefined (new_score d))
  then
    Some {| shown_original := originalPct d;
            shown_new := newPct d;
            shown_change :=
              if num_strict_ne (improvementPct d) (num_of_Z 0)
              then Some {| change_plus := num_gt (improvementPct d) (num_of_Z 0);
                           change_value := improvementPct d |}
              else None |}
  else None.

(** What follows the suggestion text of an entry:
    [{item.lineNumber && <p>label {item.lineNumber}</p>}].  A truthy
    line number gives the position line, the label followed by the line
    number; a falsy number ([0], [NaN]) is itself rendered; an absent or
    empty one renders nothing. *)
Inductive ItemExtra :=
  | NoExtra
  | PositionLine (label : jsstring) (ln : jsstring + number)
  | BareNumber (x : number).

Definition render_extra (label : jsstring) (ln : option (jsstring + number)) : ItemExtra :=
  match ln with
  | None => NoExtra
  | Some (inl s) => if is_empty s then NoExtra else PositionLine label (inl s)
  | Some (inr x) =>
      if is_zero x || is_NaN x then BareNumber x else PositionLine label (inr x)
  end.

Record PreviewItem := {
  item_text : jsstring;
  item_extra : ItemExtra
}.

(** An entry of the quick preview:
    [<p>{item.suggestion}</p>{item.lineNumber && <p>位置: {item.lineNumber}</p>}]. *)
Definition render_item (item : Improvement) : PreviewItem :=
  {| item_text := suggestion item;
     item_extra := render_extra (js "位置: ") (lineNumber item) |}.

(** [a.slice(0, 3)]. *)
Definition slice_0_3 {A} (a : list A) : list A := take 3 a.

(** The "核心改进建议" box: the entries shown and, when there are more
    than three, the number announced as remaining. *)
Record QuickPreview := {
  preview_items : list PreviewItem;
  preview_remaining : option nat
}.

Definition quick_preview (d : Data) : option QuickPreview :=
  match improvements d with
  | Some l =>
      if (0 <? length l)%nat then
        Some {| preview_items := map render_item (slice_0_3 l);
                preview_remaining :=
                  if (3 <? length l)%nat then Some (length l - 3)%nat else None |}
      else None
  | None => None
  end.

(** Props handed to [ResumeAnalysis]. *)
Record ResumeAnalysisProps := {
  score : number;
  analysis_details : jsstring;
  analysis_commentary : jsstring;
  analysis_improvements : list Improvement
}.

Definition resume_analysis_props (d : Data) : ResumeAnalysisProps :=
  {| score := newPct d;
     analysis_details := default [] (details d);
     analysis_commentary := default [] (commentary d);
     analysis_improvements := default [] (improvements d) |}.

(** The right-hand column under the "metrics" tab. *)
Record MetricsTab := {
  metrics_analysis : ResumeAnalysisProps;
  metrics_preview : option QuickPreview
}.

Record Board := {
  board_score_card : option ScoreCard;
  board_vector_analysis : option VectorAnalysisData;
  board_metrics : option MetricsTab;
  board_resume : option (option ResumePreview);
  board_scores_missing_notice : bool
}.

Inductive View :=
  | EmptyState
  | Analysis (b : Board).

Definition DashboardPage (ctx : ContextValue) (activeTab : Tab) : View :=
  match improvedData ctx with
  | None => EmptyState
  | Some r =>
      let d := data r in
      Analysis
        {| board_score_card := score_card d;
           board_vector_analysis := vector_analysis d;
           board_metrics :=
             match activeTab with
             | metrics =>
                 Some {| metrics_analysis := resume_analysis_props d;
                         metrics_preview := quick_preview d |}
             | resume => None
             end;
           board_resume :=
             match activeTab with
             | resume => Some (resume_preview d)
             | metrics => None
             end;
           board_scores_missing_notice :=
             is_undefined (original_score d) || is_undefined (new_score d) |}
  end.

End Dashboard.

(** ** hooks/use-file-upload.ts

    The upload component imports [useFileUpload], [formatBytes] and
    [FileMetadata] from this module, whose source is not available; what
    the component relies on is modelled here. *)

Module UseFileUpload.

(** Modelled from the spec: the hook's declarations are missing.  A
    selected file as the browser hands it over: name, size in bytes, MIME
    type. *)
Record File := {
  file_name : jsstring;
  file_size : N;
  file_type : jsstring
}.

(** Modelled from the spec: the hook's declarations are missing.
    [FileMetadata] with the properties the component reads: "wraps a
    selected file plus transient upload status flags ([uploaded],
    [uploadError])". *)
Record FileMetadata := {
  meta_name : jsstring;
  meta_size : N;
  meta_type : jsstring;
  uploaded : bool;
  uploadError : option jsstring
}.

(** Modelled from the spec: the hook's declarations are missing.  An
    entry of [files]: the component reads [file] and [id]. *)
Record UploadedFile := {
  file : FileMetadata;
  id : jsstring
}.

(** The options the component passes: [maxSize], [accept], [multiple],
    [uploadUrl] (the three callbacks are the component's own). *)
Record Options := {
  opt_maxSize : N;
  opt_accept : jsstring;
  opt_multiple : bool;
  opt_uploadUrl : jsstring
}.

(** Modelled from the spec: the hook itself is missing.  "performs a
    single HTTP request per file": the POST of one file to [uploadUrl]. *)
Record UploadRequest := {
  request_url : jsstring;
  request_file : File
}.

(** Modelled from the spec: the hook itself is missing.  An entry of
    [errors]; the wording of the messages is not known, so the errors
    are kept by kind. *)
Inductive HookError :=
  | FileTooLarge (f : File)
  | FileTypeNotAccepted (f : File)
  | UploadFailed (msg : jsstring).

(** Modelled from the spec: the hook itself is missing.  The state the
    component destructures ([files], [isDragging], [errors],
    [isUploadingGlobal]), together with the requests sent so far. *)
Record State := {
  files : list UploadedFile;
  isDragging : bool;
  errors : list HookError;
  isUploadingGlobal : bool;
  sent : list UploadRequest
}.

Definition initial : State :=
  {| files := []; isDragging := false; errors := [];
     isUploadingGlobal := false; sent := [] |}.

(** [s.split(sep)] for a one-unit separator. *)
Fixpoint split_on (sep : N) (s : jsstring) : list jsstring :=
  match s with
  | [] => [[]]
  | c :: rest =>
      if c =? sep then [] :: split_on sep rest
      else
        match split_on sep rest with
        | w :: ws => (c :: w) :: ws
        | [] => [[c]]
        end
  end.

(** Modelled from the spec: the hook itself is missing.  "validates file
    type/size against static constants": the accepted MIME types are the
    comma-separated entries of the [accept] option. *)
Definition accepted_types (opts : Options) : list jsstring :=
  split_on 0x2C (opt_accept opts).

(** Modelled from the spec: the hook itself is missing.  "a file above
    the size/type limit is rejected": a file larger than [maxSize], or
    whose type is not an accepted one, fails validation. *)
Definition validateFile (opts : Options) (f : File) : option HookError :=
  if opt_maxSize opts <? file_size f then Some (FileTooLarge f)
  else if bool_decide (file_type f ∈ accepted_types opts) then None
  else Some (FileTypeNotAccepted f).

(** Modelled from the spec: the hook itself is missing.  The metadata
    of a file that has just been selected. *)
Definition metadata_of (f : File) : FileMetadata :=
  {| meta_name := file_name f; meta_size := file_size f; meta_type := file_type f;
     uploaded := false; uploadError := None |}.

(** Modelled from the spec: the hook itself is missing.  "rejected
    before upload" and "performs a single HTTP request per file": a file
    that fails validation only leaves its error behind; a valid file
    becomes the current file and one request is sent for it.  The
    fresh identifier [fid] is supplied by the caller. *)
Definition addFile (opts : Options) (fid : jsstring) (f : File) (st : State) : State :=
  match validateFile opts f with
  | Some err =>
      {| files := files st; isDragging := isDragging st; errors := [err];
         isUploadingGlobal := isUploadingGlobal st; sent := sent st |}
  | None =>
      {| files := (if opt_multiple opts then files st else [])
                    ++ [{| file := metadata_of f; id := fid |}];
         isDragging := isDragging st; errors := [];
         isUploadingGlobal := true;
         sent := sent st ++ [{| request_url := opt_uploadUrl opts; request_file := f |}] |}
  end.

(** Modelled from the spec: the hook itself is missing. *)
Definition clearErrors (st : State) : State :=
  {| files := files st; isDragging := isDragging st; errors := [];
     isUploadingGlobal := isUploadingGlobal st; sent := sent st |}.

(** Modelled from the spec: the hook itself is missing. *)
Definition removeFile (fid : jsstring) (st : State) : State :=
  {| files := filter (fun u => id u ≠ fid) (files st);
     isDragging := isDragging st; errors := [];
     isUploadingGlobal := isUploadingGlobal st; sent := sent st |}.

End UseFileUpload.

(** ** components/common/file-upload.tsx *)

Module FileUpload.
Import UseFileUpload.

Definition acceptedFileTypes : list jsstring :=
  [ js "application/pdf";
    js "application/vnd.openxmlformats-officedocument.wordprocessingml.document" ].

(** [a.join(sep)]. *)
Fixpoint join (sep : jsstring) (a : list jsstring) : jsstring :=
  match a with
  | [] => []
  | [x] => x
  | x :: rest => x ++ sep ++ join sep rest
  end.

Definition acceptString : jsstring := join (js ",") acceptedFileTypes.

(** [`${process.env.NEXT_PUBLIC_API_URL}/api/v1/resumes/upload`]. *)
Definition API_RESUME_UPLOAD_URL (NEXT_PUBLIC_API_URL : jsstring) : jsstring :=
  NEXT_PUBLIC_API_URL ++ js "/api/v1/resumes/upload".

Definition maxSize : N := 2 * 1024 * 1024.

Inductive FeedbackType := success | error.

Record Feedback := {
  fb_type : FeedbackType;
  fb_message : jsstring
}.

(** The component: its own feedback cell, the hook's state, and the
    address last assigned to [window.location.href] (if any). *)
Record State := {
  uploadFeedback : option Feedback;
  hook : UseFileUpload.State;
  location_href : option jsstring
}.

Definition initial : State :=
  {| uploadFeedback := None; hook := UseFileUpload.initial; location_href := None |}.

Definition setUploadFeedback (fb : option Feedback) : Eff State unit :=
  modify (fun st => {| uploadFeedback := fb; hook := hook st;
                       location_href := location_href st |}).

Definition with_hook (f : UseFileUpload.State -> UseFileUpload.State) : Eff State unit :=
  modify (fun st => {| uploadFeedback := uploadFeedback st; hook := f (hook st);
                       location_href := location_href st |}).

Definition set_location_href (url : jsstring) : Eff State unit :=
  modify (fun st => {| uploadFeedback := uploadFeedback st; hook := hook st;
                       location_href := Some url |}).

(** The options handed to [useFileUpload]. *)
Definition options (NEXT_PUBLIC_API_URL : jsstring) : Options :=
  {| opt_maxSize := maxSize;
     opt_accept := acceptString;
     opt_multiple := false;
     opt_uploadUrl := API_RESUME_UPLOAD_URL NEXT_PUBLIC_API_URL |}.

Definition missing_id_feedback : option Feedback :=
  Some {| fb_type := error; fb_message := js "上传成功但未收到简历ID。" |}.

(** [onUploadSuccess]; [response] is the parsed JSON body, a
    [Record<string, unknown>]. *)
Definition onUploadSuccess (uploadedFile : UploadedFile)
    (response : gmap jsstring JSValue) : Eff State unit :=
  let resumeId := string_or_undefined (response !! js "resume_id") in
  if negb (truthy_string resumeId) then
    setUploadFeedback
      (Some {| fb_type := error; fb_message := js "上传成功但未收到简历ID。" |})
  else
    setUploadFeedback
      (Some {| fb_type := success;
               fb_message := meta_name (file uploadedFile) ++ js " 上传成功！" |});;
    with_hook clearErrors;;
    encodedResumeId ← lift (encodeURIComponent (default [] resumeId));
    set_location_href (js "/jobs?resume_id=" ++ encodedResumeId).

(** [onUploadError]: [message: errorMsg || '上传过程中发生未知错误。']. *)
Definition onUploadError (f : UploadedFile) (errorMsg : jsstring) : Eff State unit :=
  setUploadFeedback
    (Some {| fb_type := error;
             fb_message := if is_empty errorMsg then js "上传过程中发生未知错误。"
                           else errorMsg |}).

Definition onFilesChange (currentFiles : list UploadedFile) : Eff State unit :=
  if (length currentFiles =? 0)%nat then setUploadFeedback None else mret tt.

Definition handleRemoveFile (fid : jsstring) : Eff State unit :=
  with_hook (removeFile fid);; setUploadFeedback None.

(** What the error box lists: the feedback message when the feedback is
    an error, the hook's errors otherwise. *)
Definition displayErrors (st : State) : list (jsstring + HookError) :=
  match uploadFeedback st with
  | Some {| fb_type := error; fb_message := m |} => [inl m]
  | _ => map inr (errors (hook st))
  end.

(** A file is picked or dropped: the hook validates it against the
    component's options and uploads it. *)
Definition selectFile (NEXT_PUBLIC_API_URL fid : jsstring) (f : File) : Eff State unit :=
  with_hook (addFile (options NEXT_PUBLIC_API_URL) fid f).

End FileUpload.

(** ** components/jd-upload/text-area.tsx *)

Module JobDescriptionUploadTextArea.
Import ResumePreviewContext.

Inductive SubmissionStatus := idle | submitting | success | error.
Inductive ImprovementStatus := improvement_idle | improving | improvement_error.
Inductive FlashType := flash_error | flash_success.

Record Flash := {
  flash_type : FlashType;
  flash_message : jsstring
}.

(** The five [useState] cells of the form. *)
Record Form := {
  text : jsstring;
  flash : option Flash;
  submissionStatus : SubmissionStatus;
  improvementStatus : ImprovementStatus;
  jobId : option jsstring
}.

(** The calls into [lib/api/resume]; each is one HTTP request.  The
    resume identifier is the value [useSearchParams().get('resume_id')]
    returned, a string or [null]. *)
Inductive Request :=
  | uploadJobDescriptions (descriptions : list jsstring) (resumeId : option jsstring)
  | improveResume (resumeId : option jsstring) (jobId : jsstring).

(** The form together with what surrounds it: the provider's cell, the
    requests in flight, and the route pushed onto the router (if any). *)
Record World := {
  form : Form;
  context : ProviderState;
  pending : list Request;
  route : option jsstring
}.

Definition initial_form : Form :=
  {| text := []; flash := None; submissionStatus := idle;
     improvementStatus := improvement_idle; jobId := None |}.

Definition initial (ctx : ProviderState) : World :=
  {| form := initial_form; context := ctx; pending := []; route := None |}.

Definition with_form (f : Form -> Form) : Eff World unit :=
  modify (fun w => {| form := f (form w); context := context w;
                      pending := pending w; route := route w |}).

Definition setText (v : jsstring) : Eff World unit :=
  with_form (fun f => {| text := v; flash := flash f;
                         submissionStatus := submissionStatus f;
                         improvementStatus := improvementStatus f; jobId := jobId f |}).

Definition setFlash (v : option Flash) : Eff World unit :=
  with_form (fun f => {| text := text f; flash := v;
                         submissionStatus := submissionStatus f;
                         improvementStatus := improvementStatus f; jobId := jobId f |}).

Definition setSubmissionStatus (v : SubmissionStatus) : Eff World unit :=
  with_form (fun f => {| text := text f; flash := flash f;
                         submissionStatus := v;
                         improvementStatus := improvementStatus f; jobId := jobId f |}).

Definition setImprovementStatus (v : ImprovementStatus) : Eff World unit :=
  with_form (fun f => {| text := text f; flash := flash f;
                         submissionStatus := submissionStatus f;
                         improvementStatus := v; jobId := jobId f |}).

Definition setJobId (v : option jsstring) : Eff World unit :=
  with_form (fun f => {| text := text f; flash := flash f;
                         submissionStatus := submissionStatus f;
                         improvementStatus := improvementStatus f; jobId := v |}).

(** The setter obtained from [useResumePreview()]. *)
Definition setImprovedData (v : option ImprovedResult) : Eff World unit :=
  modify (fun w =>
    {| form := form w;
       context := ResumePreviewContext.setImprovedData
                    (provided_value (context w)) v (context w);
       pending := pending w; route := route w |}).

Definition router_push (path : jsstring) : Eff World unit :=
  modify (fun w => {| form := form w; context := context w;
                      pending := pending w; route := Some path |}).

(** Issue an HTTP request: it is in flight until it settles. *)
Definition send (r : Request) : Eff World unit :=
  modify (fun w => {| form := form w; context := context w;
                      pending := pending w ++ [r]; route := route w |}).

(** The current render's view of the state cells. *)
Definition current : Eff World Form := fun w => (w, Normal (form w)).

Definition status_is_idle (s : SubmissionStatus) : bool :=
  match s with idle => true | _ => false end.

Definition status_is_submitting (s : SubmissionStatus) : bool :=
  match s with submitting => true | _ => false end.

Definition status_is_success (s : SubmissionStatus) : bool :=
  match s with success => true | _ => false end.

Definition status_is_improving (s : ImprovementStatus) : bool :=
  match s with improving => true | _ => false end.

Definition handleChange (value : jsstring) : Eff World unit :=
  f ← current;
  setText value;;
  setFlash None;;
  if negb (status_is_idle (submissionStatus f)) then setSubmissionStatus idle
  else mret tt.

(** [handleUpload] up to its [await]. *)
Definition handleUpload (resumeId : option jsstring) : Eff World unit :=
  f ← current;
  let trimmed := trim (text f) in
  if is_empty trimmed then
    setFlash (Some {| flash_type := flash_error;
                      flash_message := js "工作描述不能为空。" |})
  else if negb (truthy_string resumeId) then
    setFlash (Some {| flash_type := flash_error;
                      flash_message := js "缺少简历ID。" |})
  else
    setSubmissionStatus submitting;;
    send (uploadJobDescriptions [trimmed] resumeId).

(** [handleUpload] from its [await] on: the rest of the [try] block and
    the [catch] clause, run with the outcome of the request. *)
Definition handleUpload_settled (outcome : completion jsstring) : Eff World unit :=
  try_catch
    (id ← lift outcome;
     setJobId (Some id);;
     setSubmissionStatus success;;
     setFlash (Some {| flash_type := flash_success;
                       flash_message := js "工作描述提交成功！" |}))
    (fun err =>
       setSubmissionStatus error;;
       setFlash (Some {| flash_type := flash_error; flash_message := message err |})).

(** [handleImprove] up to its [await]. *)
Definition handleImprove (resumeId : option jsstring) : Eff World unit :=
  f ← current;
  if negb (truthy_string (jobId f)) then mret tt
  else
    setImprovementStatus improving;;
    send (improveResume resumeId (default [] (jobId f))).

(** [handleImprove] from its [await] on. *)
Definition handleImprove_settled (outcome : completion ImprovedResult) : Eff World unit :=
  try_catch
    (preview ← lift outcome;
     setImprovedData (Some preview);;
     router_push (js "/dashboard"))
    (fun err =>
       setImprovementStatus improvement_error;;
       setFlash (Some {| flash_type := flash_error; flash_message := message err |})).

(** [isNextDisabled]: the [disabled] attribute of the submit button. *)
Definition isNextDisabled (f : Form) : bool :=
  is_empty (trim (text f)) || status_is_submitting (submissionStatus f).

(** The second button is rendered when
    [submissionStatus === 'success' && jobId]. *)
Definition improve_button_rendered (f : Form) : bool :=
  status_is_success (submissionStatus f) && truthy_string (jobId f).

(** Its [disabled] attribute. *)
Definition improve_button_disabled (f : Form) : bool :=
  status_is_improving (improvementStatus f).

(** *** The form as a transition system

    The user edits the text, presses a button that is rendered and
    enabled, or a request in flight settles.  Pushing the router to the
    dashboard does not stop the form at once, so the transitions do not
    depend on [route]. *)

Inductive Event :=
  | Change (value : jsstring)
  | Submit
  | Improve
  | UploadSettled (k : nat) (outcome : completion jsstring)
  | ImproveSettled (k : nat) (outcome : completion ImprovedResult).

Definition run (h : Eff World unit) (w : World) : World := fst (h w).

(** The request at position [k] leaves the list of requests in flight. *)
Definition settle (k : nat) (w : World) : World :=
  {| form := form w; context := context w;
     pending := delete k (pending w); route := route w |}.

Inductive step (resumeId : option jsstring) : World -> Event -> World -> Prop :=
  | step_change w v :
      step resumeId w (Change v) (run (handleChange v) w)
  | step_submit w :
      isNextDisabled (form w) = false ->
      step resumeId w Submit (run (handleUpload resumeId) w)
  | step_improve w :
      improve_button_rendered (form w) = true ->
      improve_button_disabled (form w) = false ->
      step resumeId w Improve (run (handleImprove resumeId) w)
  | step_upload_settled w k descriptions rid outcome :
      pending w !! k = Some (uploadJobDescriptions descriptions rid) ->
      step resumeId w (UploadSettled k outcome)
           (run (handleUpload_settled outcome) (settle k w))
  | step_improve_settled w k rid jid outcome :
      pending w !! k = Some (improveResume rid jid) ->
      step resumeId w (ImproveSettled k outcome)
           (run (handleImprove_settled outcome) (settle k w)).

Inductive reachable (resumeId : option jsstring) (ctx : ProviderState) : World -> Prop :=
  | reachable_initial : reachable resumeId ctx (initial ctx)
  | reachable_step w e w' :
      reachable resumeId ctx w ->
      step resumeId w e w' ->
      reachable resumeId ctx w'.

Definition is_upload (r : Request) : bool :=
  match r with uploadJobDescriptions _ _ => true | improveResume _ _ => false end.

Definition is_improve (r : Request) : bool :=
  match r with improveResume _ _ => true | uploadJobDescriptions _ _ => false end.

(** How many improvement requests are in flight. *)
Definition improvements_in_flight (w : World) : nat :=
  length (filter (fun r => is_improve r = true) (pending w)).

(** At most one improvement request is in flight, and while one is, the
    status says so. *)
Definition improvement_guarded (w : World) : Prop :=
  improvements_in_flight w = 0%nat
  \/ (improvements_in_flight w = 1%nat
      /\ improvementStatus (form w) = improving).

(** The same transitions as a function: the state after an event, or
    [None] when the event cannot happen in [w]. *)
Definition apply_event (resumeId : option jsstring) (w : World) (e : Event)
    : option World :=
  match e with
  | Change v => Some (run (handleChange v) w)
  | Submit =>
      if isNextDisabled (form w) then None
      else Some (run (handleUpload resumeId) w)
  | Improve =>
      if improve_button_rendered (form w)
         && negb (improve_button_disabled (form w))
      then Some (run (handleImprove resumeId) w)
      else None
  | UploadSettled k outcome =>
      match pending w !! k with
      | Some (uploadJobDescriptions _ _) =>
          Some (run (handleUpload_settled outcome) (settle k w))
      | _ => None
      end
  | ImproveSettled k outcome =>
      match pending w !! k with
      | Some (improveResume _ _) =>
          Some (run (handleImprove_settled outcome) (settle k w))
      | _ => None
      end
  end.

Fixpoint apply_events (resumeId : option jsstring) (w : World) (es : list Event)
    : option World :=
  match es with
  | [] => Some w
  | e :: rest =>
      match apply_event resumeId w e with
      | Some w' => apply_events resumeId w' rest
      | None => None
      end
  end.

End JobDescriptionUploadTextArea.

(** ** components/dashboard/resume-analysis.tsx *)

Module ResumeAnalysis.
Import ResumePreviewContext.

(** [x >= y] on numbers. *)
Definition num_ge (x y : number) : bool := SFleb y x.

Definition getScoreColor (value : number) : jsstring :=
  if num_ge value (num_of_Z 80) then js "text-green-400"
  else if num_ge value (num_of_Z 60) then js "text-yellow-400"
  else js "text-red-400".

Definition getScoreGlow (value : number) : jsstring :=
  if num_ge value (num_of_Z 80) then js "drop-shadow-[0_0_10px_rgba(34,197,94,0.5)]"
  else if num_ge value (num_of_Z 60) then js "drop-shadow-[0_0_10px_rgba(251,191,36,0.5)]"
  else js "drop-shadow-[0_0_10px_rgba(239,68,68,0.5)]".

(** The colour classes of the progress bar in the dialog. *)
Definition bar_colour (score : number) : jsstring :=
  if num_ge score (num_of_Z 80)
  then js "bg-gradient-to-r from-green-500 to-green-400 shadow-[0_0_10px_rgba(34,197,94,0.5)]"
  else if num_ge score (num_of_Z 60)
  then js "bg-gradient-to-r from-yellow-500 to-yellow-400 shadow-[0_0_10px_rgba(251,191,36,0.5)]"
  else js "bg-gradient-to-r from-red-500 to-red-400 shadow-[0_0_10px_rgba(239,68,68,0.5)]".

(** [s.length > 100 ? s.slice(0, 97) + '...' : s], the shortening applied
    to [details] and to [commentary]. *)
Definition truncated (s : jsstring) : jsstring :=
  if (100 <? length s)%nat then take 97 s ++ js "..." else s.

Definition truncatedDetails (details : jsstring) : jsstring := truncated details.
Definition truncatedCommentary (commentary : jsstring) : jsstring := truncated commentary.

(** An entry of the dialog's list:
    [<li><p>{item.suggestion}</p>
         {item.lineNumber && <p>参考位置: {item.lineNumber}</p>}</li>]. *)
Definition render_suggestion (item : Improvement) : Dashboard.PreviewItem :=
  {| Dashboard.item_text := suggestion item;
     Dashboard.item_extra :=
       Dashboard.render_extra (js "参考位置: ") (lineNumber item) |}.

(** The "改进建议" part of the dialog: the list of all suggestions, or the
    sentence shown when there is none
    ([improvements.length > 0 ? <ul>...</ul> : <p>...</p>]). *)
Inductive SuggestionsPart :=
  | SuggestionList (items : list Dashboard.PreviewItem)
  | NoSuggestions (text : jsstring).

Definition suggestions_part (improvements : list Improvement) : SuggestionsPart :=
  if (0 <? length improvements)%nat
  then SuggestionList (map render_suggestion improvements)
  else NoSuggestions (js "暂时没有具体的改进建议。").

(** What the component shows: the card that opens the dialog, and the
    dialog. *)
Record View := {
  card_score : number;
  card_colour : jsstring;
  card_glow : jsstring;
  card_details : jsstring;
  card_commentary : jsstring;
  dialog_score : number;
  dialog_colour : jsstring;
  dialog_glow : jsstring;
  dialog_bar : jsstring;
  dialog_details : jsstring;
  dialog_commentary : jsstring;
  dialog_suggestions : SuggestionsPart
}.

Definition ResumeAnalysis (props : Dashboard.ResumeAnalysisProps) : View :=
  let score := Dashboard.score props in
  {| card_score := score;
     card_colour := getScoreColor score;
     card_glow := getScoreGlow score;
     card_details := truncatedDetails (Dashboard.analysis_details props);
     card_commentary := truncatedCommentary (Dashboard.analysis_commentary props);
     dialog_score := score;
     dialog_colour := getScoreColor score;
     dialog_glow := getScoreGlow score;
     dialog_bar := bar_colour score;
     dialog_details := Dashboard.analysis_details props;
     dialog_commentary := Dashboard.analysis_commentary props;
     dialog_suggestions := suggestions_part (Dashboard.analysis_improvements props) |}.

End ResumeAnalysis.

(** ** components/dashboard/vector-analysis.tsx, the card and the lists *)

Module VectorAnalysisCard.
Import ResumePreviewContext.

(** The literals [0.8], [0.6] and [0.3]: the binary64 numbers closest to
    8/10, 6/10 and 3/10, which correctly rounded division yields. *)
Definition lit_0_8 : number := num_div (num_of_Z 8) (num_of_Z 10).
Definition lit_0_6 : number := num_div (num_of_Z 6) (num_of_Z 10).
Definition lit_0_3 : number := num_div (num_of_Z 3) (num_of_Z 10).

Definition getMatchColor (score : number) : jsstring :=
  if num_gt score lit_0_8 then js "text-green-400 bg-green-500/20 border-green-500/30"
  else if num_gt score lit_0_6 then js "text-blue-400 bg-blue-500/20 border-blue-500/30"
  else if num_gt score lit_0_3 then js "text-yellow-400 bg-yellow-500/20 border-yellow-500/30"
  else js "text-red-400 bg-red-500/20 border-red-500/30".

Definition getMatchIcon (score : number) : jsstring :=
  if num_gt score lit_0_8 then js "🎯"
  else if num_gt score lit_0_6 then js "✅"
  else if num_gt score lit_0_3 then js "⚡"
  else js "❌".

Definition getPriorityColor (severity : jsstring) : jsstring :=
  if bool_decide (severity = js "高") then js "text-red-400 bg-red-500/20"
  else if bool_decide (severity = js "中") then js "text-yellow-400 bg-yellow-500/20"
  else js "text-gray-400 bg-gray-500/20".

(** [s || d] on strings. *)
Definition or_else (s d : jsstring) : jsstring := if is_empty s then d else s.

(** ["强势技能: "]:
    [strength_areas.slice(0, 3).map(s => s.strong_skill).join(', ') || '无']. *)
Definition strengths_preview (v : VectorAnalysisData) : jsstring :=
  or_else (FileUpload.join (js ", ")
             (map strong_skill (Dashboard.slice_0_3 (strength_areas v))))
          (js "无").

(** ["缺失技能: "]:
    [coverage_gaps.slice(0, 3).map(g => g.missing_skill).join(', ') || '无']. *)
Definition gaps_preview (v : VectorAnalysisData) : jsstring :=
  or_else (FileUpload.join (js ", ")
             (map missing_skill (Dashboard.slice_0_3 (coverage_gaps v))))
          (js "无").

(** A row of "逐项技能匹配分析". *)
Record SkillRow := {
  row_colour : jsstring;
  row_icon : jsstring;
  row_skill : jsstring;
  row_best_match : jsstring;
  row_percent : NumberText;
  row_level : jsstring
}.

Definition skill_row (skill : SkillAnalysis) : SkillRow :=
  {| row_colour := getMatchColor (similarity_score skill);
     row_icon := getMatchIcon (similarity_score skill);
     row_skill := job_skill skill;
     row_best_match := best_resume_match skill;
     row_percent := toFixed0 (num_mul (similarity_score skill) (num_of_Z 100));
     row_level := match_level skill |}.

(** A row of "技能缺口分析". *)
Record GapRow := {
  gap_colour : jsstring;
  gap_skill : jsstring;
  gap_action : jsstring;
  gap_badge : jsstring
}.

Definition gap_row (gap : CoverageGap) : GapRow :=
  {| gap_colour := getPriorityColor (gap_severity gap);
     gap_skill := missing_skill gap;
     gap_action := suggested_action gap;
     gap_badge := gap_severity gap ++ js "优先级" |}.

(** The sections of the dialog; the gap and strength sections are
    rendered only for non-empty lists. *)
Record Dialog := {
  skill_rows : list SkillRow;
  gap_section : option (list GapRow);
  strength_section : option (list StrengthArea);
  overall : NumberText
}.

Definition dialog (v : VectorAnalysisData) : Dialog :=
  {| skill_rows := map skill_row (skill_by_skill_analysis v);
     gap_section :=
       if (0 <? length (coverage_gaps v))%nat
       then Some (map gap_row (coverage_gaps v)) else None;
     strength_section :=
       if (0 <? length (strength_areas v))%nat
       then Some (strength_areas v) else None;
     overall := VectorAnalysis.overall_coverage (coverage_statistics v) |}.

End VectorAnalysisCard.

(** ** components/common/file-upload.tsx, what is rendered *)

Module FileUploadView.
Import UseFileUpload FileUpload.

(** [files[0]]. *)
Definition currentFile (st : FileUpload.State) : option UploadedFile :=
  head (files (hook st)).

(** The drop zone reacts to click and keyboard ([tabIndex] 0,
    [onClick={openFileDialog}]) when [!currentFile && !isUploadingGlobal]. *)
Definition dropzone_opens_dialog (st : FileUpload.State) : bool :=
  negb (bool_decide (is_Some (currentFile st)))
  && negb (isUploadingGlobal (hook st)).

(** [aria-disabled={Boolean(currentFile) || isUploadingGlobal}]. *)
Definition aria_disabled (st : FileUpload.State) : bool :=
  bool_decide (is_Some (currentFile st)) || isUploadingGlobal (hook st).

(** The drag handlers are attached unless an upload is running. *)
Definition drag_handlers_attached (st : FileUpload.State) : bool :=
  negb (isUploadingGlobal (hook st)).

(** The red box: rendered when
    [displayErrors.length > 0 && !isUploadingGlobal &&
     (!uploadFeedback || uploadFeedback.type === 'error')]. *)
Definition error_box (st : FileUpload.State) : option (list (jsstring + HookError)) :=
  if (0 <? length (displayErrors st))%nat
     && negb (isUploadingGlobal (hook st))
     && match uploadFeedback st with
        | None => true
        | Some fb => match fb_type fb with error => true | success => false end
        end
  then Some (displayErrors st)
  else None.

(** The green box: rendered when
    [uploadFeedback && uploadFeedback.type === 'success']. *)
Definition success_box (st : FileUpload.State) : option jsstring :=
  match uploadFeedback st with
  | Some fb => match fb_type fb with
               | success => Some (fb_message fb)
               | error => None
               end
  | None => None
  end.

(** The status text of the file row. *)
Definition status_label (m : FileMetadata) : jsstring :=
  if uploaded m then js "已上传"
  else if truthy_string (uploadError m) then js "上传失败"
  else js "等待上传".

(** The file row: rendered when [currentFile && !isUploadingGlobal]. *)
Record FileRow := {
  row_name : jsstring;
  row_size : N;
  row_status : jsstring;
  row_file_id : jsstring
}.

Definition file_row (st : FileUpload.State) : option FileRow :=
  match currentFile st with
  | Some u =>
      if negb (isUploadingGlobal (hook st))
      then Some {| row_name := meta_name (file u);
                   row_size := meta_size (file u);
                   row_status := status_label (file u);
                   row_file_id := id u |}
      else None
  | None => None
  end.

End FileUploadView.

(** ** app/dashboard/page.tsx, the handlers *)

Module DashboardHandlers.
Import ResumePreviewContext.

(** The button under the "scores missing" notice:
    [onClick={() => { setImprovedData(null); ... }}]. *)
Definition clear_data (ctx : ContextValue) (cell : ProviderState) : ProviderState :=
  setImprovedData ctx None cell.

End DashboardHandlers.

(** ** The address bar

    [window.location.href = ...] on the upload page and
    [useSearchParams().get('resume_id')] on the jobs page meet in the
    browser: the URL parser turns the assigned reference into a URL, and
    [URLSearchParams] parses its query.  Both are modelled after the URL
    and Encoding standards, for references made of a path, a query and a
    fragment on an http(s) page. *)

Module URL.

(** The code points of a string read as a sequence of scalar values
    (the conversion to a [USVString]): a surrogate pair is one code
    point, a lone surrogate becomes U+FFFD. *)
Fixpoint scalar_values (s : jsstring) : list N :=
  match s with
  | [] => []
  | c :: rest =>
      if is_lead_surrogate c then
        match rest with
        | d :: rest' =>
            if is_trail_surrogate d
            then ((c - 0xD800) * 0x400 + (d - 0xDC00) + 0x10000) :: scalar_values rest'
            else 0xFFFD :: scalar_values rest
        | [] => [0xFFFD]
        end
      else if is_trail_surrogate c then 0xFFFD :: scalar_values rest
      else c :: scalar_values rest
  end.

Definition is_c0_or_space (c : N) : bool := c <=? 0x20.
Definition is_tab_or_newline (c : N) : bool := (c =? 0x09) || (c =? 0x0A) || (c =? 0x0D).

Fixpoint drop_while (p : N -> bool) (l : list N) : list N :=
  match l with
  | [] => []
  | c :: rest => if p c then drop_while p rest else l
  end.

(** The URL parser first removes leading and trailing C0 controls and
    spaces, then every tab and newline. *)
Definition strip_input (input : list N) : list N :=
  filter (fun c => is_tab_or_newline c = false)
         (rev (drop_while is_c0_or_space (rev (drop_while is_c0_or_space input)))).

(** The part of [l] before the first [sep]. *)
Fixpoint before_first (sep : N) (l : list N) : list N :=
  match l with
  | [] => []
  | c :: rest => if c =? sep then [] else c :: before_first sep rest
  end.

(** The part of [l] after the first [sep], if there is one. *)
Fixpoint after_first (sep : N) (l : list N) : option (list N) :=
  match l with
  | [] => None
  | c :: rest => if c =? sep then Some rest else after_first sep rest
  end.

(** The special-query percent-encode set: C0 controls, everything above
    the tilde, the space, the double quote, the number sign, the angle
    brackets and the apostrophe. *)
Definition in_special_query_set (c : N) : bool :=
  (c <=? 0x1F) || (0x7E <? c) || (c =? 0x20) || (c =? 0x22) || (c =? 0x23)
  || (c =? 0x3C) || (c =? 0x3E) || (c =? 0x27).

Definition query_encode (c : N) : list N :=
  if in_special_query_set c then percent_encode c else [c].

(** The query of the URL that a relative reference made of a path, a
    query and a fragment resolves to on an http(s) page: what lies
    between the first [?] and the first [#], percent-encoded by the
    parser's query state. *)
Definition query_of_href (href : jsstring) : option (list N) :=
  let input := strip_input (scalar_values href) in
  match after_first 0x3F (before_first 0x23 input) with
  | Some q => Some (flat_map query_encode q)
  | None => None
  end.

Definition hex_value (c : N) : option N :=
  if (0x30 <=? c) && (c <=? 0x39) then Some (c - 0x30)
  else if (0x41 <=? c) && (c <=? 0x46) then Some (c - 0x41 + 10)
  else if (0x61 <=? c) && (c <=? 0x66) then Some (c - 0x61 + 10)
  else None.

(** Percent-decoding of a byte sequence. *)
Fixpoint percent_decode (bs : list N) : list N :=
  match bs with
  | [] => []
  | b :: rest =>
      if b =? 0x25 then
        match rest with
        | h :: l :: rest' =>
            match hex_value h, hex_value l with
            | Some hv, Some lv => (hv * 16 + lv) :: percent_decode rest'
            | _, _ => b :: percent_decode rest
            end
        | _ => b :: percent_decode rest
        end
      else b :: percent_decode rest
  end.

(** The UTF-8 decoder of the Encoding standard, errors replaced by
    U+FFFD. *)
Record Utf8State := {
  code_point : N;
  bytes_seen : N;
  bytes_needed : N;
  lower_boundary : N;
  upper_boundary : N
}.

Inductive Utf8Step :=
  | Emit (cp : N)
  | Continue (st : Utf8State)
  | Invalid.

(** A byte met while no sequence is open. *)
Definition utf8_lead (b : N) : Utf8Step :=
  if b <=? 0x7F then Emit b
  else if (0xC2 <=? b) && (b <=? 0xDF) then
    Continue {| code_point := N.land b 0x1F; bytes_seen := 0; bytes_needed := 1;
                lower_boundary := 0x80; upper_boundary := 0xBF |}
  else if (0xE0 <=? b) && (b <=? 0xEF) then
    Continue {| code_point := N.land b 0xF; bytes_seen := 0; bytes_needed := 2;
                lower_boundary := if b =? 0xE0 then 0xA0 else 0x80;
                upper_boundary := if b =? 0xED then 0x9F else 0xBF |}
  else if (0xF0 <=? b) && (b <=? 0xF4) then
    Continue {| code_point := N.land b 0x7; bytes_seen := 0; bytes_needed := 3;
                lower_boundary := if b =? 0xF0 then 0x90 else 0x80;
                upper_boundary := if b =? 0xF4 then 0x8F else 0xBF |}
  else Invalid.

Fixpoint utf8_decode_from (st : option Utf8State) (bs : list N) : list N :=
  match bs with
  | [] => match st with None => [] | Some _ => [0xFFFD] end
  | b :: rest =>
      match st with
      | None =>
          match utf8_lead b with
          | Emit cp => cp :: utf8_decode_from None rest
          | Continue st' => utf8_decode_from (Some st') rest
          | Invalid => 0xFFFD :: utf8_decode_from None rest
          end
      | Some s =>
          if (lower_boundary s <=? b) && (b <=? upper_boundary s) then
            let cp := N.lor (N.shiftl (code_point s) 6) (N.land b 0x3F) in
            if bytes_seen s + 1 =? bytes_needed s
            then cp :: utf8_decode_from None rest
            else utf8_decode_from
                   (Some {| code_point := cp; bytes_seen := bytes_seen s + 1;
                            bytes_needed := bytes_needed s;
                            lower_boundary := 0x80; upper_boundary := 0xBF |})
                   rest
          else
            (* the sequence is abandoned and the byte is read again *)
            0xFFFD ::
            match utf8_lead b with
            | Emit cp => cp :: utf8_decode_from None rest
            | Continue st' => utf8_decode_from (Some st') rest
            | Invalid => 0xFFFD :: utf8_decode_from None rest
            end
      end
  end.

(** "UTF-8 decode without BOM", the result as a string. *)
Definition utf8_decode (bs : list N) : jsstring :=
  flat_map units_of_code_point (utf8_decode_from None bs).

Definition plus_to_space (bs : list N) : list N :=
  map (fun b => if b =? 0x2B then 0x20 else b) bs.

(** One name-value pair of the [application/x-www-form-urlencoded]
    parser. *)
Definition parse_pair (bytes : list N) : jsstring * jsstring :=
  let name := before_first 0x3D bytes in
  let value := default [] (after_first 0x3D bytes) in
  (utf8_decode (percent_decode (plus_to_space name)),
   utf8_decode (percent_decode (plus_to_space value))).

(** The parser: the pieces between [&], the empty ones skipped. *)
Definition parse_urlencoded (input : list N) : list (jsstring * jsstring) :=
  map parse_pair
      (filter (fun piece => piece <> []) (UseFileUpload.split_on 0x26 input)).

(** [URLSearchParams.prototype.get]. *)
Fixpoint get (name : jsstring) (pairs : list (jsstring * jsstring)) : option jsstring :=
  match pairs with
  | [] => None
  | (n, v) :: rest => if bool_decide (n = name) then Some v else get name rest
  end.

(** [useSearchParams().get(name)] on the page a navigation to [href]
    leads to. *)
Definition useSearchParams_get (name href : jsstring) : option jsstring :=
  get name (parse_urlencoded (default [] (query_of_href href))).

End URL.

(** ** Notions used in the statements *)

Module Notions.

(** A string on which [trimStart] does nothing is empty or starts with a
    unit that is not white space. *)
Definition starts_clean (s : jsstring) : Prop :=
  match s with
  | [] => True
  | c :: _ => is_white_space c = false
  end.

(** A request as the form is meant to issue it, on a page opened with
    [resumeId]: a submission carries that identifier, which is a
    non-empty string, and exactly one description, which is not empty
    and which [trim] leaves alone; an improvement request carries that
    identifier and a non-empty job identifier. *)
Definition request_well_formed (resumeId : option jsstring)
    (r : JobDescriptionUploadTextArea.Request) : Prop :=
  match r with
  | JobDescriptionUploadTextArea.uploadJobDescriptions ds rid =>
      rid = resumeId /\ truthy_string rid = true
      /\ exists d, ds = [d] /\ d <> [] /\ trim d = d
  | JobDescriptionUploadTextArea.improveResume rid jid =>
      rid = resumeId /\ truthy_string rid = true /\ jid <> []
  end.

(** All requests in flight are well formed, and a job identifier is
    only stored on a page that has a resume identifier. *)
Definition requests_sound (resumeId : option jsstring)
    (w : JobDescriptionUploadTextArea.World) : Prop :=
  Forall (request_well_formed resumeId) (JobDescriptionUploadTextArea.pending w)
  /\ (is_Some (JobDescriptionUploadTextArea.jobId
                 (JobDescriptionUploadTextArea.form w)) ->
      truthy_string resumeId = true).

(** How many submissions are in flight. *)
Definition uploads_in_flight (w : JobDescriptionUploadTextArea.World) : nat :=
  length (filter (fun r => JobDescriptionUploadTextArea.is_upload r = true)
                 (JobDescriptionUploadTextArea.pending w)).

(** The route and the provider's cell go together: as long as the router
    has not been pushed the cell is the one the page started with, and
    once it has been pushed, to the dashboard, the cell holds a result. *)
Definition route_consistent (ctx : ResumePreviewContext.ProviderState)
    (w : JobDescriptionUploadTextArea.World) : Prop :=
  match JobDescriptionUploadTextArea.route w with
  | None => JobDescriptionUploadTextArea.context w = ctx
  | Some path =>
      path = js "/dashboard" /\ is_Some (JobDescriptionUploadTextArea.context w)
  end.

(** What follows the text of an entry in the quick preview and in the
    dialog is the same up to the label of the position line: ['位置: ']
    in the preview, ['参考位置: '] in the dialog. *)
Definition position_agrees (preview dialog : Dashboard.ItemExtra) : Prop :=
  match preview, dialog with
  | Dashboard.NoExtra, Dashboard.NoExtra => True
  | Dashboard.PositionLine lab ln, Dashboard.PositionLine lab' ln' =>
      lab = js "位置: " /\ lab' = js "参考位置: " /\ ln = ln'
  | Dashboard.BareNumber x, Dashboard.BareNumber x' => x = x'
  | _, _ => False
  end.

(** Unicode scalar values: the code points that are not surrogates. *)
Definition is_scalar_value (cp : N) : Prop :=
  cp < 0xD800 \/ (0xE000 <= cp /\ cp < 0x110000).

(** Printable ASCII: above the space, below DEL. *)
Definition printable (c : N) : Prop := 0x20 < c /\ c < 0x7F.

(** Units an encoded URI component is made of: the unreserved ones and
    the percent sign. *)
Definition is_component_unit (c : N) : bool := is_uri_unescaped c || (c =? 0x25).

End Notions.

(** ** Sample inputs *)

Module Samples.
Import ResumePreviewContext.

(** The number [p / q] for integer literals [p] and [q]. *)
Definition ratio (p q : Z) : number := num_div (num_of_Z p) (num_of_Z q).

Definition stats_of (well_matched total : number) : CoverageStats :=
  {| high_coverage := num_of_Z 0; medium_coverage := num_of_Z 0;
     low_coverage := num_of_Z 0; total_skills_required := total;
     well_matched_skills := well_matched; gaps_count := num_of_Z 0 |}.

(** Three well-matched skills reported against no required skill. *)
Definition stats_three_of_zero : CoverageStats :=
  stats_of (num_of_Z 3) (num_of_Z 0).

Definition stats_zero_of_zero : CoverageStats :=
  stats_of (num_of_Z 0) (num_of_Z 0).

Definition stats_three_of_four : CoverageStats :=
  stats_of (num_of_Z 3) (num_of_Z 4).

(** All counts [(well_matched, total)] with [1 <= total <= n] and
    [well_matched <= total]. *)
Definition counts_up_to (n : nat) : list (Z * Z) :=
  t ← seqZ 1 (Z.of_nat n); (fun m => (m, t)) <$> seqZ 0 (t + 1).

(** A figure between "0" and "100". *)
Definition is_percentage (t : NumberText) : bool :=
  match t with
  | TextDigits false n => n <=? 100
  | _ => false
  end.

Definition tip (s : string) : Improvement :=
  {| suggestion := js s; lineNumber := None |}.

Definition five_tips : list Improvement :=
  [tip "a"; tip "b"; tip "c"; tip "d"; tip "e"].

Definition data_with (original new : field number)
    (tips : option (list Improvement)) : Data :=
  {| request_id := js "req-1"; resume_id := js "res-1"; job_id := js "job-1";
     original_score := original; new_score := new;
     resume_preview := None; details := None; commentary := None;
     improvements := tips; vector_analysis := None |}.

(** Scores 0.285 and 0.62, five suggestions. *)
Definition sample_data : Data :=
  data_with (Value (ratio 285 1000)) (Value (ratio 62 100)) (Some five_tips).

(** The form at [/jobs?resume_id=r-1]. *)
Definition r1 : option jsstring := Some (js "r-1").

(** A description is submitted and accepted, the analysis is started,
    and the description is submitted once more while the analysis is
    still running. *)
Definition submit_during_analysis : list JobDescriptionUploadTextArea.Event :=
  [ JobDescriptionUploadTextArea.Change (js "dev");
    JobDescriptionUploadTextArea.Submit;
    JobDescriptionUploadTextArea.UploadSettled 0 (Normal (js "j-1"));
    JobDescriptionUploadTextArea.Improve;
    JobDescriptionUploadTextArea.Submit ].

Definition world_with_two_requests : JobDescriptionUploadTextArea.World :=
  {| JobDescriptionUploadTextArea.form :=
       {| JobDescriptionUploadTextArea.text := js "dev";
          JobDescriptionUploadTextArea.flash :=
            Some {| JobDescriptionUploadTextArea.flash_type :=
                      JobDescriptionUploadTextArea.flash_success;
                    JobDescriptionUploadTextArea.flash_message :=
                      js "工作描述提交成功！" |};
          JobDescriptionUploadTextArea.submissionStatus :=
            JobDescriptionUploadTextArea.submitting;
          JobDescriptionUploadTextArea.improvementStatus :=
            JobDescriptionUploadTextArea.improving;
          JobDescriptionUploadTextArea.jobId := Some (js "j-1") |};
     JobDescriptionUploadTextArea.context := None;
     JobDescriptionUploadTextArea.pending :=
       [ JobDescriptionUploadTextArea.improveResume r1 (js "j-1");
         JobDescriptionUploadTextArea.uploadJobDescriptions [js "dev"] r1 ];
     JobDescriptionUploadTextArea.route := None |}.

(** The text is edited while its submission is in flight, and submitted
    again. *)
Definition edit_during_submission : list JobDescriptionUploadTextArea.Event :=
  [ JobDescriptionUploadTextArea.Change (js "dev");
    JobDescriptionUploadTextArea.Submit;
    JobDescriptionUploadTextArea.Change (js "devs");
    JobDescriptionUploadTextArea.Submit ].

End Samples.

(** * Properties *)

Import ResumePreviewContext.

(** ** The context hook *)

(** C8: outside every [ResumePreviewProvider] the hook throws the Error
    'useResumePreview must be used within ResumePreviewProvider'; under a
    provider it returns, without throwing, the provider's value, whose
    [improvedData] is the provider's cell and whose [setImprovedData]
    writes that cell. *)
Theorem useResumePreview_provider_contract :
  useResumePreview [] =
    Throw (mkError (js "Error")
             (js "useResumePreview must be used within ResumePreviewProvider"))
  /\ forall (st : ProviderState) (outer : list ProviderState),
       exists ctx : ContextValue,
         useResumePreview (st :: outer) = Normal ctx
         /\ improvedData ctx = st
         /\ forall v cell, setImprovedData ctx v cell = v.
Proof.
  split; first reflexivity.
  intros st outer. exists (provided_value st). by repeat split.
Qed.

(** ** The dashboard *)

Import Dashboard.

(** [round_half_up v e] is the integer [n] with
    [n - 1/2 <= v·2^e < n + 1/2]. *)
Lemma round_half_up_spec (v e : Z) :
  (e < 0)%Z ->
  ((2 * round_half_up v e - 1) * 2 ^ (- e) <= 2 * v
   /\ 2 * v < (2 * round_half_up v e + 1) * 2 ^ (- e))%Z.
Proof.
  intros He. unfold round_half_up.
  assert (Hd : (0 < 2 ^ (- e))%Z) by (apply Z.pow_pos_nonneg; lia).
  replace (1 - e)%Z with (Z.succ (- e)) by lia.
  rewrite Z.pow_succ_r by lia.
  set (d := (2 ^ (- e))%Z) in *.
  pose proof (Z.mul_div_le (2 * v + d) (2 * d) ltac:(lia)) as Hle.
  pose proof (Z.mul_succ_div_gt (2 * v + d) (2 * d) ltac:(lia)) as Hgt.
  set (n := ((2 * v + d) / (2 * d))%Z) in *.
  split; nia.
Qed.

Lemma math_round_examples :
  Math_round (Samples.ratio 1 2) = num_of_Z 1
  /\ Math_round (Samples.ratio 3 2) = num_of_Z 2
  /\ Math_round (Samples.ratio 5 2) = num_of_Z 3
  /\ Math_round (Samples.ratio (-1) 2) = S754_zero true
  /\ Math_round (Samples.ratio (-3) 2) = num_of_Z (-1)
  /\ Math_round (Samples.ratio (-5) 2) = num_of_Z (-2)
  /\ Math_round (Samples.ratio 49 100) = S754_zero false
  /\ Math_round (num_mul (Samples.ratio 285 1000) (num_of_Z 100)) = num_of_Z 28
  /\ Math_round (num_of_Z 7) = num_of_Z 7
  /\ Math_round S754_nan = S754_nan.
Proof. vm_compute. repeat split. Qed.

(** A score given in hundredths is shown as that many percent. *)
Lemma hundredths_shown_exactly :
  Forall (fun k => Math_round (num_mul (Samples.ratio k 100) (num_of_Z 100)) = num_of_Z k)
         (seqZ 0 101).
Proof. apply (bool_decide_unpack _). vm_compute. exact I. Qed.

(** C1: when the payload carries both scores, the score card is rendered
    and shows [Math.round(original_score * 100)] and
    [Math.round(new_score * 100)]; the change line, when shown, carries
    the difference of the two shown percentages, and the score handed to
    the analysis card is the new percentage as well. *)
Theorem score_card_shows_rounded_percentages
    (ctx : ContextValue) (tab : Tab) (r : ImprovedResult) (original new : number) :
  improvedData ctx = Some r ->
  original_score (data r) = Value original ->
  new_score (data r) = Value new ->
  exists (b : Board) (card : ScoreCard),
    DashboardPage ctx tab = Analysis b
    /\ board_score_card b = Some card
    /\ shown_original card = Math_round (num_mul original (num_of_Z 100))
    /\ shown_new card = Math_round (num_mul new (num_of_Z 100))
    /\ (forall c, shown_change card = Some c ->
          change_value c = num_sub (shown_new card) (shown_original card))
    /\ (shown_change card = None ->
          num_strict_eq (num_sub (shown_new card) (shown_original card)) (num_of_Z 0) = true)
    /\ (forall m, board_metrics b = Some m ->
          score (metrics_analysis m) = shown_new card).
Proof.
  intros Hctx Ho Hn.
  unfold DashboardPage. rewrite Hctx.
  eexists. exists
    {| shown_original := originalPct (data r);
       shown_new := newPct (data r);
       shown_change :=
         if num_strict_ne (improvementPct (data r)) (num_of_Z 0)
         then Some {| change_plus := num_gt (improvementPct (data r)) (num_of_Z 0);
                      change_value := improvementPct (data r) |}
         else None |}.
  split; first reflexivity.
  cbn [board_score_card board_metrics shown_original shown_new shown_change].
  split.
  { unfold score_card. by rewrite Ho, Hn. }
  assert (Eo : originalPct (data r) = Math_round (num_mul original (num_of_Z 100))).
  { unfold originalPct. by rewrite Ho. }
  assert (En : newPct (data r) = Math_round (num_mul new (num_of_Z 100))).
  { unfold newPct. by rewrite Hn. }
  split; first exact Eo.
  split; first exact En.
  split.
  { intros c Hc. destruct (num_strict_ne _ _); last discriminate.
    injection Hc as <-. reflexivity. }
  split.
  { unfold num_strict_ne, num_strict_eq, improvementPct.
    destruct (SFeqb _ _); [reflexivity | discriminate]. }
  intros m Hm. destruct tab; last discriminate.
  injection Hm as <-. reflexivity.
Qed.

Lemma score_card_shows_rounded_percentages_witness :
  let r := {| data := Samples.sample_data |} in
  (improvedData (provided_value (Some r)) = Some r
   /\ original_score (data r) = Value (Samples.ratio 285 1000)
   /\ new_score (data r) = Value (Samples.ratio 62 100))
  /\ exists (b : Board) (card : ScoreCard),
       DashboardPage (provided_value (Some r)) metrics = Analysis b
       /\ board_score_card b = Some card
       /\ shown_original card = num_of_Z 28
       /\ shown_new card = num_of_Z 62.
Proof.
  intros r. split; first by repeat split.
  destruct (score_card_shows_rounded_percentages
              (provided_value (Some r)) metrics r
              (Samples.ratio 285 1000) (Samples.ratio 62 100)
              eq_refl eq_refl eq_refl)
    as (b & card & Hpage & Hcard & Ho & Hn & _).
  exists b, card. repeat split; assumption.
Defined.

(** Without both scores there is no score card, only the notice. *)
Lemma score_card_needs_both_scores (d : Data) :
  original_score d = Undefined \/ new_score d = Undefined ->
  score_card d = None.
Proof.
  unfold score_card. intros [-> | ->]; cbn; [reflexivity|].
  by rewrite andb_false_r.
Qed.

(** The entries of a slice keep their positions. *)
Lemma slice_0_3_lookup {A} (l : list A) (i : nat) :
  slice_0_3 l !! i = if (i <? 3)%nat then l !! i else None.
Proof.
  unfold slice_0_3. destruct (Nat.ltb_spec i 3).
  - by apply lookup_take_lt.
  - by apply lookup_take_ge.
Qed.

(** No list, or an empty one: no preview box. *)
Lemma quick_preview_absent (d : Data) :
  improvements d = None \/ improvements d = Some [] ->
  quick_preview d = None.
Proof. unfold quick_preview. by intros [-> | ->]. Qed.

(** C10: under the "metrics" tab the dashboard renders the quick
    preview exactly for a non-empty list of suggestions.  The preview
    shows the first three suggestions at most, in the order of the list:
    the row at position [i] carries the suggestion text of the entry at
    position [i], followed by its position line.  It announces
    [length - 3] further suggestions exactly when the list has more than
    three. *)
Theorem quick_preview_first_three (ctx : ContextValue) (r : ImprovedResult) :
  improvedData ctx = Some r ->
  exists (b : Board) (m : MetricsTab),
    DashboardPage ctx metrics = Analysis b
    /\ board_metrics b = Some m
    /\ (forall l : list Improvement,
          improvements (data r) = Some l ->
          (0 < length l)%nat ->
          exists q : QuickPreview,
            metrics_preview m = Some q
            /\ map item_text (preview_items q) = map suggestion (take 3 l)
            /\ (length (preview_items q) <= 3)%nat
            /\ (forall i, item_text <$> preview_items q !! i =
                            if (i <? 3)%nat then suggestion <$> l !! i else None)
            /\ (forall i item,
                  (i < 3)%nat -> l !! i = Some item ->
                  exists row,
                    preview_items q !! i = Some row
                    /\ item_text row = suggestion item
                    /\ item_extra row =
                         match lineNumber item with
                         | None => NoExtra
                         | Some (inl s) =>
                             if is_empty s then NoExtra
                             else PositionLine (js "位置: ") (inl s)
                         | Some (inr x) =>
                             if is_zero x || is_NaN x then BareNumber x
                             else PositionLine (js "位置: ") (inr x)
                         end)
            /\ ((3 < length l)%nat ->
                  preview_remaining q = Some (length l - 3)%nat
                  /\ length (preview_items q) = 3%nat
                  /\ length (drop 3 l) = (length l - 3)%nat)
            /\ ((length l <= 3)%nat ->
                  preview_remaining q = None
                  /\ length (preview_items q) = length l))
    /\ (improvements (data r) = None \/ improvements (data r) = Some [] ->
        metrics_preview m = None).
Proof.
  intros Hctx. unfold DashboardPage. rewrite Hctx.
  eexists _, _. split; first reflexivity. split; first reflexivity.
  cbn [metrics_preview]. split; last by apply quick_preview_absent.
  intros l Hl Hpos. unfold quick_preview. rewrite Hl.
  apply Nat.ltb_lt in Hpos as Hpos'. rewrite Hpos'.
  eexists. split; first reflexivity.
  cbn [preview_items preview_remaining]. unfold slice_0_3.
  split. { by rewrite map_map. }
  split. { rewrite length_map, length_take. lia. }
  split.
  { intros i. rewrite list_lookup_fmap.
    pose proof (slice_0_3_lookup l i) as E. unfold slice_0_3 in E. rewrite E.
    by destruct (i <? 3)%nat, (l !! i). }
  split.
  { intros i item Hi Hitem. exists (render_item item). split.
    - rewrite list_lookup_fmap.
      pose proof (slice_0_3_lookup l i) as E. unfold slice_0_3 in E. rewrite E.
      apply Nat.ltb_lt in Hi as ->. by rewrite Hitem.
    - split; reflexivity. }
  split.
  - intros Hgt. apply Nat.ltb_lt in Hgt as Hgt'. rewrite Hgt'.
    rewrite length_map, length_take, length_drop. repeat split; lia.
  - intros Hle. apply Nat.ltb_ge in Hle as Hle'. rewrite Hle'.
    rewrite length_map, length_take. split; [reflexivity | lia].
Qed.

Lemma quick_preview_first_three_witness :
  let r := {| data := Samples.sample_data |} in
  improvedData (provided_value (Some r)) = Some r
  /\ exists (b : Board) (m : MetricsTab) (q : QuickPreview),
       DashboardPage (provided_value (Some r)) metrics = Analysis b
       /\ board_metrics b = Some m
       /\ metrics_preview m = Some q
       /\ map item_text (preview_items q)
          = map suggestion [Samples.tip "a"; Samples.tip "b"; Samples.tip "c"]
       /\ preview_remaining q = Some 2%nat.
Proof.
  intros r. split; first reflexivity.
  destruct (quick_preview_first_three (provided_value (Some r)) r eq_refl)
    as (b & m & Hpage & Hm & Hshown & _).
  destruct (Hshown Samples.five_tips eq_refl ltac:(cbn; lia))
    as (q & Hq & Htexts & _ & _ & _ & Hmore & _).
  exists b, m, q.
  split; first exact Hpage. split; first exact Hm. split; first exact Hq.
  split; first exact Htexts.
  apply Hmore. cbn. lia.
Defined.

(** ** The coverage figure *)

Import VectorAnalysis.

Lemma toFixed0_examples :
  toFixed0 (Samples.ratio 1 2) = TextDigits false 1
  /\ toFixed0 (Samples.ratio 5 2) = TextDigits false 3
  /\ toFixed0 (Samples.ratio (-5) 2) = TextDigits true 3
  /\ toFixed0 (Samples.ratio (-3) 10) = TextDigits true 0
  /\ toFixed0 (num_of_Z 75) = TextDigits false 75
  /\ toFixed0 (num_of_Z (10 ^ 21)) = TextToString (num_of_Z (10 ^ 21))
  /\ toFixed0 (S754_zero true) = TextDigits false 0
  /\ text_units (toFixed0 (Samples.ratio 249 2)) = Some (js "125").
Proof. vm_compute. repeat split. Qed.

Lemma overall_coverage_examples :
  overall_coverage_label Samples.stats_three_of_four = Some (js "75%")
  /\ overall_coverage_label (Samples.stats_of (num_of_Z 1) (num_of_Z 3)) = Some (js "33%")
  /\ overall_coverage_label (Samples.stats_of (num_of_Z 2) (num_of_Z 3)) = Some (js "67%")
  /\ overall_coverage_label (Samples.stats_of (num_of_Z 1) (num_of_Z 8)) = Some (js "13%")
  /\ overall_coverage_label Samples.stats_zero_of_zero = Some (js "NaN%").
Proof. vm_compute. repeat split. Qed.

(** For counts up to forty required skills the figure is a percentage
    between 0 and 100. *)
Lemma overall_coverage_of_counts :
  forallb (fun c => Samples.is_percentage
                      (overall_coverage
                         (Samples.stats_of (num_of_Z c.1) (num_of_Z c.2))))
          (Samples.counts_up_to 40) = true.
Proof. vm_compute. reflexivity. Qed.

(** A zero divisor: the quotient is NaN for a zero or NaN dividend and
    an infinity otherwise. *)
Lemma num_div_by_zero (x y : number) :
  is_zero y = true ->
  num_div x y =
    if is_zero x || is_NaN x then S754_nan
    else S754_infinity (xorb (sign_bit x) (sign_bit y)).
Proof. destruct y; try discriminate. intros _. by destruct x. Qed.

Lemma num_mul_hundred_not_finite (q : number) :
  isFinite q = false ->
  num_mul q (num_of_Z 100) = q.
Proof. destruct q as [| [] | |]; try discriminate; reflexivity. Qed.

(** C9, as the code has it: the figure is
    [((well_matched_skills / total_skills_required) * 100).toFixed(0)],
    computed without a guard.  When [total_skills_required] is zero the
    quotient is NaN if [well_matched_skills] is zero or NaN and an
    infinity otherwise, so the figure reads "NaN" or "Infinity", never
    digits; a figure made of digits implies a non-zero divisor. *)
Theorem overall_coverage_unguarded (stats : CoverageStats) :
  overall_coverage stats =
    toFixed0 (num_mul (num_div (well_matched_skills stats)
                               (total_skills_required stats))
                      (num_of_Z 100))
  /\ (is_zero (total_skills_required stats) = true ->
        coverage_quotient stats =
          (if is_zero (well_matched_skills stats) || is_NaN (well_matched_skills stats)
           then S754_nan
           else S754_infinity (xorb (sign_bit (well_matched_skills stats))
                                    (sign_bit (total_skills_required stats))))
        /\ isFinite (coverage_quotient stats) = false
        /\ overall_coverage stats =
             (if is_zero (well_matched_skills stats) || is_NaN (well_matched_skills stats)
              then TextNaN
              else TextInfinity (xorb (sign_bit (well_matched_skills stats))
                                      (sign_bit (total_skills_required stats)))))
  /\ (forall s n, overall_coverage stats = TextDigits s n ->
        is_zero (total_skills_required stats) = false).
Proof.
  split; first reflexivity.
  assert (Hz : is_zero (total_skills_required stats) = true ->
               coverage_quotient stats =
                 (if is_zero (well_matched_skills stats) || is_NaN (well_matched_skills stats)
                  then S754_nan
                  else S754_infinity (xorb (sign_bit (well_matched_skills stats))
                                           (sign_bit (total_skills_required stats))))).
  { intros H. unfold coverage_quotient. by apply num_div_by_zero. }
  assert (Ht : is_zero (total_skills_required stats) = true ->
               overall_coverage stats =
                 (if is_zero (well_matched_skills stats) || is_NaN (well_matched_skills stats)
                  then TextNaN
                  else TextInfinity (xorb (sign_bit (well_matched_skills stats))
                                          (sign_bit (total_skills_required stats))))).
  { intros H. unfold overall_coverage. rewrite (Hz H).
    destruct (is_zero _ || is_NaN _); first reflexivity.
    by rewrite num_mul_hundred_not_finite. }
  split.
  - intros H. split; first by apply Hz.
    split; last by apply Ht.
    rewrite (Hz H). by destruct (is_zero _ || is_NaN _).
  - intros s n Hd.
    destruct (is_zero (total_skills_required stats)) eqn:E; last reflexivity.
    rewrite (Ht eq_refl) in Hd. by destruct (is_zero _ || is_NaN _).
Qed.

Lemma overall_coverage_unguarded_witness :
  is_zero (total_skills_required Samples.stats_zero_of_zero) = true
  /\ coverage_quotient Samples.stats_zero_of_zero = S754_nan
  /\ overall_coverage Samples.stats_zero_of_zero = TextNaN
  /\ is_zero (total_skills_required Samples.stats_three_of_four) = false.
Proof.
  destruct (overall_coverage_unguarded Samples.stats_zero_of_zero)
    as (_ & Hzero & _).
  destruct (Hzero eq_refl) as (Hq & _ & Ht).
  destruct (overall_coverage_unguarded Samples.stats_three_of_four)
    as (_ & _ & Hdigits).
  split; first reflexivity.
  split; first exact Hq.
  split; first exact Ht.
  apply (Hdigits false 75%N). vm_compute. reflexivity.
Defined.

(** The claim's "not-a-number for any input with total_skills_required = 0"
    fails: three matched skills against zero required ones divide to
    +Infinity, which is not NaN, and the dialog shows "Infinity%". *)
Lemma coverage_of_three_over_zero_is_infinity :
  total_skills_required Samples.stats_three_of_zero = S754_zero false
  /\ well_matched_skills Samples.stats_three_of_zero = num_of_Z 3
  /\ coverage_quotient Samples.stats_three_of_zero = S754_infinity false
  /\ is_NaN (coverage_quotient Samples.stats_three_of_zero) = false
  /\ overall_coverage_label Samples.stats_three_of_zero = Some (js "Infinity%").
Proof. vm_compute. repeat split. Qed.

(** ** The upload component *)

Import UseFileUpload FileUpload.

Ltac run_eff :=
  cbv beta iota zeta delta
    [mbind mret eff_bind eff_ret bind ret lift modify throw try_catch fst snd
     setUploadFeedback with_hook set_location_href
     uploadFeedback hook location_href Datatypes.id].

(** A well-formed string is encoded without an exception.  The encoder
    consumes one or two code units at a time, hence the induction on a
    bound of the length. *)
Lemma encodeURIComponent_well_formed_aux (n : nat) :
  forall s : jsstring,
    (length s <= n)%nat ->
    isWellFormed s = true ->
    exists enc, encodeURIComponent s = Normal enc.
Proof.
  induction n as [|n IH]; intros s Hlen Hwf.
  - destruct s; last (cbn in Hlen; lia). by exists [].
  - destruct s as [|c rest]; first by exists [].
    cbn in Hlen. cbn [encodeURIComponent].
    destruct (is_uri_unescaped c) eqn:Hu.
    + assert (Hrest : isWellFormed rest = true).
      { cbn [isWellFormed] in Hwf.
        destruct (is_trail_surrogate c) eqn:Ht; first discriminate.
        destruct (is_lead_surrogate c) eqn:Hl; last exact Hwf.
        exfalso. clear -Hu Hl.
        unfold is_uri_unescaped, is_lead_surrogate in *.
        repeat match goal with
               | H : _ && _ = true |- _ => apply andb_prop in H as [? ?]
               | H : _ || _ = true |- _ => apply orb_prop in H as [?|?]
               | H : (_ <=? _) = true |- _ => apply N.leb_le in H
               | H : (_ =? _) = true |- _ => apply N.eqb_eq in H
               end; lia. }
      destruct (IH rest ltac:(lia) Hrest) as [r ->]. by eexists.
    + cbn [isWellFormed] in Hwf.
      destruct (is_trail_surrogate c); first discriminate.
      destruct (is_lead_surrogate c).
      * destruct rest as [|d rest']; first discriminate.
        apply andb_prop in Hwf as [Hd Hrest]. rewrite Hd.
        cbn in Hlen.
        destruct (IH rest' ltac:(lia) Hrest) as [r ->]. by eexists.
      * destruct (IH rest ltac:(lia) Hwf) as [r ->]. by eexists.
Qed.

Lemma encodeURIComponent_well_formed (s : jsstring) :
  isWellFormed s = true ->
  exists enc, encodeURIComponent s = Normal enc.
Proof. by apply (encodeURIComponent_well_formed_aux (length s)). Qed.

(** Every string of ASCII letters, digits and the marks [-_.!~*'()] is
    its own encoding. *)
Lemma encodeURIComponent_unescaped (s : jsstring) :
  forallb is_uri_unescaped s = true ->
  encodeURIComponent s = Normal s.
Proof.
  induction s as [|c rest IH]; first reflexivity.
  cbn [forallb encodeURIComponent]. intros H.
  apply andb_prop in H as [-> Hrest]. by rewrite (IH Hrest).
Qed.

(** What [onUploadSuccess] does, case by case. *)
Lemma onUploadSuccess_no_id (u : UploadedFile) (response : gmap jsstring JSValue)
    (st : FileUpload.State) :
  truthy_string (string_or_undefined (response !! js "resume_id")) = false ->
  onUploadSuccess u response st =
    ({| uploadFeedback := missing_id_feedback;
        hook := hook st; location_href := location_href st |}, Normal tt).
Proof. intros H. unfold onUploadSuccess. rewrite H. reflexivity. Qed.

Lemma onUploadSuccess_with_id (u : UploadedFile) (response : gmap jsstring JSValue)
    (st : FileUpload.State) (rid : jsstring) :
  response !! js "resume_id" = Some (JString rid) ->
  rid <> [] ->
  onUploadSuccess u response st =
    match encodeURIComponent rid with
    | Normal enc =>
        ({| uploadFeedback :=
              Some {| fb_type := FileUpload.success;
                      fb_message := meta_name (file u) ++ js " 上传成功！" |};
            hook := clearErrors (hook st);
            location_href := Some (js "/jobs?resume_id=" ++ enc) |}, Normal tt)
    | Throw e =>
        ({| uploadFeedback :=
              Some {| fb_type := FileUpload.success;
                      fb_message := meta_name (file u) ++ js " 上传成功！" |};
            hook := clearErrors (hook st);
            location_href := location_href st |}, Throw e)
    end.
Proof.
  intros Hid Hne. unfold onUploadSuccess. rewrite Hid.
  destruct rid as [|c rid']; first done.
  cbn [string_or_undefined truthy_string is_empty negb default].
  run_eff. by destruct (encodeURIComponent (c :: rid')).
Qed.

Lemma no_string_id_is_falsy (response : gmap jsstring JSValue) :
  (forall s, response !! js "resume_id" <> Some (JString s)) ->
  truthy_string (string_or_undefined (response !! js "resume_id")) = false.
Proof.
  intros H. destruct (response !! js "resume_id") as [[]|] eqn:E; try reflexivity.
  by destruct (H s).
Qed.

(** C3: a success response without a string-valued [resume_id] leaves the
    error feedback '上传成功但未收到简历ID。' and changes nothing else, in
    particular not the location; and whenever the callback does change
    the location, [resume_id] was a string and the new location is the
    jobs page. *)
Theorem upload_success_without_resume_id
    (u : UploadedFile) (response : gmap jsstring JSValue) (st : FileUpload.State) :
  ((forall s, response !! js "resume_id" <> Some (JString s)) ->
     onUploadSuccess u response st =
       ({| uploadFeedback :=
             Some {| fb_type := FileUpload.error;
                     fb_message := js "上传成功但未收到简历ID。" |};
           hook := hook st;
           location_href := location_href st |}, Normal tt))
  /\ (location_href (fst (onUploadSuccess u response st)) <> location_href st ->
        exists s enc,
          response !! js "resume_id" = Some (JString s)
          /\ encodeURIComponent s = Normal enc
          /\ location_href (fst (onUploadSuccess u response st))
               = Some (js "/jobs?resume_id=" ++ enc)).
Proof.
  split.
  - intros H. apply onUploadSuccess_no_id. by apply no_string_id_is_falsy.
  - intros Hnav.
    destruct (truthy_string (string_or_undefined (response !! js "resume_id")))
      eqn:Htruthy.
    + destruct (response !! js "resume_id") as [[]|] eqn:E; try discriminate.
      assert (Hne : s <> []) by (by destruct s).
      rewrite (onUploadSuccess_with_id u response st s E Hne) in Hnav |- *.
      destruct (encodeURIComponent s) as [enc|e] eqn:Henc; last done.
      exists s, enc. repeat split. exact Henc.
    + rewrite (onUploadSuccess_no_id u response st Htruthy) in Hnav. done.
Qed.

Lemma upload_success_without_resume_id_witness :
  (forall s, ({[ js "status" := JString (js "ok") ]} : gmap jsstring JSValue)
               !! js "resume_id" <> Some (JString s))
  /\ onUploadSuccess
       {| file := metadata_of {| file_name := js "cv.pdf"; file_size := 1000;
                                 file_type := js "application/pdf" |};
          id := js "f1" |}
       {[ js "status" := JString (js "ok") ]} FileUpload.initial
     = ({| uploadFeedback :=
             Some {| fb_type := FileUpload.error;
                     fb_message := js "上传成功但未收到简历ID。" |};
           hook := UseFileUpload.initial;
           location_href := None |}, Normal tt).
Proof.
  assert (H : forall s, ({[ js "status" := JString (js "ok") ]} : gmap jsstring JSValue)
                          !! js "resume_id" <> Some (JString s)).
  { intros s. vm_compute. discriminate. }
  split; first exact H.
  exact (proj1 (upload_success_without_resume_id _ _ FileUpload.initial) H).
Defined.

(** A numeric identifier is not a string: no navigation either. *)
Lemma upload_success_numeric_id :
  onUploadSuccess
    {| file := metadata_of {| file_name := js "cv.pdf"; file_size := 1000;
                              file_type := js "application/pdf" |};
       id := js "f1" |}
    {[ js "resume_id" := JNumber (num_of_Z 42) ]} FileUpload.initial
  = ({| uploadFeedback := missing_id_feedback;
        hook := UseFileUpload.initial; location_href := None |}, Normal tt).
Proof. vm_compute. reflexivity. Qed.

(** The hook receives the component's constants. *)
Lemma options_carry_constants (api : jsstring) :
  opt_maxSize (options api) = 2 * 1024 * 1024
  /\ accepted_types (options api) =
       [ js "application/pdf";
         js "application/vnd.openxmlformats-officedocument.wordprocessingml.document" ]
  /\ opt_multiple (options api) = false.
Proof. repeat split. Qed.

Lemma validateFile_too_large (api : jsstring) (f : File) :
  2 * 1024 * 1024 < file_size f ->
  validateFile (options api) f = Some (FileTooLarge f).
Proof.
  intros H. unfold validateFile.
  replace (opt_maxSize (options api) <? file_size f) with true; first reflexivity.
  symmetry. by apply N.ltb_lt.
Qed.

Lemma validateFile_wrong_type (api : jsstring) (f : File) :
  file_size f <= 2 * 1024 * 1024 ->
  file_type f <> js "application/pdf" ->
  file_type f <>
    js "application/vnd.openxmlformats-officedocument.wordprocessingml.document" ->
  validateFile (options api) f = Some (FileTypeNotAccepted f).
Proof.
  intros Hsize Hpdf Hdocx. unfold validateFile.
  replace (opt_maxSize (options api) <? file_size f) with false
    by (symmetry; by apply N.ltb_ge).
  rewrite bool_decide_eq_false_2; first reflexivity.
  destruct (options_carry_constants api) as (_ & -> & _).
  rewrite !elem_of_cons, elem_of_nil. tauto.
Qed.

Lemma validateFile_accepted (api : jsstring) (f : File) :
  file_size f <= 2 * 1024 * 1024 ->
  file_type f ∈ acceptedFileTypes ->
  validateFile (options api) f = None.
Proof.
  intros Hsize Hty. unfold validateFile.
  replace (opt_maxSize (options api) <? file_size f) with false
    by (symmetry; by apply N.ltb_ge).
  rewrite bool_decide_eq_true_2; first reflexivity.
  by destruct (options_carry_constants api) as (_ & -> & _).
Qed.

(** C4: a file larger than 2*1024*1024 bytes, or of a type that is
    neither PDF nor DOCX, fails the validation the hook performs with the
    component's [maxSize] and accepted types; selecting it records the
    error, adds no file and sends no request. *)
Theorem oversized_or_wrong_type_rejected
    (api fid : jsstring) (f : File) (st : FileUpload.State) :
  2 * 1024 * 1024 < file_size f
  \/ (file_type f <> js "application/pdf"
      /\ file_type f <>
           js "application/vnd.openxmlformats-officedocument.wordprocessingml.document") ->
  exists err : HookError,
    validateFile (options api) f = Some err
    /\ (err = FileTooLarge f \/ err = FileTypeNotAccepted f)
    /\ selectFile api fid f st =
         ({| uploadFeedback := uploadFeedback st;
             hook := {| files := files (hook st);
                        isDragging := isDragging (hook st);
                        errors := [err];
                        isUploadingGlobal := isUploadingGlobal (hook st);
                        sent := sent (hook st) |};
             location_href := location_href st |}, Normal tt)
    /\ sent (hook (fst (selectFile api fid f st))) = sent (hook st).
Proof.
  intros H.
  assert (Hv : exists err, validateFile (options api) f = Some err
                           /\ (err = FileTooLarge f \/ err = FileTypeNotAccepted f)).
  { destruct (N.lt_ge_cases (2 * 1024 * 1024) (file_size f)) as [Hbig | Hsmall].
    - exists (FileTooLarge f). split; [by apply validateFile_too_large | by left].
    - destruct H as [Hbig | [Hpdf Hdocx]]; first lia.
      exists (FileTypeNotAccepted f).
      split; [by apply validateFile_wrong_type | by right]. }
  destruct Hv as (err & Hv & Herr). exists err.
  split; first exact Hv. split; first exact Herr.
  unfold selectFile, with_hook, modify, addFile. rewrite Hv. by split.
Qed.

Lemma oversized_or_wrong_type_rejected_witness :
  let big := {| file_name := js "cv.pdf"; file_size := 2 * 1024 * 1024 + 1;
                file_type := js "application/pdf" |} in
  2 * 1024 * 1024 < file_size big
  /\ sent (hook (fst (selectFile (js "http://localhost:8000") (js "f1") big
                        FileUpload.initial))) = [].
Proof.
  intros big.
  assert (Hbig : 2 * 1024 * 1024 < file_size big) by (cbn; lia).
  split; first exact Hbig.
  destruct (oversized_or_wrong_type_rejected
              (js "http://localhost:8000") (js "f1") big FileUpload.initial
              (or_introl Hbig))
    as (err & _ & _ & _ & Hsent).
  exact Hsent.
Defined.

(** A text file of small size is refused for its type... *)
Lemma plain_text_file_rejected :
  let f := {| file_name := js "cv.txt"; file_size := 10;
              file_type := js "text/plain" |} in
  fst (selectFile (js "http://localhost:8000") (js "f1") f FileUpload.initial)
  = {| uploadFeedback := None;
       hook := {| files := []; isDragging := false;
                  errors := [FileTypeNotAccepted f];
                  isUploadingGlobal := false; sent := [] |};
       location_href := None |}.
Proof. vm_compute. reflexivity. Qed.

(** ... while a PDF of exactly 2 MiB is uploaded with one request. *)
Lemma pdf_at_limit_uploaded :
  let f := {| file_name := js "cv.pdf"; file_size := 2 * 1024 * 1024;
              file_type := js "application/pdf" |} in
  sent (hook (fst (selectFile (js "http://localhost:8000") (js "f1") f
                     FileUpload.initial)))
  = [ {| request_url := js "http://localhost:8000/api/v1/resumes/upload";
         request_file := f |} ].
Proof. vm_compute. reflexivity. Qed.

(** ** The job-description form *)

Import JobDescriptionUploadTextArea.

Ltac run_form :=
  cbv beta iota zeta delta
    [mbind mret eff_bind eff_ret bind ret lift modify throw try_catch fst snd
     run current with_form setText setFlash setSubmissionStatus
     setImprovementStatus setJobId JobDescriptionUploadTextArea.setImprovedData
     router_push send settle
     handleChange handleUpload handleUpload_settled
     handleImprove handleImprove_settled Datatypes.id];
  cbn [form context pending route
       text flash submissionStatus improvementStatus jobId].

(** C2: with a text that trims to nothing, [handleUpload] only sets the
    error flash '工作描述不能为空。' and returns: no request is issued and the
    status stays as it was; the submit button is disabled, so the form
    cannot take a [Submit] step at all. *)
Theorem empty_description_blocked (resumeId : option jsstring) (w : World) :
  trim (text (form w)) = [] ->
  handleUpload resumeId w =
    ({| form := {| text := text (form w);
                   flash := Some {| flash_type := flash_error;
                                    flash_message := js "工作描述不能为空。" |};
                   submissionStatus := submissionStatus (form w);
                   improvementStatus := improvementStatus (form w);
                   jobId := jobId (form w) |};
        context := context w;
        pending := pending w;
        route := route w |}, Normal tt)
  /\ isNextDisabled (form w) = true
  /\ (forall w', ~ step resumeId w Submit w').
Proof.
  intros Hempty. split; last split.
  - unfold handleUpload, current. run_form. rewrite Hempty. reflexivity.
  - unfold isNextDisabled. by rewrite Hempty.
  - intros w' Hstep. inversion Hstep as [| ? Hen | | |]; subst.
    unfold isNextDisabled in Hen. by rewrite Hempty in Hen.
Qed.

Lemma empty_description_blocked_witness :
  let w := run (handleChange (js "   ")) (initial None) in
  trim (text (form w)) = []
  /\ pending (fst (handleUpload (Some (js "r-1")) w)) = []
  /\ isNextDisabled (form w) = true.
Proof.
  intros w.
  assert (Hempty : trim (text (form w)) = []) by reflexivity.
  destruct (empty_description_blocked (Some (js "r-1")) w Hempty)
    as (Hrun & Hdisabled & _).
  split; first exact Hempty.
  split; last exact Hdisabled.
  rewrite Hrun. reflexivity.
Defined.

(** A missing resume identifier is refused in the same way. *)
Lemma missing_resume_id_blocked (resumeId : option jsstring) (w : World) :
  trim (text (form w)) <> [] ->
  truthy_string resumeId = false ->
  pending (run (handleUpload resumeId) w) = pending w
  /\ flash (form (run (handleUpload resumeId) w))
       = Some {| flash_type := flash_error; flash_message := js "缺少简历ID。" |}.
Proof.
  intros Hne Hid. unfold handleUpload, current. run_form.
  destruct (trim _) as [|c t] eqn:E; first done.
  cbn [is_empty]. rewrite Hid. by split.
Qed.

(** C5: a failed job-description submission and a failed improvement
    request are caught where they are awaited: the handler completes
    normally, the status becomes [error], the flash carries the error's
    message, and nothing else changes; in particular no request is
    issued again.  A failed file upload is reported through
    [onUploadError] as an error feedback carrying the message (or the
    fixed text when the message is empty). *)
Theorem api_failure_becomes_flash (err : Error) (w : World) :
  handleUpload_settled (Throw err) w =
    ({| form := {| text := text (form w);
                   flash := Some {| flash_type := flash_error;
                                    flash_message := message err |};
                   submissionStatus := JobDescriptionUploadTextArea.error;
                   improvementStatus := improvementStatus (form w);
                   jobId := jobId (form w) |};
        context := context w;
        pending := pending w;
        route := route w |}, Normal tt)
  /\ handleImprove_settled (Throw err) w =
       ({| form := {| text := text (form w);
                      flash := Some {| flash_type := flash_error;
                                       flash_message := message err |};
                      submissionStatus := submissionStatus (form w);
                      improvementStatus := improvement_error;
                      jobId := jobId (form w) |};
           context := context w;
           pending := pending w;
           route := route w |}, Normal tt)
  /\ forall (u : UploadedFile) (errorMsg : jsstring) (st : FileUpload.State),
       onUploadError u errorMsg st =
         ({| uploadFeedback :=
               Some {| fb_type := FileUpload.error;
                       fb_message := if is_empty errorMsg
                                     then js "上传过程中发生未知错误。"
                                     else errorMsg |};
             hook := hook st;
             location_href := location_href st |}, Normal tt).
Proof. repeat split. Qed.

(** The handlers never complete abruptly, whatever the outcome. *)
Lemma handlers_complete_normally (w : World) :
  (forall v, snd (handleChange v w) = Normal tt)
  /\ (forall rid, snd (handleUpload rid w) = Normal tt)
  /\ (forall o, snd (handleUpload_settled o w) = Normal tt)
  /\ (forall rid, snd (handleImprove rid w) = Normal tt)
  /\ (forall o, snd (handleImprove_settled o w) = Normal tt).
Proof.
  repeat split.
  - intros v. unfold handleChange, current. run_form.
    by destruct (negb _).
  - intros rid. unfold handleUpload, current. run_form.
    destruct (is_empty _); first reflexivity. by destruct (negb _).
  - by intros [].
  - intros rid. unfold handleImprove, current. run_form. by destruct (negb _).
  - by intros [].
Qed.

(** *** The transition system *)

Lemma apply_event_step (resumeId : option jsstring) (w w' : World) (e : Event) :
  apply_event resumeId w e = Some w' <-> step resumeId w e w'.
Proof.
  split.
  - unfold apply_event. destruct e as [v | | | k o | k o].
    + intros [= <-]. by constructor.
    + destruct (isNextDisabled (form w)) eqn:Hd; first discriminate.
      intros [= <-]. by constructor.
    + destruct (improve_button_rendered (form w)) eqn:Hr; last discriminate.
      destruct (improve_button_disabled (form w)) eqn:Hd; first discriminate.
      intros [= <-]. by constructor.
    + destruct (pending w !! k) as [[d rid | rid jid]|] eqn:Hk; try discriminate.
      intros [= <-]. by econstructor.
    + destruct (pending w !! k) as [[d rid | rid jid]|] eqn:Hk; try discriminate.
      intros [= <-]. by econstructor.
  - intros Hstep. unfold apply_event.
    destruct Hstep as [w v | w Hd | w Hv Hd | w k d rid o Hk | w k rid jid o Hk].
    + reflexivity.
    + by rewrite Hd.
    + by rewrite Hv, Hd.
    + by rewrite Hk.
    + by rewrite Hk.
Qed.

Lemma reachable_apply_events (resumeId : option jsstring) (ctx : ProviderState)
    (es : list Event) :
  forall w w',
    reachable resumeId ctx w ->
    apply_events resumeId w es = Some w' ->
    reachable resumeId ctx w'.
Proof.
  induction es as [|e rest IH]; intros w w' Hw; cbn [apply_events].
  - by intros [= <-].
  - destruct (apply_event resumeId w e) as [w1|] eqn:He; last discriminate.
    apply IH. eapply reachable_step; first exact Hw.
    by apply apply_event_step.
Qed.

(** Removing the request at [k] lowers the count of improvement requests
    by one exactly when that request is one. *)
Lemma improve_count_delete (l : list Request) :
  forall (k : nat) (r : Request),
    l !! k = Some r ->
    (length (filter (fun r => is_improve r = true) (delete k l))
     + (if is_improve r then 1 else 0)
     = length (filter (fun r => is_improve r = true) l))%nat.
Proof.
  induction l as [|x l IH]; intros k r Hk; first done.
  destruct k as [|k].
  - injection Hk as ->. cbn [delete list_delete].
    rewrite filter_cons. destruct (is_improve r) eqn:E.
    + rewrite decide_True by done. cbn. lia.
    + rewrite decide_False by done. lia.
  - cbn [delete list_delete]. cbn in Hk.
    rewrite !filter_cons. specialize (IH k r Hk).
    destruct (decide (is_improve x = true)); cbn [length]; last exact IH.
    rewrite Nat.add_succ_l. by f_equal.
Qed.

Lemma improve_count_snoc (l : list Request) (r : Request) :
  length (filter (fun r => is_improve r = true) (l ++ [r]))
  = (length (filter (fun r => is_improve r = true) l)
     + (if is_improve r then 1 else 0))%nat.
Proof.
  rewrite filter_app, length_app, filter_cons, filter_nil.
  destruct (is_improve r) eqn:E.
  - by rewrite decide_True.
  - by rewrite decide_False.
Qed.

Lemma improvement_guarded_step (resumeId : option jsstring) (w w' : World) (e : Event) :
  improvement_guarded w ->
  step resumeId w e w' ->
  improvement_guarded w'.
Proof.
  unfold improvement_guarded, improvements_in_flight.
  intros Hinv Hstep.
  destruct Hstep as [w v | w Hd | w Hv Hd | w k d rid o Hk | w k rid jid o Hk].
  - unfold handleChange, current. run_form.
    destruct (negb _); run_form; exact Hinv.
  - unfold handleUpload, current. run_form.
    destruct (is_empty _); run_form; first exact Hinv.
    destruct (negb _); run_form; first exact Hinv.
    rewrite improve_count_snoc. cbn [is_improve]. rewrite Nat.add_0_r.
    exact Hinv.
  - unfold improve_button_disabled in Hd.
    destruct Hinv as [H0 | [_ Himp]]; last by rewrite Himp in Hd.
    unfold handleImprove, current. run_form.
    destruct (negb _); run_form; first by left.
    rewrite improve_count_snoc, H0. by right.
  - pose proof (improve_count_delete _ _ _ Hk) as Hc. cbn [is_improve] in Hc.
    rewrite Nat.add_0_r in Hc.
    destruct o as [jid|err]; run_form; rewrite Hc; exact Hinv.
  - pose proof (improve_count_delete _ _ _ Hk) as Hc. cbn [is_improve] in Hc.
    destruct o as [preview|err]; run_form; left; destruct Hinv as [H0 | [H1 _]]; lia.
Qed.

Lemma improvement_guarded_reachable (resumeId : option jsstring)
    (ctx : ProviderState) (w : World) :
  reachable resumeId ctx w -> improvement_guarded w.
Proof.
  induction 1 as [| w e w' _ IH Hstep]; first by left.
  by eapply improvement_guarded_step.
Qed.

(** C6, as the code has it: in every reachable state, the submit button
    is disabled while the status is [submitting], so no [Submit] step is
    possible then; the improve button is disabled while the status is
    [improving], so no [Improve] step is possible then; and at most one
    improvement request is in flight, during which the status is
    [improving]. *)
Theorem buttons_guard_requests (resumeId : option jsstring) (ctx : ProviderState)
    (w : World) :
  reachable resumeId ctx w ->
  (submissionStatus (form w) = submitting ->
     isNextDisabled (form w) = true /\ forall w', ~ step resumeId w Submit w')
  /\ (improvementStatus (form w) = improving ->
        improve_button_disabled (form w) = true
        /\ forall w', ~ step resumeId w Improve w')
  /\ (improvements_in_flight w <= 1)%nat
  /\ (improvements_in_flight w = 1%nat -> improvementStatus (form w) = improving).
Proof.
  intros Hreach. split; last split; last split.
  - intros Hs.
    assert (Hd : isNextDisabled (form w) = true).
    { unfold isNextDisabled. rewrite Hs. by rewrite orb_true_r. }
    split; first exact Hd.
    intros w' Hstep. inversion Hstep as [| ? Hen | | |]; subst.
    by rewrite Hd in Hen.
  - intros Hi.
    assert (Hd : improve_button_disabled (form w) = true).
    { unfold improve_button_disabled. by rewrite Hi. }
    split; first exact Hd.
    intros w' Hstep. inversion Hstep as [| | ? _ Hen | |]; subst.
    by rewrite Hd in Hen.
  - destruct (improvement_guarded_reachable _ _ _ Hreach) as [H0 | [H1 _]]; lia.
  - intros H1.
    destruct (improvement_guarded_reachable _ _ _ Hreach) as [H0 | [_ Hi]];
      [lia | exact Hi].
Qed.

Lemma buttons_guard_requests_witness :
  reachable Samples.r1 None Samples.world_with_two_requests
  /\ isNextDisabled (form Samples.world_with_two_requests) = true
  /\ improve_button_disabled (form Samples.world_with_two_requests) = true
  /\ improvements_in_flight Samples.world_with_two_requests = 1%nat.
Proof.
  assert (Hreach : reachable Samples.r1 None Samples.world_with_two_requests).
  { apply (reachable_apply_events Samples.r1 None Samples.submit_during_analysis
             (initial None)); [constructor | vm_compute; reflexivity]. }
  destruct (buttons_guard_requests Samples.r1 None
              Samples.world_with_two_requests Hreach)
    as (Hsub & Himp & _ & _).
  split; first exact Hreach.
  split; first exact (proj1 (Hsub eq_refl)).
  split; first exact (proj1 (Himp eq_refl)).
  reflexivity.
Defined.

(** The claim's "no two HTTP requests overlap" fails: after a successful
    submission the analysis can be started and, while its request is in
    flight, the description can be submitted again; both requests are
    then in flight. *)
Lemma submission_overlaps_improvement :
  apply_events Samples.r1 (initial None) Samples.submit_during_analysis
    = Some Samples.world_with_two_requests
  /\ reachable Samples.r1 None Samples.world_with_two_requests
  /\ pending Samples.world_with_two_requests
       = [ improveResume (Some (js "r-1")) (js "j-1");
           uploadJobDescriptions [js "dev"] (Some (js "r-1")) ]
  /\ length (pending Samples.world_with_two_requests) = 2%nat.
Proof.
  assert (Hrun : apply_events Samples.r1 (initial None) Samples.submit_during_analysis
                 = Some Samples.world_with_two_requests)
    by (vm_compute; reflexivity).
  split; first exact Hrun.
  split; last by split.
  eapply reachable_apply_events; [constructor | exact Hrun].
Qed.

(** Editing the text resets the status even while a submission is in
    flight; the button is enabled again and a second submission starts. *)
Lemma edit_reenables_submit :
  exists w,
    apply_events Samples.r1 (initial None) Samples.edit_during_submission = Some w
    /\ pending w = [ uploadJobDescriptions [js "dev"] (Some (js "r-1"));
                     uploadJobDescriptions [js "devs"] (Some (js "r-1")) ].
Proof. eexists. split; vm_compute; reflexivity. Qed.

(** ** The resume identifier on its way through the pages *)

Lemma handleUpload_sends (resumeId : option jsstring) (w : World) :
  trim (text (form w)) <> [] ->
  truthy_string resumeId = true ->
  run (handleUpload resumeId) w =
    {| form := {| text := text (form w);
                  flash := flash (form w);
                  submissionStatus := submitting;
                  improvementStatus := improvementStatus (form w);
                  jobId := jobId (form w) |};
       context := context w;
       pending := pending w ++ [uploadJobDescriptions [trim (text (form w))] resumeId];
       route := route w |}.
Proof.
  intros Hne Hid. unfold handleUpload, current. run_form.
  destruct (trim (text (form w))) as [|c t]; first done.
  cbn [is_empty]. rewrite Hid. reflexivity.
Qed.

Lemma handleImprove_sends (resumeId : option jsstring) (w : World) (jid : jsstring) :
  jobId (form w) = Some jid ->
  jid <> [] ->
  run (handleImprove resumeId) w =
    {| form := {| text := text (form w);
                  flash := flash (form w);
                  submissionStatus := submissionStatus (form w);
                  improvementStatus := improving;
                  jobId := jobId (form w) |};
       context := context w;
       pending := pending w ++ [improveResume resumeId jid];
       route := route w |}.
Proof.
  intros Hj Hne. unfold handleImprove, current. run_form. rewrite Hj.
  destruct jid as [|c t]; first done.
  cbn [truthy_string is_empty negb]. run_form.
  cbn [default from_option]. by rewrite Hj.
Qed.

(** C7, as the code has it: for a non-empty string [resume_id] without a
    lone surrogate, the upload component navigates to exactly
    ['/jobs?resume_id=' + encodeURIComponent(resume_id)]; and the jobs
    page hands the identifier it was opened with, unchanged, to
    [uploadJobDescriptions] (together with the trimmed text) and to
    [improveResume] (together with the job identifier). *)
Theorem resume_id_echoed
    (u : UploadedFile) (response : gmap jsstring JSValue) (rid : jsstring)
    (st : FileUpload.State) :
  response !! js "resume_id" = Some (JString rid) ->
  rid <> [] ->
  isWellFormed rid = true ->
  exists enc : jsstring,
    encodeURIComponent rid = Normal enc
    /\ onUploadSuccess u response st =
         ({| uploadFeedback :=
               Some {| fb_type := FileUpload.success;
                       fb_message := meta_name (file u) ++ js " 上传成功！" |};
             hook := clearErrors (hook st);
             location_href := Some (js "/jobs?resume_id=" ++ enc) |}, Normal tt)
    /\ (forall w : World,
          trim (text (form w)) <> [] ->
          pending (run (handleUpload (Some rid)) w) =
            pending w ++ [uploadJobDescriptions [trim (text (form w))] (Some rid)])
    /\ (forall (w : World) (jid : jsstring),
          jobId (form w) = Some jid ->
          jid <> [] ->
          pending (run (handleImprove (Some rid)) w) =
            pending w ++ [improveResume (Some rid) jid]).
Proof.
  intros Hid Hne Hwf.
  destruct (encodeURIComponent_well_formed rid Hwf) as [enc Henc].
  exists enc. split; first exact Henc.
  split.
  { rewrite (onUploadSuccess_with_id u response st rid Hid Hne). by rewrite Henc. }
  split.
  - intros w Htext. rewrite handleUpload_sends; [reflexivity | exact Htext |].
    by destruct rid.
  - intros w jid Hj Hjne. by rewrite (handleImprove_sends _ w jid Hj Hjne).
Qed.

Lemma resume_id_echoed_witness :
  let response : gmap jsstring JSValue :=
    {[ js "resume_id" := JString (js "r 1/é") ]} in
  let u := {| file := metadata_of {| file_name := js "cv.pdf"; file_size := 1000;
                                     file_type := js "application/pdf" |};
              id := js "f1" |} in
  (response !! js "resume_id" = Some (JString (js "r 1/é"))
   /\ js "r 1/é" <> []
   /\ isWellFormed (js "r 1/é") = true)
  /\ location_href (fst (onUploadSuccess u response FileUpload.initial))
     = Some (js "/jobs?resume_id=r%201%2F%C3%A9").
Proof.
  intros response u.
  assert (H1 : response !! js "resume_id" = Some (JString (js "r 1/é")))
    by (vm_compute; reflexivity).
  assert (H2 : js "r 1/é" <> []) by (vm_compute; discriminate).
  assert (H3 : isWellFormed (js "r 1/é") = true) by reflexivity.
  split; first done.
  destruct (resume_id_echoed u response (js "r 1/é") FileUpload.initial H1 H2 H3)
    as (enc & Henc & Hnav & _).
  rewrite Hnav. cbn [fst location_href].
  assert (E : enc = js "r%201%2F%C3%A9").
  { assert (Hc : encodeURIComponent (js "r 1/é") = Normal (js "r%201%2F%C3%A9"))
      by (vm_compute; reflexivity).
    rewrite Hc in Henc. by injection Henc. }
  rewrite E. vm_compute. reflexivity.
Defined.

(** The claim's "no validation beyond the string-type check" fails: an
    empty string is a string, yet it is treated as a missing identifier
    (error feedback, no navigation); and a string holding a lone
    surrogate makes [encodeURIComponent] throw before the location is
    assigned. *)
Lemma empty_resume_id_not_navigated :
  let u := {| file := metadata_of {| file_name := js "cv.pdf"; file_size := 1000;
                                     file_type := js "application/pdf" |};
              id := js "f1" |} in
  onUploadSuccess u {[ js "resume_id" := JString [] ]} FileUpload.initial
  = ({| uploadFeedback :=
          Some {| fb_type := FileUpload.error;
                  fb_message := js "上传成功但未收到简历ID。" |};
        hook := UseFileUpload.initial;
        location_href := None |}, Normal tt)
  /\ location_href
       (fst (onUploadSuccess u {[ js "resume_id" := JString [0xD800] ]}
               FileUpload.initial)) = None
  /\ snd (onUploadSuccess u {[ js "resume_id" := JString [0xD800] ]}
            FileUpload.initial) = Throw URIError.
Proof. vm_compute. repeat split. Qed.

(** The jobs page rejects an empty or absent identifier on submission. *)
Lemma jobs_page_requires_resume_id :
  let w := run (handleChange (js "dev")) (initial None) in
  pending (run (handleUpload None) w) = []
  /\ pending (run (handleUpload (Some [])) w) = []
  /\ flash (form (run (handleUpload (Some [])) w))
     = Some {| flash_type := flash_error; flash_message := js "缺少简历ID。" |}.
Proof. vm_compute. repeat split. Qed.

(** ** Strings *)

Lemma js_examples :
  js "/jobs" = [0x2F; 0x6A; 0x6F; 0x62; 0x73]
  /\ js "简历ID。" = [0x7B80; 0x5386; 0x49; 0x44; 0x3002]
  /\ js "😀" = [0xD83D; 0xDE00].
Proof. repeat split. Qed.

Lemma trim_examples :
  trim (js "  	 ") = []
  /\ trim [0x3000; 0x0A; 0xFEFF] = []
  /\ trim (js "  a b  ") = js "a b"
  /\ trim (js "dev") = js "dev".
Proof. repeat split. Qed.

Lemma encodeURIComponent_examples :
  encodeURIComponent (js "a b/é+简") = Normal (js "a%20b%2F%C3%A9%2B%E7%AE%80")
  /\ encodeURIComponent (js "😀") = Normal (js "%F0%9F%98%80")
  /\ encodeURIComponent (js "abc-123_~") = Normal (js "abc-123_~")
  /\ encodeURIComponent [0xD800] = Throw URIError
  /\ encodeURIComponent [0xDC00; 0x41] = Throw URIError.
Proof. repeat split. Qed.

(** * Further properties *)

Import Notions.

(** ** [trim] *)

Lemma trimStart_blank (s : jsstring) :
  trimStart s = [] <-> forallb is_white_space s = true.
Proof.
  induction s as [|c r IH]; first done.
  cbn [trimStart forallb]. destruct (is_white_space c); cbn [andb]; [exact IH | done].
Qed.

Lemma trimStart_starts_clean (s : jsstring) : starts_clean (trimStart s).
Proof.
  induction s as [|c r IH]; first done.
  cbn [trimStart]. by destruct (is_white_space c) eqn:E.
Qed.

Lemma trimStart_fixed (s : jsstring) : starts_clean s -> trimStart s = s.
Proof. destruct s as [|c r]; first done. cbn. by intros ->. Qed.

(** [trimStart] removes a prefix made of white space. *)
Lemma trimStart_split (s : jsstring) :
  exists ws, s = ws ++ trimStart s /\ forallb is_white_space ws = true.
Proof.
  induction s as [|c r (ws & Hs & Hws)]; first by exists [].
  cbn [trimStart]. destruct (is_white_space c) eqn:E.
  - exists (c :: ws). split; first by (cbn; f_equal). cbn. by rewrite E.
  - by exists [].
Qed.

Lemma trimEnd_split (s : jsstring) :
  exists ws, s = trimEnd s ++ ws /\ forallb is_white_space ws = true.
Proof.
  destruct (trimStart_split (rev s)) as (ws & Hs & Hws).
  exists (rev ws). split.
  - unfold trimEnd. rewrite <- rev_app_distr, <- Hs. by rewrite rev_involutive.
  - rewrite forallb_forall in *. intros x Hx. apply Hws. by apply in_rev.
Qed.

Lemma trimEnd_keeps_start (s : jsstring) : starts_clean s -> starts_clean (trimEnd s).
Proof.
  intros Hs. destruct (trimEnd_split s) as (ws & Heq & _).
  destruct (trimEnd s) as [|c t]; first done.
  rewrite Heq in Hs. exact Hs.
Qed.

Lemma trimEnd_idempotent (s : jsstring) : trimEnd (trimEnd s) = trimEnd s.
Proof.
  unfold trimEnd. rewrite rev_involutive.
  by rewrite (trimStart_fixed _ (trimStart_starts_clean _)).
Qed.

Lemma trim_idempotent (s : jsstring) : trim (trim s) = trim s.
Proof.
  unfold trim.
  rewrite (trimStart_fixed (trimEnd (trimStart s))).
  - apply trimEnd_idempotent.
  - apply trimEnd_keeps_start, trimStart_starts_clean.
Qed.

Lemma forallb_white_space_rev (s : jsstring) :
  forallb is_white_space (rev s) = forallb is_white_space s.
Proof.
  apply eq_true_iff_eq. rewrite !forallb_forall.
  split; intros H x Hx; apply H.
  - by apply in_rev in Hx.
  - by apply in_rev.
Qed.

(** [trim] leaves nothing exactly of the strings made of white space. *)
Lemma trim_blank (s : jsstring) :
  trim s = [] <-> forallb is_white_space s = true.
Proof.
  unfold trim, trimEnd. split.
  - intros H. apply (f_equal (@rev N)) in H. rewrite rev_involutive in H.
    cbn in H. apply trimStart_blank in H. rewrite forallb_white_space_rev in H.
    pose proof (trimStart_starts_clean s) as Hc.
    destruct (trimStart s) as [|c t] eqn:E; first by apply trimStart_blank.
    cbn in H, Hc. by rewrite Hc in H.
  - intros H. apply trimStart_blank in H. by rewrite H.
Qed.

(** A non-empty result of [trim] starts and ends with a unit that is not
    white space. *)
Lemma trim_ends_clean (s : jsstring) :
  starts_clean (trim s) /\ starts_clean (rev (trim s)).
Proof.
  split.
  - unfold trim. apply trimEnd_keeps_start, trimStart_starts_clean.
  - unfold trim, trimEnd. rewrite rev_involutive. apply trimStart_starts_clean.
Qed.

(** ** The job-description form, continued *)

(** X1: the submit button is disabled exactly when the text is blank
    (empty or white space only) or a submission is marked as running. *)
Theorem submit_disabled_iff_blank_or_submitting (f : Form) :
  isNextDisabled f = true
  <-> forallb is_white_space (text f) = true \/ submissionStatus f = submitting.
Proof.
  unfold isNextDisabled. rewrite orb_true_iff. split.
  - intros [H | H].
    + left. apply trim_blank. by destruct (trim (text f)).
    + right. by destruct (submissionStatus f).
  - intros [H | H].
    + left. apply trim_blank in H. by rewrite H.
    + right. by rewrite H.
Qed.

Lemma count_delete (P : Request -> bool) (l : list Request) :
  forall (k : nat) (r : Request),
    l !! k = Some r ->
    (length (filter (fun r => P r = true) (delete k l)) + (if P r then 1 else 0)
     = length (filter (fun r => P r = true) l))%nat.
Proof.
  induction l as [|x l IH]; intros k r Hk; first done.
  destruct k as [|k].
  - injection Hk as ->. cbn [delete list_delete].
    rewrite filter_cons. destruct (P r) eqn:E.
    + rewrite decide_True by done. cbn. lia.
    + rewrite decide_False by done. lia.
  - cbn [delete list_delete]. cbn in Hk.
    rewrite !filter_cons. specialize (IH k r Hk).
    destruct (decide (P x = true)); cbn [length]; last exact IH.
    rewrite Nat.add_succ_l. by f_equal.
Qed.

Lemma count_snoc (P : Request -> bool) (l : list Request) (r : Request) :
  length (filter (fun r => P r = true) (l ++ [r]))
  = (length (filter (fun r => P r = true) l) + (if P r then 1 else 0))%nat.
Proof.
  rewrite filter_app, length_app, filter_cons, filter_nil.
  destruct (P r) eqn:E.
  - by rewrite decide_True.
  - by rewrite decide_False.
Qed.


(** *** What is sent *)

Lemma requests_sound_step (resumeId : option jsstring) (w w' : World) (e : Event) :
  requests_sound resumeId w ->
  step resumeId w e w' ->
  requests_sound resumeId w'.
Proof.
  unfold requests_sound. intros [Hreq Hjob] Hstep.
  destruct Hstep as [w v | w Hd | w Hv Hd | w k d rid o Hk | w k rid jid o Hk].
  - unfold handleChange, current. run_form.
    destruct (negb _); run_form; by split.
  - unfold handleUpload, current. run_form.
    destruct (trim (text (form w))) as [|c t] eqn:Htrim; run_form; first by split.
    cbn [is_empty].
    destruct (truthy_string resumeId) eqn:Hid; run_form; last by split.
    split; last exact Hjob.
    apply Forall_app. split; first exact Hreq.
    apply Forall_singleton. cbn. split; first reflexivity. split; first exact Hid.
    exists (c :: t). split; first reflexivity. split; first done.
    rewrite <- Htrim. apply trim_idempotent.
  - unfold improve_button_rendered in Hv. apply andb_prop in Hv as [_ Hjid].
    unfold handleImprove, current. run_form. rewrite Hjid. run_form.
    split; last exact Hjob.
    apply Forall_app. split; first exact Hreq.
    apply Forall_singleton.
    destruct (jobId (form w)) as [[|c t]|] eqn:Hj; try discriminate.
    cbn. split; first reflexivity. split; last done.
    apply Hjob. by eexists.
  - assert (Hid : truthy_string resumeId = true).
    { pose proof (Forall_lookup_1 _ _ _ _ Hreq Hk) as Hr. cbn in Hr.
      destruct Hr as (-> & Ht & _). exact Ht. }
    destruct o as [jid|err]; run_form.
    + split; [by apply Forall_delete | done].
    + split; [by apply Forall_delete | exact Hjob].
  - destruct o as [preview|err]; run_form;
      (split; [by apply Forall_delete | exact Hjob]).
Qed.

(** X2: whatever the user does and however the requests settle, every
    request in flight is well formed.  A submission carries the page's
    resume identifier, a non-empty string, and exactly one description
    that is not empty and has no white space at either end; an
    improvement request carries the same resume identifier and a
    non-empty job identifier. *)
Theorem requests_in_flight_well_formed
    (resumeId : option jsstring) (ctx : ProviderState) (w : World) :
  reachable resumeId ctx w ->
  Forall (request_well_formed resumeId) (pending w).
Proof.
  intros Hreach.
  assert (H : requests_sound resumeId w); last exact (proj1 H).
  induction Hreach as [| w e w' _ IH Hstep].
  - split; first by constructor. by intros [? ?].
  - by eapply requests_sound_step.
Qed.

Lemma requests_in_flight_well_formed_witness :
  reachable Samples.r1 None Samples.world_with_two_requests
  /\ Forall (request_well_formed Samples.r1)
            [ improveResume Samples.r1 (js "j-1");
              uploadJobDescriptions [js "dev"] Samples.r1 ].
Proof.
  assert (Hreach : reachable Samples.r1 None Samples.world_with_two_requests).
  { apply (reachable_apply_events Samples.r1 None Samples.submit_during_analysis
             (initial None)); [constructor | vm_compute; reflexivity]. }
  split; first exact Hreach.
  exact (requests_in_flight_well_formed Samples.r1 None _ Hreach).
Defined.

(** *** What the statuses tell *)

Lemma submitting_has_upload_step (resumeId : option jsstring) (w w' : World) (e : Event) :
  (submissionStatus (form w) = submitting -> (1 <= uploads_in_flight w)%nat) ->
  step resumeId w e w' ->
  submissionStatus (form w') = submitting -> (1 <= uploads_in_flight w')%nat.
Proof.
  unfold uploads_in_flight. intros Hinv Hstep.
  destruct Hstep as [w v | w Hd | w Hv Hd | w k d rid o Hk | w k rid jid o Hk].
  - unfold handleChange, current. run_form.
    destruct (submissionStatus (form w)); run_form; discriminate.
  - unfold handleUpload, current. run_form.
    destruct (is_empty _); run_form; first exact Hinv.
    destruct (negb _); run_form; first exact Hinv.
    intros _. rewrite count_snoc. cbn [is_upload]. lia.
  - unfold handleImprove, current. run_form.
    destruct (negb _); run_form; first exact Hinv.
    rewrite count_snoc. cbn [is_upload]. rewrite Nat.add_0_r. exact Hinv.
  - destruct o as [jid|err]; run_form; discriminate.
  - pose proof (count_delete is_upload _ _ _ Hk) as Hc. cbn [is_upload] in Hc.
    rewrite Nat.add_0_r in Hc.
    destruct o as [preview|err]; run_form; rewrite Hc; exact Hinv.
Qed.

Lemma success_has_job_id_step (resumeId : option jsstring) (w w' : World) (e : Event) :
  (submissionStatus (form w) = success -> is_Some (jobId (form w))) ->
  step resumeId w e w' ->
  submissionStatus (form w') = success -> is_Some (jobId (form w')).
Proof.
  intros Hinv Hstep.
  destruct Hstep as [w v | w Hd | w Hv Hd | w k d rid o Hk | w k rid jid o Hk].
  - unfold handleChange, current. run_form.
    destruct (submissionStatus (form w)); run_form; discriminate.
  - unfold handleUpload, current. run_form.
    destruct (is_empty _); run_form; first exact Hinv.
    destruct (negb _); run_form; [exact Hinv | discriminate].
  - unfold handleImprove, current. run_form.
    destruct (negb _); run_form; exact Hinv.
  - destruct o as [jid|err]; run_form; [by eexists | discriminate].
  - destruct o as [preview|err]; run_form; exact Hinv.
Qed.

(** X3: in every reachable state the submission status is backed by
    facts: while it is [submitting] at least one submission is in
    flight, and while it is [success] a job identifier is stored. *)
Theorem submission_status_backed
    (resumeId : option jsstring) (ctx : ProviderState) (w : World) :
  reachable resumeId ctx w ->
  (submissionStatus (form w) = submitting -> (1 <= uploads_in_flight w)%nat)
  /\ (submissionStatus (form w) = success -> is_Some (jobId (form w))).
Proof.
  induction 1 as [| w e w' _ [IH1 IH2] Hstep].
  - split; discriminate.
  - split.
    + by eapply submitting_has_upload_step.
    + by eapply success_has_job_id_step.
Qed.

Lemma submission_status_backed_witness :
  reachable Samples.r1 None Samples.world_with_two_requests
  /\ (1 <= uploads_in_flight Samples.world_with_two_requests)%nat.
Proof.
  assert (Hreach : reachable Samples.r1 None Samples.world_with_two_requests).
  { apply (reachable_apply_events Samples.r1 None Samples.submit_during_analysis
             (initial None)); [constructor | vm_compute; reflexivity]. }
  split; first exact Hreach.
  exact (proj1 (submission_status_backed Samples.r1 None _ Hreach) eq_refl).
Defined.

(** X4: the stored job identifier only ever changes when a submission
    settles successfully, and then to the identifier the backend
    returned; no other event touches it. *)
Theorem job_id_only_from_backend
    (resumeId : option jsstring) (w w' : World) (e : Event) :
  step resumeId w e w' ->
  jobId (form w') <> jobId (form w) ->
  exists (k : nat) (id : jsstring),
    e = UploadSettled k (Normal id) /\ jobId (form w') = Some id.
Proof.
  intros Hstep.
  destruct Hstep as [w v | w Hd | w Hv Hd | w k d rid o Hk | w k rid jid o Hk].
  - unfold handleChange, current. run_form. destruct (negb _); run_form; done.
  - unfold handleUpload, current. run_form.
    destruct (is_empty _); run_form; first done.
    destruct (negb _); run_form; done.
  - unfold handleImprove, current. run_form. destruct (negb _); run_form; done.
  - destruct o as [jid|err]; run_form; last done.
    intros _. by exists k, jid.
  - destruct o as [preview|err]; run_form; done.
Qed.

Lemma job_id_only_from_backend_witness :
  let w := {| form := {| text := js "dev"; flash := None;
                         submissionStatus := submitting;
                         improvementStatus := improvement_idle; jobId := None |};
              context := None;
              pending := [uploadJobDescriptions [js "dev"] Samples.r1];
              route := None |} in
  let w' := run (handleUpload_settled (Normal (js "j-1"))) (settle 0 w) in
  step Samples.r1 w (UploadSettled 0 (Normal (js "j-1"))) w'
  /\ jobId (form w') <> jobId (form w)
  /\ exists (k : nat) (id : jsstring),
       UploadSettled 0 (Normal (js "j-1")) = UploadSettled k (Normal id)
       /\ jobId (form w') = Some id.
Proof.
  intros w w'.
  assert (Hstep : step Samples.r1 w (UploadSettled 0 (Normal (js "j-1"))) w').
  { by eapply step_upload_settled. }
  assert (Hne : jobId (form w') <> jobId (form w)) by (vm_compute; discriminate).
  split; first exact Hstep. split; first exact Hne.
  exact (job_id_only_from_backend Samples.r1 w w' _ Hstep Hne).
Defined.

(** *** Route and context *)

Lemma route_consistent_step (resumeId : option jsstring) (ctx : ProviderState)
    (w w' : World) (e : Event) :
  route_consistent ctx w ->
  step resumeId w e w' ->
  route_consistent ctx w'.
Proof.
  unfold route_consistent. intros Hinv Hstep.
  destruct Hstep as [w v | w Hd | w Hv Hd | w k d rid o Hk | w k rid jid o Hk].
  - unfold handleChange, current. run_form. destruct (negb _); run_form; exact Hinv.
  - unfold handleUpload, current. run_form.
    destruct (is_empty _); run_form; first exact Hinv.
    destruct (negb _); run_form; exact Hinv.
  - unfold handleImprove, current. run_form. destruct (negb _); run_form; exact Hinv.
  - destruct o as [jid|err]; run_form; exact Hinv.
  - destruct o as [preview|err]; run_form; last exact Hinv.
    split; first reflexivity. by eexists.
Qed.

(** X5: the form pushes the router nowhere but to ['/dashboard'], and
    only after it has stored an analysis result in the context; until
    then it leaves the context as it found it. *)
Theorem dashboard_route_has_result
    (resumeId : option jsstring) (ctx : ProviderState) (w : World) :
  reachable resumeId ctx w ->
  match route w with
  | None => context w = ctx
  | Some path => path = js "/dashboard" /\ is_Some (context w)
  end.
Proof.
  intros Hreach. change (route_consistent ctx w).
  induction Hreach as [| w e w' _ IH Hstep]; first reflexivity.
  by eapply route_consistent_step.
Qed.

Lemma dashboard_route_has_result_witness :
  reachable Samples.r1 None Samples.world_with_two_requests
  /\ context Samples.world_with_two_requests = None.
Proof.
  assert (Hreach : reachable Samples.r1 None Samples.world_with_two_requests).
  { apply (reachable_apply_events Samples.r1 None Samples.submit_during_analysis
             (initial None)); [constructor | vm_compute; reflexivity]. }
  split; first exact Hreach.
  exact (dashboard_route_has_result Samples.r1 None _ Hreach).
Defined.

(** *** From the form to the dashboard *)

Lemma handleChange_result (v : jsstring) (w : World) :
  run (handleChange v) w =
    {| form := {| text := v; flash := None; submissionStatus := idle;
                  improvementStatus := improvementStatus (form w);
                  jobId := jobId (form w) |};
       context := context w; pending := pending w; route := route w |}.
Proof.
  unfold handleChange, current. run_form.
  by destruct (submissionStatus (form w)).
Qed.

Lemma apply_events_app (rid : option jsstring) (es1 es2 : list Event) :
  forall w,
    apply_events rid w (es1 ++ es2) =
      match apply_events rid w es1 with
      | Some w1 => apply_events rid w1 es2
      | None => None
      end.
Proof.
  induction es1 as [|e es1 IH]; intros w; first reflexivity.
  cbn [app apply_events]. destruct (apply_event rid w e); [apply IH | reflexivity].
Qed.

Lemma flow_after_submit (ctx : ProviderState) (rid txt : jsstring) :
  rid <> [] -> trim txt <> [] ->
  apply_events (Some rid) (initial ctx) [Change txt; Submit]
  = Some {| form := {| text := txt; flash := None; submissionStatus := submitting;
                       improvementStatus := improvement_idle; jobId := None |};
            context := ctx;
            pending := [uploadJobDescriptions [trim txt] (Some rid)];
            route := None |}.
Proof.
  intros Hrid Htxt.
  assert (Htruthy : truthy_string (Some rid) = true) by (by destruct rid).
  cbn [apply_events]. unfold apply_event at 1. rewrite handleChange_result.
  unfold apply_event at 1. unfold isNextDisabled.
  cbn [form text submissionStatus status_is_submitting initial initial_form
       improvementStatus jobId context pending route].
  destruct (trim txt) as [|c t] eqn:Htrim; first done.
  cbn [is_empty orb].
  rewrite handleUpload_sends; [| cbn [form text]; by rewrite Htrim | exact Htruthy].
  cbn [form text flash improvementStatus jobId context pending route app].
  by rewrite Htrim.
Qed.

Lemma flow_after_improve (ctx : ProviderState) (rid txt jid : jsstring) :
  jid <> [] ->
  apply_events (Some rid)
    {| form := {| text := txt; flash := None; submissionStatus := submitting;
                  improvementStatus := improvement_idle; jobId := None |};
       context := ctx;
       pending := [uploadJobDescriptions [trim txt] (Some rid)];
       route := None |}
    [UploadSettled 0 (Normal jid); Improve]
  = Some {| form := {| text := txt;
                       flash := Some {| flash_type := flash_success;
                                        flash_message := js "工作描述提交成功！" |};
                       submissionStatus := success;
                       improvementStatus := improving; jobId := Some jid |};
            context := ctx;
            pending := [improveResume (Some rid) jid];
            route := None |}.
Proof.
  intros Hjid.
  cbn [apply_events]. unfold apply_event at 1. cbn [pending lookup list_lookup].
  run_form. cbn [delete list_delete].
  unfold apply_event at 1.
  unfold improve_button_rendered, improve_button_disabled.
  cbn [form jobId submissionStatus improvementStatus
       status_is_success status_is_improving andb negb].
  assert (Hj : truthy_string (Some jid) = true) by (by destruct jid).
  rewrite Hj.
  rewrite (handleImprove_sends (Some rid) _ jid); [reflexivity | reflexivity | exact Hjid].
Qed.

(** X6: the whole flow.  On a page opened with a resume identifier, a
    user who enters a non-blank description and submits it causes exactly
    one request, carrying the trimmed description and the identifier;
    when the backend answers with a job identifier and the user starts
    the analysis, exactly one improvement request follows with both
    identifiers; when that one succeeds nothing is left in flight, the
    router is pushed to ['/dashboard'], and the dashboard, reading the
    context through the hook, shows the returned result instead of its
    empty state. *)
Theorem analysis_flow_reaches_dashboard
    (ctx : ProviderState) (rid txt jid : jsstring) (preview : ImprovedResult)
    (tab : Tab) :
  rid <> [] -> trim txt <> [] -> jid <> [] ->
  exists w1 w2 w3 : World,
    apply_events (Some rid) (initial ctx) [Change txt; Submit] = Some w1
    /\ pending w1 = [uploadJobDescriptions [trim txt] (Some rid)]
    /\ apply_events (Some rid) w1 [UploadSettled 0 (Normal jid); Improve] = Some w2
    /\ pending w2 = [improveResume (Some rid) jid]
    /\ apply_events (Some rid) w2 [ImproveSettled 0 (Normal preview)] = Some w3
    /\ pending w3 = []
    /\ route w3 = Some (js "/dashboard")
    /\ exists (hook_value : ContextValue) (b : Board),
         useResumePreview [context w3] = Normal hook_value
         /\ DashboardPage hook_value tab = Analysis b
         /\ board_score_card b = score_card (data preview)
         /\ board_vector_analysis b = vector_analysis (data preview).
Proof.
  intros Hrid Htxt Hjid.
  eexists _, _, _.
  split; first by apply flow_after_submit.
  split; first reflexivity.
  split; first by apply flow_after_improve.
  split; first reflexivity.
  split; first reflexivity.
  split; first reflexivity.
  split; first reflexivity.
  eexists _, _. split; first reflexivity.
  split; first reflexivity.
  by split.
Qed.

Lemma analysis_flow_reaches_dashboard_witness :
  (js "r-1" <> [] /\ trim (js " dev ") <> [] /\ js "j-1" <> [])
  /\ exists w3 : World,
       apply_events Samples.r1 (initial None)
         [ Change (js " dev "); Submit; UploadSettled 0 (Normal (js "j-1")); Improve;
           ImproveSettled 0 (Normal {| data := Samples.sample_data |}) ] = Some w3
       /\ route w3 = Some (js "/dashboard").
Proof.
  assert (H1 : js "r-1" <> []) by (vm_compute; discriminate).
  assert (H2 : trim (js " dev ") <> []) by (vm_compute; discriminate).
  assert (H3 : js "j-1" <> []) by (vm_compute; discriminate).
  split; first done.
  destruct (analysis_flow_reaches_dashboard None (js "r-1") (js " dev ") (js "j-1")
              {| data := Samples.sample_data |} metrics H1 H2 H3)
    as (w1 & w2 & w3 & E1 & _ & E2 & _ & E3 & _ & Hroute & _).
  exists w3. split; last exact Hroute.
  change [ Change (js " dev "); Submit; UploadSettled 0 (Normal (js "j-1")); Improve;
           ImproveSettled 0 (Normal {| data := Samples.sample_data |}) ]
    with ([Change (js " dev "); Submit]
            ++ [UploadSettled 0 (Normal (js "j-1")); Improve]
            ++ [ImproveSettled 0 (Normal {| data := Samples.sample_data |})]).
  unfold Samples.r1.
  rewrite apply_events_app, E1, apply_events_app, E2. exact E3.
Defined.

(** ** The upload component, continued *)

Import FileUploadView.

(** X7: the red and the green box are never rendered together; and
    while an upload is running the component shows neither the red box
    nor the file row, and the drop zone neither opens the file dialog nor
    accepts drags.  The drop zone is marked [aria-disabled] exactly when
    it does not open the dialog. *)
Theorem upload_boxes_exclusive (st : FileUpload.State) :
  (is_Some (error_box st) -> success_box st = None)
  /\ (is_Some (success_box st) -> error_box st = None)
  /\ (isUploadingGlobal (hook st) = true ->
        error_box st = None /\ file_row st = None
        /\ dropzone_opens_dialog st = false /\ drag_handlers_attached st = false)
  /\ aria_disabled st = negb (dropzone_opens_dialog st).
Proof.
  unfold error_box, success_box, file_row, dropzone_opens_dialog,
    drag_handlers_attached, aria_disabled.
  repeat split.
  - destruct (uploadFeedback st) as [[[] m]|]; cbn; try done.
    rewrite andb_false_r. by intros [? ?].
  - destruct (uploadFeedback st) as [[[] m]|]; cbn; try (by intros [? ?]).
    by rewrite andb_false_r.
  - rewrite H. cbn. by rewrite andb_false_r.
  - rewrite H. cbn. by destruct (currentFile st).
  - rewrite H. cbn. by rewrite andb_false_r.
  - by rewrite H.
  - by destruct (bool_decide _), (isUploadingGlobal _).
Qed.

Lemma upload_boxes_exclusive_witness :
  let st := fst (onUploadError
                   {| file := metadata_of {| file_name := js "cv.pdf"; file_size := 1000;
                                             file_type := js "application/pdf" |};
                      id := js "f1" |}
                   (js "HTTP 500") FileUpload.initial) in
  is_Some (error_box st) /\ success_box st = None.
Proof.
  intros st.
  assert (H : is_Some (error_box st)) by (by eexists).
  split; first exact H.
  exact (proj1 (upload_boxes_exclusive st) H).
Defined.

(** X8: what the user sees after an upload attempt, provided no upload
    is running any more.  A failure shows the red box with exactly one
    line, the error message (or the fixed text for an empty message), in
    place of whatever errors the hook holds; so does a success response
    without a usable identifier.  A success response with an identifier
    that can be encoded shows the green box with the file name, and no
    red box. *)
Theorem upload_outcome_shown (u : UploadedFile) (st : FileUpload.State) :
  isUploadingGlobal (hook st) = false ->
  (forall errorMsg : jsstring,
     error_box (fst (onUploadError u errorMsg st)) =
       Some [inl (if is_empty errorMsg then js "上传过程中发生未知错误。" else errorMsg)]
     /\ success_box (fst (onUploadError u errorMsg st)) = None)
  /\ (forall response : gmap jsstring JSValue,
        truthy_string (string_or_undefined (response !! js "resume_id")) = false ->
        error_box (fst (onUploadSuccess u response st)) =
          Some [inl (js "上传成功但未收到简历ID。")]
        /\ success_box (fst (onUploadSuccess u response st)) = None)
  /\ (forall (response : gmap jsstring JSValue) (rid enc : jsstring),
        response !! js "resume_id" = Some (JString rid) ->
        rid <> [] ->
        encodeURIComponent rid = Normal enc ->
        success_box (fst (onUploadSuccess u response st)) =
          Some (meta_name (file u) ++ js " 上传成功！")
        /\ error_box (fst (onUploadSuccess u response st)) = None).
Proof.
  intros Hidle. split; last split.
  - intros errorMsg.
    unfold error_box, success_box, displayErrors, onUploadError,
      setUploadFeedback, modify.
    cbn [fst uploadFeedback hook fb_type fb_message length]. by rewrite Hidle.
  - intros response Hno. rewrite (onUploadSuccess_no_id u response st Hno).
    unfold error_box, success_box, displayErrors, missing_id_feedback.
    cbn [fst uploadFeedback hook fb_type fb_message length]. by rewrite Hidle.
  - intros response rid enc Hid Hne Henc.
    rewrite (onUploadSuccess_with_id u response st rid Hid Hne), Henc.
    unfold error_box, success_box.
    cbn [fst uploadFeedback hook fb_type fb_message]. by rewrite andb_false_r.
Qed.

Lemma upload_outcome_shown_witness :
  let u := {| file := metadata_of {| file_name := js "cv.pdf"; file_size := 1000;
                                     file_type := js "application/pdf" |};
              id := js "f1" |} in
  isUploadingGlobal (hook FileUpload.initial) = false
  /\ success_box (fst (onUploadError u (js "HTTP 500") FileUpload.initial)) = None.
Proof.
  intros u. split; first reflexivity.
  exact (proj2 (proj1 (upload_outcome_shown u FileUpload.initial eq_refl)
                  (js "HTTP 500"))).
Defined.

(** ** [encodeURIComponent] and the navigation target *)

Lemma encodeURIComponent_throws_URIError (n : nat) :
  forall (s : jsstring) (e : Error),
    (length s <= n)%nat ->
    encodeURIComponent s = Throw e -> e = URIError.
Proof.
  induction n as [|n IH]; intros s e Hlen.
  - destruct s; [discriminate | cbn in Hlen; lia].
  - destruct s as [|c rest]; first discriminate.
    cbn in Hlen. cbn [encodeURIComponent].
    destruct (is_uri_unescaped c).
    { destruct (encodeURIComponent rest) eqn:E; first discriminate.
      intros [= <-]. apply (IH rest); [lia | exact E]. }
    destruct (is_trail_surrogate c); first by intros [= <-].
    destruct (is_lead_surrogate c).
    + destruct rest as [|d rest']; first by intros [= <-].
      destruct (is_trail_surrogate d); last by intros [= <-].
      cbn in Hlen.
      destruct (encodeURIComponent rest') eqn:E; first discriminate.
      intros [= <-]. apply (IH rest'); [lia | exact E].
    + destruct (encodeURIComponent rest) eqn:E; first discriminate.
      intros [= <-]. apply (IH rest); [lia | exact E].
Qed.

Lemma encodeURIComponent_normal_well_formed (n : nat) :
  forall (s enc : jsstring),
    (length s <= n)%nat ->
    encodeURIComponent s = Normal enc -> isWellFormed s = true.
Proof.
  induction n as [|n IH]; intros s enc Hlen.
  - destruct s; [done | cbn in Hlen; lia].
  - destruct s as [|c rest]; first done.
    cbn in Hlen. cbn [encodeURIComponent isWellFormed].
    destruct (is_uri_unescaped c) eqn:Hu.
    { assert (Ht : is_trail_surrogate c = false /\ is_lead_surrogate c = false).
      { clear -Hu. unfold is_uri_unescaped, is_trail_surrogate, is_lead_surrogate in *.
        split; apply andb_false_iff; rewrite !N.leb_gt;
          repeat match goal with
                 | H : _ && _ = true |- _ => apply andb_prop in H as [? ?]
                 | H : _ || _ = true |- _ => apply orb_prop in H as [?|?]
                 | H : (_ <=? _) = true |- _ => apply N.leb_le in H
                 | H : (_ =? _) = true |- _ => apply N.eqb_eq in H
                 end; lia. }
      destruct Ht as [-> ->].
      destruct (encodeURIComponent rest) as [r|] eqn:E; last discriminate.
      intros _. apply (IH rest r); [lia | exact E]. }
    destruct (is_trail_surrogate c); first discriminate.
    destruct (is_lead_surrogate c).
    + destruct rest as [|d rest']; first discriminate.
      destruct (is_trail_surrogate d); last discriminate.
      cbn in Hlen.
      destruct (encodeURIComponent rest') as [r|] eqn:E; last discriminate.
      intros _. apply (IH rest' r); [lia | exact E].
    + destruct (encodeURIComponent rest) as [r|] eqn:E; last discriminate.
      intros _. apply (IH rest r); [lia | exact E].
Qed.

Lemma encodeURIComponent_outcome (s : jsstring) :
  ((exists enc, encodeURIComponent s = Normal enc) <-> isWellFormed s = true)
  /\ (isWellFormed s = false <-> encodeURIComponent s = Throw URIError).
Proof.
  assert (H1 : (exists enc, encodeURIComponent s = Normal enc) <-> isWellFormed s = true).
  { split.
    - intros [enc H]. by apply (encodeURIComponent_normal_well_formed (length s) s enc).
    - apply encodeURIComponent_well_formed. }
  split; first exact H1. split.
  - intros Hwf. destruct (encodeURIComponent s) as [enc|e] eqn:E.
    + assert (isWellFormed s = true) by (apply H1; by exists enc). congruence.
    + by rewrite (encodeURIComponent_throws_URIError (length s) s e).
  - intros Hthrow. destruct (isWellFormed s) eqn:Hwf; last reflexivity.
    apply encodeURIComponent_well_formed in Hwf as [enc Henc]. congruence.
Qed.

(** X9: [onUploadSuccess] completes abruptly exactly when [resume_id] is
    a non-empty string with a lone surrogate.  In that case a URIError
    escapes after the success feedback has been set: the page reports
    the upload as successful and stays where it is. *)
Theorem upload_success_throws_iff_lone_surrogate
    (u : UploadedFile) (response : gmap jsstring JSValue) (st : FileUpload.State) :
  (snd (onUploadSuccess u response st) <> Normal tt
   <-> exists rid, response !! js "resume_id" = Some (JString rid)
                   /\ rid <> [] /\ isWellFormed rid = false)
  /\ (snd (onUploadSuccess u response st) <> Normal tt ->
        snd (onUploadSuccess u response st) = Throw URIError
        /\ uploadFeedback (fst (onUploadSuccess u response st)) =
             Some {| fb_type := FileUpload.success;
                     fb_message := meta_name (file u) ++ js " 上传成功！" |}
        /\ location_href (fst (onUploadSuccess u response st)) = location_href st).
Proof.
  destruct (truthy_string (string_or_undefined (response !! js "resume_id")))
    eqn:Htruthy.
  - destruct (response !! js "resume_id") as [[]|] eqn:E; try discriminate.
    assert (Hne : s <> []) by (by destruct s).
    rewrite (onUploadSuccess_with_id u response st s E Hne).
    destruct (encodeURIComponent_outcome s) as [Hok Hbad].
    destruct (encodeURIComponent s) as [enc|e] eqn:Henc; cbn [fst snd].
    + assert (Hwf : isWellFormed s = true) by (apply Hok; by exists enc).
      split.
      * split; first done. intros (rid & [= <-] & _ & Hrid). congruence.
      * done.
    + assert (Hwf : isWellFormed s = false).
      { apply Hbad. f_equal.
        by apply (encodeURIComponent_throws_URIError (length s) s e). }
      assert (e = URIError) as ->
        by (by apply (encodeURIComponent_throws_URIError (length s) s e)).
      split.
      * split; first by (intros _; exists s). done.
      * done.
  - rewrite (onUploadSuccess_no_id u response st Htruthy). cbn [fst snd].
    split; last done. split; first done.
    intros (rid & Hid & Hne & _). rewrite Hid in Htruthy.
    destruct rid; [done | discriminate].
Qed.

Lemma upload_success_throws_iff_lone_surrogate_witness :
  let u := {| file := metadata_of {| file_name := js "cv.pdf"; file_size := 1000;
                                     file_type := js "application/pdf" |};
              id := js "f1" |} in
  let response : gmap jsstring JSValue := {[ js "resume_id" := JString [0xD800] ]} in
  snd (onUploadSuccess u response FileUpload.initial) <> Normal tt
  /\ location_href (fst (onUploadSuccess u response FileUpload.initial)) = None.
Proof.
  intros u response.
  assert (H : snd (onUploadSuccess u response FileUpload.initial) <> Normal tt)
    by (vm_compute; discriminate).
  split; first exact H.
  exact (proj2 (proj2 (proj2 (upload_success_throws_iff_lone_surrogate
                                u response FileUpload.initial) H))).
Defined.

(** *** The alphabet of an encoded component *)

Lemma digit_is_unescaped (c : N) : 0x30 <= c <= 0x39 -> is_uri_unescaped c = true.
Proof.
  intros [H1 H2]. unfold is_uri_unescaped.
  apply N.leb_le in H1, H2. rewrite H1, H2. cbn [andb].
  by rewrite !orb_true_r.
Qed.

Lemma upper_is_unescaped (c : N) : 0x41 <= c <= 0x5A -> is_uri_unescaped c = true.
Proof.
  intros [H1 H2]. unfold is_uri_unescaped.
  apply N.leb_le in H1, H2. by rewrite H1, H2.
Qed.

Lemma hex_digit_unescaped (d : N) : d < 16 -> is_uri_unescaped (hex_digit d) = true.
Proof.
  intros Hd. unfold hex_digit. destruct (N.ltb_spec d 10).
  - apply digit_is_unescaped. lia.
  - apply upper_is_unescaped. lia.
Qed.

Lemma percent_octet_units (o : N) :
  o < 256 -> forallb is_component_unit (percent_octet o) = true.
Proof.
  intros Ho. unfold percent_octet. cbn [forallb].
  assert (H1 : o / 16 < 16) by (apply N.Div0.div_lt_upper_bound; lia).
  assert (H2 : o mod 16 < 16) by (apply N.mod_lt; lia).
  unfold is_component_unit at 2 3.
  rewrite (hex_digit_unescaped _ H1), (hex_digit_unescaped _ H2). reflexivity.
Qed.

Lemma utf8_octets_bytes (cp : N) :
  cp < 0x110000 -> Forall (fun o => o < 256) (utf8_octets cp).
Proof.
  intros Hcp. unfold utf8_octets.
  destruct (N.ltb_spec cp 0x80); first by (apply Forall_cons; split; [lia | apply Forall_nil_2]).
  destruct (N.ltb_spec cp 0x800).
  { assert (cp / 64 < 32) by (apply N.Div0.div_lt_upper_bound; lia).
    assert (cp mod 64 < 64) by (apply N.mod_lt; lia).
    repeat (apply Forall_cons; split; [lia|]). apply Forall_nil_2. }
  destruct (N.ltb_spec cp 0x10000).
  { assert (cp / 4096 < 16) by (apply N.Div0.div_lt_upper_bound; lia).
    assert ((cp / 64) mod 64 < 64) by (apply N.mod_lt; lia).
    assert (cp mod 64 < 64) by (apply N.mod_lt; lia).
    repeat (apply Forall_cons; split; [lia|]); apply Forall_nil_2. }
  assert (cp / 262144 < 5) by (apply N.Div0.div_lt_upper_bound; lia).
  assert ((cp / 4096) mod 64 < 64) by (apply N.mod_lt; lia).
  assert ((cp / 64) mod 64 < 64) by (apply N.mod_lt; lia).
  assert (cp mod 64 < 64) by (apply N.mod_lt; lia).
  repeat (apply Forall_cons; split; [lia|]); apply Forall_nil_2.
Qed.

Lemma percent_encode_units (cp : N) :
  cp < 0x110000 -> forallb is_component_unit (percent_encode cp) = true.
Proof.
  intros Hcp. unfold percent_encode.
  pose proof (utf8_octets_bytes cp Hcp) as Hb.
  induction Hb as [|o os Ho _ IH]; first reflexivity.
  cbn [flat_map]. rewrite forallb_app, IH, (percent_octet_units o Ho). reflexivity.
Qed.

Lemma encodeURIComponent_units (n : nat) :
  forall s enc : jsstring,
    (length s <= n)%nat ->
    Forall (fun c => c < 0x10000) s ->
    encodeURIComponent s = Normal enc ->
    forallb is_component_unit enc = true.
Proof.
  induction n as [|n IH]; intros s enc Hlen Hs.
  - destruct s; last (cbn in Hlen; lia). by intros [= <-].
  - destruct s as [|c rest]; first by intros [= <-].
    cbn in Hlen. apply Forall_cons in Hs as [Hc Hrest].
    cbn [encodeURIComponent].
    destruct (is_uri_unescaped c) eqn:Hu.
    { destruct (encodeURIComponent rest) as [r|] eqn:E; last discriminate.
      intros [= <-]. cbn [forallb]. unfold is_component_unit at 1. rewrite Hu.
      cbn [orb andb]. apply (IH rest r); [lia | exact Hrest | exact E]. }
    destruct (is_trail_surrogate c); first discriminate.
    destruct (is_lead_surrogate c) eqn:Hl.
    + destruct rest as [|d rest']; first discriminate.
      destruct (is_trail_surrogate d) eqn:Hd; last discriminate.
      cbn in Hlen. apply Forall_cons in Hrest as [Hd16 Hrest'].
      destruct (encodeURIComponent rest') as [r|] eqn:E; last discriminate.
      intros [= <-]. rewrite forallb_app.
      rewrite (IH rest' r); [| lia | exact Hrest' | exact E].
      rewrite percent_encode_units; first reflexivity.
      unfold is_lead_surrogate, is_trail_surrogate in Hl, Hd.
      apply andb_prop in Hl as [Hl1 Hl2]. apply andb_prop in Hd as [Hd1 Hd2].
      apply N.leb_le in Hl1, Hl2, Hd1, Hd2. lia.
    + destruct (encodeURIComponent rest) as [r|] eqn:E; last discriminate.
      intros [= <-]. rewrite forallb_app.
      rewrite (IH rest r); [| lia | exact Hrest | exact E].
      rewrite percent_encode_units; [reflexivity | lia].
Qed.

(** X10: the address [onUploadSuccess] navigates to has one query
    parameter and no fragment, whatever the identifier is: after
    ['/jobs?resume_id='] it consists of unreserved characters and
    percent signs only, so none of [& # = ? / +] or a space occurs in
    it. *)
Theorem navigation_target_has_one_parameter
    (u : UseFileUpload.UploadedFile) (response : gmap jsstring JSValue)
    (st : FileUpload.State) :
  (forall s, response !! js "resume_id" = Some (JString s) ->
             Forall (fun c => c < 0x10000) s) ->
  FileUpload.location_href (fst (FileUpload.onUploadSuccess u response st))
    <> FileUpload.location_href st ->
  exists enc : jsstring,
    FileUpload.location_href (fst (FileUpload.onUploadSuccess u response st))
      = Some (js "/jobs?resume_id=" ++ enc)
    /\ forallb is_component_unit enc = true
    /\ forall c, c ∈ [0x26; 0x23; 0x3D; 0x3F; 0x2F; 0x2B; 0x20] -> c ∉ enc.
Proof.
  intros Hunits Hnav.
  destruct (truthy_string (string_or_undefined (response !! js "resume_id")))
    eqn:Htruthy.
  - destruct (response !! js "resume_id") as [[]|] eqn:E; try discriminate.
    assert (Hne : s <> []) by (by destruct s).
    rewrite (onUploadSuccess_with_id u response st s E Hne) in Hnav |- *.
    destruct (encodeURIComponent s) as [enc|e] eqn:Henc; last done.
    exists enc. split; first reflexivity.
    assert (Hsafe : forallb is_component_unit enc = true).
    { apply (encodeURIComponent_units (length s) s enc);
        [lia | by apply Hunits | exact Henc]. }
    split; first exact Hsafe.
    intros c Hc Hin. rewrite forallb_forall in Hsafe.
    apply list_elem_of_In in Hin. specialize (Hsafe c Hin).
    rewrite !elem_of_cons, elem_of_nil in Hc.
    destruct Hc as [-> | [-> | [-> | [-> | [-> | [-> | [-> | []]]]]]]]; discriminate.
  - rewrite (onUploadSuccess_no_id u response st Htruthy) in Hnav. done.
Qed.

Lemma navigation_target_has_one_parameter_witness :
  let u := {| UseFileUpload.file :=
                UseFileUpload.metadata_of
                  {| UseFileUpload.file_name := js "cv.pdf";
                     UseFileUpload.file_size := 1000;
                     UseFileUpload.file_type := js "application/pdf" |};
              UseFileUpload.id := js "f1" |} in
  let response : gmap jsstring JSValue :=
    {[ js "resume_id" := JString (js "a&b=c#d") ]} in
  (forall s, response !! js "resume_id" = Some (JString s) ->
             Forall (fun c => c < 0x10000) s)
  /\ FileUpload.location_href (fst (FileUpload.onUploadSuccess u response FileUpload.initial))
       <> FileUpload.location_href FileUpload.initial
  /\ exists enc : jsstring,
       FileUpload.location_href
         (fst (FileUpload.onUploadSuccess u response FileUpload.initial))
         = Some (js "/jobs?resume_id=" ++ enc)
       /\ forallb is_component_unit enc = true.
Proof.
  intros u response.
  assert (H1 : forall s, response !! js "resume_id" = Some (JString s) ->
                         Forall (fun c => c < 0x10000) s).
  { intros s Hs. vm_compute in Hs. injection Hs as <-.
    repeat (apply Forall_cons; split; [reflexivity|]). apply Forall_nil_2. }
  assert (H2 : FileUpload.location_href
                 (fst (FileUpload.onUploadSuccess u response FileUpload.initial))
               <> FileUpload.location_href FileUpload.initial)
    by (vm_compute; discriminate).
  split; first exact H1. split; first exact H2.
  destruct (navigation_target_has_one_parameter u response FileUpload.initial H1 H2)
    as (enc & Hloc & Hsafe & _).
  by exists enc.
Defined.

(** ** The dashboard, continued *)

(** X11: whenever the dashboard shows an analysis, it shows either the
    score card or the "scores missing" notice, never both and never
    neither. *)
Theorem score_card_xor_notice (ctx : ContextValue) (tab : Tab) (b : Board) :
  DashboardPage ctx tab = Analysis b ->
  (board_score_card b = None <-> board_scores_missing_notice b = true)
  /\ (is_Some (board_score_card b) <-> board_scores_missing_notice b = false).
Proof.
  unfold DashboardPage. destruct (improvedData ctx) as [r|]; last discriminate.
  intros [= <-]. cbn [board_score_card board_scores_missing_notice].
  unfold score_card.
  destruct (is_undefined (original_score (data r))),
           (is_undefined (new_score (data r))); cbn; split; split;
    try done; try (by intros [? ?]); by eexists.
Qed.

Lemma score_card_xor_notice_witness :
  let ctx := provided_value
               (Some {| data := Samples.data_with Undefined
                                  (Value (Samples.ratio 62 100)) None |}) in
  exists b, DashboardPage ctx metrics = Analysis b
            /\ board_score_card b = None
            /\ board_scores_missing_notice b = true.
Proof.
  intros ctx. eexists. split; first reflexivity.
  split; first reflexivity.
  exact (proj1 (proj1 (score_card_xor_notice ctx metrics _ eq_refl)) eq_refl).
Defined.

(** X12: a score that is [null] rather than absent does not count as
    missing: the card is rendered, without the notice, and shows 0 for
    that score. *)
Theorem null_score_shown_as_zero (d : Data) :
  (original_score d = Null -> new_score d <> Undefined ->
     exists card, score_card d = Some card
                  /\ shown_original card = S754_zero false)
  /\ (new_score d = Null -> original_score d <> Undefined ->
        exists card, score_card d = Some card
                     /\ shown_new card = S754_zero false
                     /\ score (resume_analysis_props d) = S754_zero false).
Proof.
  split.
  - intros Ho Hn. unfold score_card. rewrite Ho.
    destruct (new_score d) eqn:E; first done.
    + eexists. split; first reflexivity. cbn [shown_original].
      unfold originalPct. by rewrite Ho.
    + eexists. split; first reflexivity. cbn [shown_original].
      unfold originalPct. by rewrite Ho.
  - intros Hn Ho. unfold score_card. rewrite Hn.
    destruct (original_score d) eqn:E; first done.
    + eexists. split; first reflexivity. cbn [shown_new score resume_analysis_props].
      unfold newPct. by rewrite Hn.
    + eexists. split; first reflexivity. cbn [shown_new score resume_analysis_props].
      unfold newPct. by rewrite Hn.
Qed.

Lemma null_score_shown_as_zero_witness :
  let d := Samples.data_with Null (Value (Samples.ratio 62 100)) None in
  (original_score d = Null /\ new_score d <> Undefined)
  /\ exists card, score_card d = Some card /\ shown_original card = S754_zero false.
Proof.
  intros d.
  assert (H1 : original_score d = Null) by reflexivity.
  assert (H2 : new_score d <> Undefined) by discriminate.
  split; first done.
  exact (proj1 (null_score_shown_as_zero d) H1 H2).
Defined.

(** The extra line of an entry in the preview and in the dialog. *)
Lemma position_lines_agree (l : list Improvement) :
  Forall2 position_agrees
    (map item_extra (map render_item l))
    (map item_extra (map ResumeAnalysis.render_suggestion l)).
Proof.
  induction l as [|item l IH]; first by constructor.
  cbn [map]. constructor; last exact IH.
  unfold render_item, ResumeAnalysis.render_suggestion. cbn [item_extra].
  unfold render_extra.
  destruct (lineNumber item) as [[s|x]|].
  - destruct (is_empty s); cbv beta iota delta [position_agrees];
      [exact I | repeat split; reflexivity].
  - destruct (is_zero x || is_NaN x); cbv beta iota delta [position_agrees];
      [reflexivity | repeat split; reflexivity].
  - exact I.
Qed.

(** X13: the quick preview of the dashboard and the dialog of the
    analysis card it renders agree.  With [l] the suggestions of the
    stored result (none when the list is absent): the preview box is
    absent exactly when [l] is empty, which is exactly when the dialog
    shows its "no suggestions" sentence; otherwise the dialog lists the
    suggestion texts of [l] in order, the preview shows the first three
    of them, each with the same position as in the dialog under the
    preview's own label, and the number announced as remaining is the
    number of entries the dialog lists beyond the previewed ones. *)
Theorem preview_agrees_with_dialog (ctx : ContextValue) (r : ImprovedResult) :
  improvedData ctx = Some r ->
  exists (b : Board) (m : MetricsTab),
    DashboardPage ctx metrics = Analysis b
    /\ board_metrics b = Some m
    /\ (metrics_preview m = None <-> default [] (improvements (data r)) = [])
    /\ (ResumeAnalysis.dialog_suggestions
          (ResumeAnalysis.ResumeAnalysis (metrics_analysis m))
        = ResumeAnalysis.NoSuggestions (js "暂时没有具体的改进建议。")
        <-> default [] (improvements (data r)) = [])
    /\ (forall q, metrics_preview m = Some q ->
          exists items,
            ResumeAnalysis.dialog_suggestions
              (ResumeAnalysis.ResumeAnalysis (metrics_analysis m))
            = ResumeAnalysis.SuggestionList items
            /\ map item_text items
               = map suggestion (default [] (improvements (data r)))
            /\ map item_text (preview_items q) = take 3 (map item_text items)
            /\ Forall2 position_agrees
                 (map item_extra (preview_items q))
                 (take 3 (map item_extra items))
            /\ length items = (length (preview_items q)
                               + default 0 (preview_remaining q))%nat).
Proof.
  intros Hctx. unfold DashboardPage. rewrite Hctx.
  eexists _, _. split; first reflexivity. split; first reflexivity.
  cbn [metrics_preview metrics_analysis].
  unfold quick_preview, resume_analysis_props.
  cbn [ResumeAnalysis.ResumeAnalysis ResumeAnalysis.dialog_suggestions
       analysis_improvements].
  unfold ResumeAnalysis.suggestions_part.
  destruct (improvements (data r)) as [l|]; cbn [default from_option Datatypes.id].
  - destruct l as [|x l].
    + replace (0 <? length (@nil Improvement))%nat with false by reflexivity.
      repeat split; done.
    + replace (0 <? length (x :: l))%nat with true by reflexivity.
      split; first (split; discriminate).
      split; first (split; discriminate).
      generalize (x :: l). clear x l. intros l.
      intros q [= <-]. eexists. split; first reflexivity.
      cbn [preview_items preview_remaining]. unfold slice_0_3.
      split. { by rewrite map_map. }
      split. { by rewrite !map_map, <- fmap_take. }
      split.
      { replace (take 3 (map item_extra (map ResumeAnalysis.render_suggestion l)))
          with (map item_extra (map ResumeAnalysis.render_suggestion (take 3 l)))
          by (by rewrite <- !fmap_take).
        apply position_lines_agree. }
      rewrite !length_map, length_take.
      destruct (Nat.ltb_spec 3 (length l)); cbv [from_option Datatypes.id]; lia.
  - replace (0 <? length (@nil Improvement))%nat with false by reflexivity.
    repeat split; done.
Qed.

Lemma preview_agrees_with_dialog_witness :
  let r := {| data := Samples.sample_data |} in
  improvedData (provided_value (Some r)) = Some r
  /\ exists (b : Board) (m : MetricsTab) (q : QuickPreview)
            (items : list PreviewItem),
       DashboardPage (provided_value (Some r)) metrics = Analysis b
       /\ board_metrics b = Some m
       /\ metrics_preview m = Some q
       /\ ResumeAnalysis.dialog_suggestions
            (ResumeAnalysis.ResumeAnalysis (metrics_analysis m))
          = ResumeAnalysis.SuggestionList items
       /\ map item_text items = map suggestion Samples.five_tips
       /\ map item_text (preview_items q) = take 3 (map item_text items).
Proof.
  intros r. split; first reflexivity.
  destruct (preview_agrees_with_dialog (provided_value (Some r)) r eq_refl)
    as (b & m & Hpage & Hm & Hnone & _ & Hsome).
  destruct (metrics_preview m) as [q|] eqn:Hq.
  - destruct (Hsome q eq_refl) as (items & Hpart & Htexts & Hshown & _).
    exists b, m, q, items.
    split; first exact Hpage. split; first exact Hm. split; first exact Hq.
    split; first exact Hpart. split; [exact Htexts | exact Hshown].
  - pose proof (proj1 Hnone eq_refl) as Hempty. discriminate Hempty.
Defined.

(** ** The analysis card *)

Import ResumeAnalysis.

(** X14: the shortened [details] and [commentary] never exceed 100 code
    units.  A text of up to 100 units is shown as it is; a longer one is
    cut to its first 97 units followed by three dots, 100 units in all.
    Shortening twice is the same as shortening once. *)
Theorem truncated_text_bounds (s : jsstring) :
  (length (truncated s) <= 100)%nat
  /\ ((length s <= 100)%nat -> truncated s = s)
  /\ ((100 < length s)%nat ->
        truncated s = take 97 s ++ js "..." /\ length (truncated s) = 100%nat)
  /\ (truncated s = s <-> (length s <= 100)%nat)
  /\ truncated (truncated s) = truncated s.
Proof.
  assert (Hdots : length (js "...") = 3%nat) by reflexivity.
  assert (Hshort : (length s <= 100)%nat -> truncated s = s).
  { intros H. unfold truncated. by apply Nat.ltb_ge in H as ->. }
  assert (Hlong : (100 < length s)%nat ->
                  truncated s = take 97 s ++ js "..."
                  /\ length (truncated s) = 100%nat).
  { intros H. unfold truncated. apply Nat.ltb_lt in H as H'. rewrite H'.
    split; first reflexivity. rewrite length_app, length_take, Hdots. lia. }
  assert (Hlen : (length (truncated s) <= 100)%nat).
  { destruct (Nat.le_gt_cases (length s) 100) as [H | H].
    - by rewrite (Hshort H).
    - destruct (Hlong H) as [_ ->]. lia. }
  split; first exact Hlen. split; first exact Hshort. split; first exact Hlong.
  split.
  - split; last exact Hshort.
    intros Heq. by rewrite <- Heq.
  - unfold truncated at 1. by apply Nat.ltb_ge in Hlen as ->.
Qed.

Lemma truncated_text_bounds_witness :
  let s := replicate 150 0x61 in
  (100 < length s)%nat
  /\ length (truncated s) = 100%nat.
Proof.
  intros s.
  assert (H : (100 < length s)%nat) by (vm_compute; lia).
  split; first exact H.
  exact (proj2 (proj1 (proj2 (proj2 (truncated_text_bounds s))) H)).
Defined.

(** X15: the three places that colour the score agree on its band, for
    every number: green from 80 on, yellow from 60 on, red below, and red
    also for NaN. *)
Theorem score_colours_agree (score : number) :
  (num_ge score (num_of_Z 80) = true
   /\ getScoreColor score = js "text-green-400"
   /\ getScoreGlow score = js "drop-shadow-[0_0_10px_rgba(34,197,94,0.5)]"
   /\ bar_colour score =
        js "bg-gradient-to-r from-green-500 to-green-400 shadow-[0_0_10px_rgba(34,197,94,0.5)]")
  \/ (num_ge score (num_of_Z 80) = false /\ num_ge score (num_of_Z 60) = true
      /\ getScoreColor score = js "text-yellow-400"
      /\ getScoreGlow score = js "drop-shadow-[0_0_10px_rgba(251,191,36,0.5)]"
      /\ bar_colour score =
           js "bg-gradient-to-r from-yellow-500 to-yellow-400 shadow-[0_0_10px_rgba(251,191,36,0.5)]")
  \/ (num_ge score (num_of_Z 60) = false
      /\ getScoreColor score = js "text-red-400"
      /\ getScoreGlow score = js "drop-shadow-[0_0_10px_rgba(239,68,68,0.5)]"
      /\ bar_colour score =
           js "bg-gradient-to-r from-red-500 to-red-400 shadow-[0_0_10px_rgba(239,68,68,0.5)]"
      /\ (num_ge score (num_of_Z 80) = false)).
Proof.
  unfold getScoreColor, getScoreGlow, bar_colour.
  destruct (num_ge score (num_of_Z 80)) eqn:H80.
  - left. by repeat split.
  - destruct (num_ge score (num_of_Z 60)) eqn:H60.
    + right. left. by repeat split.
    + right. right. by repeat split.
Qed.

(** A score that is not a number is shown in red. *)
Lemma nan_score_is_red :
  getScoreColor S754_nan = js "text-red-400"
  /\ getScoreGlow S754_nan = js "drop-shadow-[0_0_10px_rgba(239,68,68,0.5)]".
Proof. split; reflexivity. Qed.

(** ** The vector-analysis card *)

Import VectorAnalysisCard.

(** X16: the colour and the icon of a skill row are chosen by the same
    bands of the similarity score: above 0.8, above 0.6, above 0.3, and
    the rest (which includes NaN). *)
Theorem match_colour_and_icon_agree (score : number) :
  (num_gt score lit_0_8 = true
   /\ getMatchColor score = js "text-green-400 bg-green-500/20 border-green-500/30"
   /\ getMatchIcon score = js "🎯")
  \/ (num_gt score lit_0_8 = false /\ num_gt score lit_0_6 = true
      /\ getMatchColor score = js "text-blue-400 bg-blue-500/20 border-blue-500/30"
      /\ getMatchIcon score = js "✅")
  \/ (num_gt score lit_0_6 = false /\ num_gt score lit_0_3 = true
      /\ getMatchColor score = js "text-yellow-400 bg-yellow-500/20 border-yellow-500/30"
      /\ getMatchIcon score = js "⚡")
  \/ (num_gt score lit_0_3 = false
      /\ getMatchColor score = js "text-red-400 bg-red-500/20 border-red-500/30"
      /\ getMatchIcon score = js "❌").
Proof.
  unfold getMatchColor, getMatchIcon.
  destruct (num_gt score lit_0_8) eqn:H8; first (left; by repeat split).
  destruct (num_gt score lit_0_6) eqn:H6; first (right; left; by repeat split).
  destruct (num_gt score lit_0_3) eqn:H3; first (right; right; left; by repeat split).
  right. right. right. by repeat split.
Qed.

(** ** The order on numbers *)

Lemma lex_compare_lt (e1 e2 : Z) (m1 m2 : positive) :
  match (e1 ?= e2)%Z with
  | Lt => Lt | Gt => Gt | Eq => Pos.compare_cont Eq m1 m2
  end = Lt
  <-> (e1 < e2)%Z \/ (e1 = e2 /\ (m1 < m2)%positive).
Proof.
  change (Pos.compare_cont Eq m1 m2) with (m1 ?= m2)%positive.
  destruct (Z.compare_spec e1 e2); destruct (Pos.compare_spec m1 m2);
    split; intros; try discriminate; try reflexivity; lia.
Qed.

Lemma lex_compare_eq (e1 e2 : Z) (m1 m2 : positive) :
  match (e1 ?= e2)%Z with
  | Lt => Lt | Gt => Gt | Eq => Pos.compare_cont Eq m1 m2
  end = Eq
  <-> e1 = e2 /\ m1 = m2.
Proof.
  change (Pos.compare_cont Eq m1 m2) with (m1 ?= m2)%positive.
  destruct (Z.compare_spec e1 e2); destruct (Pos.compare_spec m1 m2);
    split; intros; try discriminate; try reflexivity; lia.
Qed.

Lemma lex_compare_gt (e1 e2 : Z) (m1 m2 : positive) :
  match (e1 ?= e2)%Z with
  | Lt => Lt | Gt => Gt | Eq => Pos.compare_cont Eq m1 m2
  end = Gt
  <-> (e2 < e1)%Z \/ (e1 = e2 /\ (m2 < m1)%positive).
Proof.
  change (Pos.compare_cont Eq m1 m2) with (m1 ?= m2)%positive.
  destruct (Z.compare_spec e1 e2); destruct (Pos.compare_spec m1 m2);
    split; intros; try discriminate; try reflexivity; lia.
Qed.

Lemma rlex_compare_lt (e1 e2 : Z) (m1 m2 : positive) :
  match (e1 ?= e2)%Z with
  | Lt => Gt | Gt => Lt | Eq => CompOpp (Pos.compare_cont Eq m1 m2)
  end = Lt
  <-> (e2 < e1)%Z \/ (e1 = e2 /\ (m2 < m1)%positive).
Proof.
  change (Pos.compare_cont Eq m1 m2) with (m1 ?= m2)%positive.
  destruct (Z.compare_spec e1 e2); destruct (Pos.compare_spec m1 m2);
    cbn [CompOpp]; split; intros; try discriminate; try reflexivity; lia.
Qed.

Lemma rlex_compare_eq (e1 e2 : Z) (m1 m2 : positive) :
  match (e1 ?= e2)%Z with
  | Lt => Gt | Gt => Lt | Eq => CompOpp (Pos.compare_cont Eq m1 m2)
  end = Eq
  <-> e1 = e2 /\ m1 = m2.
Proof.
  change (Pos.compare_cont Eq m1 m2) with (m1 ?= m2)%positive.
  destruct (Z.compare_spec e1 e2); destruct (Pos.compare_spec m1 m2);
    cbn [CompOpp]; split; intros; try discriminate; try reflexivity; lia.
Qed.

Lemma rlex_compare_gt (e1 e2 : Z) (m1 m2 : positive) :
  match (e1 ?= e2)%Z with
  | Lt => Gt | Gt => Lt | Eq => CompOpp (Pos.compare_cont Eq m1 m2)
  end = Gt
  <-> (e1 < e2)%Z \/ (e1 = e2 /\ (m1 < m2)%positive).
Proof.
  change (Pos.compare_cont Eq m1 m2) with (m1 ?= m2)%positive.
  destruct (Z.compare_spec e1 e2); destruct (Pos.compare_spec m1 m2);
    cbn [CompOpp]; split; intros; try discriminate; try reflexivity; lia.
Qed.

Ltac order_facts :=
  repeat match goal with
         | E : _ = Lt |- _ =>
             first [apply lex_compare_lt in E | apply rlex_compare_lt in E]
         | E : _ = Eq |- _ =>
             first [apply lex_compare_eq in E | apply rlex_compare_eq in E]
         | E : _ = Gt |- _ =>
             first [apply lex_compare_gt in E | apply rlex_compare_gt in E]
         end.

(** The order of [SFcompare] is transitive: from [x <= y] and [y <= z]
    follows [x <= z], and the conclusion is strict when a premise is. *)
Lemma SFcompare_trans (x y z : number) (c1 c2 : comparison) :
  SFcompare x y = Some c1 -> c1 <> Gt ->
  SFcompare y z = Some c2 -> c2 <> Gt ->
  exists c, SFcompare x z = Some c /\ c <> Gt
            /\ (c1 = Lt \/ c2 = Lt -> c = Lt).
Proof.
  unfold SFcompare.
  destruct x as [sx|sx| |sx mx ex], y as [sy|sy| |sy my ey], z as [sz|sz| |sz mz ez];
    try destruct sx; try destruct sy; try destruct sz;
    intros H1 N1 H2 N2; try discriminate;
    injection H1 as H1; injection H2 as H2; subst c1 c2; try done;
    try (eexists; split; [reflexivity|]; split; [done | tauto]).
  - eexists. split; first reflexivity.
    destruct (match (ex ?= ey)%Z with Lt => Gt | Gt => Lt | Eq => _ end) eqn:E1; try done;
    destruct (match (ey ?= ez)%Z with Lt => Gt | Gt => Lt | Eq => _ end) eqn:E2; try done;
    destruct (match (ex ?= ez)%Z with Lt => Gt | Gt => Lt | Eq => _ end) eqn:E3;
    order_facts; (split; [try done; lia | intros [?|?]; try done; lia]).
  - eexists. split; first reflexivity.
    destruct (match (ex ?= ey)%Z with Lt => Lt | Gt => Gt | Eq => _ end) eqn:E1; try done;
    destruct (match (ey ?= ez)%Z with Lt => Lt | Gt => Gt | Eq => _ end) eqn:E2; try done;
    destruct (match (ex ?= ez)%Z with Lt => Lt | Gt => Gt | Eq => _ end) eqn:E3;
    order_facts; (split; [try done; lia | intros [?|?]; try done; lia]).
Qed.

Lemma SFleb_compare (x y : number) :
  SFleb x y = true <-> exists c, SFcompare x y = Some c /\ c <> Gt.
Proof.
  unfold SFleb. destruct (SFcompare x y) as [[]|]; split; try done;
    try (intros _; by eexists); intros (c & [= <-] & H); done.
Qed.

Lemma SFltb_compare (x y : number) :
  SFltb x y = true <-> SFcompare x y = Some Lt.
Proof. unfold SFltb. by destruct (SFcompare x y) as [[]|]. Qed.

Lemma num_ge_upward (t a b : number) :
  ResumeAnalysis.num_ge a t = true -> SFleb a b = true ->
  ResumeAnalysis.num_ge b t = true.
Proof.
  unfold ResumeAnalysis.num_ge. rewrite !SFleb_compare.
  intros (c1 & H1 & N1) (c2 & H2 & N2).
  destruct (SFcompare_trans t a b c1 c2 H1 N1 H2 N2) as (c & Hc & Nc & _).
  by exists c.
Qed.

Lemma num_gt_upward (t a b : number) :
  num_gt a t = true -> SFleb a b = true -> num_gt b t = true.
Proof.
  unfold num_gt. rewrite !SFltb_compare, SFleb_compare.
  intros H1 (c2 & H2 & N2).
  destruct (SFcompare_trans t a b Lt c2 H1 ltac:(done) H2 N2) as (c & Hc & _ & Hlt).
  rewrite Hc, Hlt; [reflexivity | by left].
Qed.

(** X17: a higher score is never shown in a worse colour.  If a score is
    green, so is every score at least as high; if a score is red, so is
    every score at most as high. *)
Theorem score_colour_monotone (a b : number) :
  SFleb a b = true ->
  (ResumeAnalysis.getScoreColor a = js "text-green-400" ->
   ResumeAnalysis.getScoreColor b = js "text-green-400")
  /\ (ResumeAnalysis.getScoreColor b = js "text-red-400" ->
      ResumeAnalysis.getScoreColor a = js "text-red-400").
Proof.
  intros Hab. unfold ResumeAnalysis.getScoreColor. split.
  - destruct (ResumeAnalysis.num_ge a (num_of_Z 80)) eqn:Ha.
    + by rewrite (num_ge_upward _ a b Ha Hab).
    + destruct (ResumeAnalysis.num_ge a (num_of_Z 60)); intros H;
        vm_compute in H; discriminate.
  - destruct (ResumeAnalysis.num_ge b (num_of_Z 80)) eqn:Hb80.
    { intros H. vm_compute in H. discriminate. }
    destruct (ResumeAnalysis.num_ge b (num_of_Z 60)) eqn:Hb60.
    { intros H. vm_compute in H. discriminate. }
    intros _.
    destruct (ResumeAnalysis.num_ge a (num_of_Z 80)) eqn:Ha80.
    { rewrite (num_ge_upward _ a b Ha80 Hab) in Hb80. discriminate. }
    destruct (ResumeAnalysis.num_ge a (num_of_Z 60)) eqn:Ha60; last reflexivity.
    rewrite (num_ge_upward _ a b Ha60 Hab) in Hb60. discriminate.
Qed.

Lemma score_colour_monotone_witness :
  SFleb (num_of_Z 85) (num_of_Z 92) = true
  /\ ResumeAnalysis.getScoreColor (num_of_Z 92) = js "text-green-400".
Proof.
  split; first reflexivity.
  exact (proj1 (score_colour_monotone (num_of_Z 85) (num_of_Z 92) eq_refl) eq_refl).
Defined.

(** X18: a higher similarity never gets a worse icon: above a target
    score, every score at least as high has the target icon too, and
    below a cross, every score at most as high has a cross. *)
Theorem match_icon_monotone (a b : number) :
  SFleb a b = true ->
  (VectorAnalysisCard.getMatchIcon a = js "🎯" ->
   VectorAnalysisCard.getMatchIcon b = js "🎯")
  /\ (VectorAnalysisCard.getMatchIcon b = js "❌" ->
      VectorAnalysisCard.getMatchIcon a = js "❌").
Proof.
  intros Hab. unfold VectorAnalysisCard.getMatchIcon. split.
  - destruct (num_gt a VectorAnalysisCard.lit_0_8) eqn:Ha.
    + by rewrite (num_gt_upward _ a b Ha Hab).
    + destruct (num_gt a VectorAnalysisCard.lit_0_6);
        [| destruct (num_gt a VectorAnalysisCard.lit_0_3)];
        intros H; vm_compute in H; discriminate.
  - destruct (num_gt b VectorAnalysisCard.lit_0_8) eqn:Hb8.
    { intros H. vm_compute in H. discriminate. }
    destruct (num_gt b VectorAnalysisCard.lit_0_6) eqn:Hb6.
    { intros H. vm_compute in H. discriminate. }
    destruct (num_gt b VectorAnalysisCard.lit_0_3) eqn:Hb3.
    { intros H. vm_compute in H. discriminate. }
    intros _.
    destruct (num_gt a VectorAnalysisCard.lit_0_8) eqn:Ha8.
    { rewrite (num_gt_upward _ a b Ha8 Hab) in Hb8. discriminate. }
    destruct (num_gt a VectorAnalysisCard.lit_0_6) eqn:Ha6.
    { rewrite (num_gt_upward _ a b Ha6 Hab) in Hb6. discriminate. }
    destruct (num_gt a VectorAnalysisCard.lit_0_3) eqn:Ha3; last reflexivity.
    rewrite (num_gt_upward _ a b Ha3 Hab) in Hb3. discriminate.
Qed.

Lemma match_icon_monotone_witness :
  SFleb (Samples.ratio 85 100) (Samples.ratio 9 10) = true
  /\ VectorAnalysisCard.getMatchIcon (Samples.ratio 9 10) = js "🎯".
Proof.
  split; first reflexivity.
  exact (proj1 (match_icon_monotone (Samples.ratio 85 100) (Samples.ratio 9 10) eq_refl)
           eq_refl).
Defined.

(** ** The skill lists of the vector-analysis card *)

Lemma join_empty_iff (sep : jsstring) (l : list jsstring) :
  sep <> [] ->
  FileUpload.join sep l = [] <-> l = [] \/ l = [[]].
Proof.
  intros Hsep. destruct l as [|x [|y rest]]; cbn [FileUpload.join].
  - split; [by left | done].
  - split.
    + intros ->. by right.
    + intros [H | H]; [discriminate | by injection H].
  - split.
    + intros H. apply app_eq_nil in H as [_ H]. apply app_eq_nil in H as [H _]. done.
    + intros [H | H]; discriminate.
Qed.

(** X19: the one-line summaries of strengths and of gaps name at most
    the first three entries, joined by a comma and a space.  They read
    '无' when there is nothing to join, which is the case for no entry at
    all and for a single entry whose name is the empty string, and
    otherwise only if the joined names themselves read '无'. *)
Theorem skill_summaries (v : VectorAnalysisData) :
  let strengths := map strong_skill (take 3 (strength_areas v)) in
  let gaps := map missing_skill (take 3 (coverage_gaps v)) in
  (length strengths <= 3)%nat /\ (length gaps <= 3)%nat
  /\ (VectorAnalysisCard.strengths_preview v = js "无"
      <-> strengths = [] \/ strengths = [[]]
          \/ FileUpload.join (js ", ") strengths = js "无")
  /\ (strengths <> [] -> strengths <> [[]] ->
      VectorAnalysisCard.strengths_preview v = FileUpload.join (js ", ") strengths)
  /\ (VectorAnalysisCard.gaps_preview v = js "无"
      <-> gaps = [] \/ gaps = [[]] \/ FileUpload.join (js ", ") gaps = js "无")
  /\ (gaps <> [] -> gaps <> [[]] ->
      VectorAnalysisCard.gaps_preview v = FileUpload.join (js ", ") gaps).
Proof.
  cbn zeta.
  assert (Hsep : js ", " <> []) by (vm_compute; discriminate).
  assert (Hgen : forall names : list jsstring,
            (VectorAnalysisCard.or_else (FileUpload.join (js ", ") names) (js "无")
               = js "无"
             <-> names = [] \/ names = [[]]
                 \/ FileUpload.join (js ", ") names = js "无")
            /\ (names <> [] -> names <> [[]] ->
                VectorAnalysisCard.or_else (FileUpload.join (js ", ") names) (js "无")
                  = FileUpload.join (js ", ") names)).
  { intros names. unfold VectorAnalysisCard.or_else.
    pose proof (join_empty_iff (js ", ") names Hsep) as Hj.
    destruct (FileUpload.join (js ", ") names) as [|c t] eqn:E; cbn [is_empty].
    - split; last (intros H1 H2; destruct (proj1 Hj eq_refl); done).
      split; last done. intros _.
      destruct (proj1 Hj eq_refl) as [-> | ->]; [by left | right; by left].
    - split; last done.
      split; first (intros H; right; by right).
      intros [H | [H | H]]; [| | exact H];
        (assert (c :: t = []) by (apply Hj; auto); discriminate). }
  split. { rewrite length_map, length_take. lia. }
  split. { rewrite length_map, length_take. lia. }
  unfold VectorAnalysisCard.strengths_preview, VectorAnalysisCard.gaps_preview,
    slice_0_3.
  destruct (Hgen (map strong_skill (take 3 (strength_areas v)))) as [H1 H2].
  destruct (Hgen (map missing_skill (take 3 (coverage_gaps v)))) as [H3 H4].
  done.
Qed.

Lemma skill_summaries_witness :
  let v := {| skill_by_skill_analysis := [];
              coverage_gaps := [];
              strength_areas :=
                [ {| strong_skill := js "Rocq"; resume_match := js "Coq";
                     strength_level := js "high" |};
                  {| strong_skill := js "OCaml"; resume_match := js "ML";
                     strength_level := js "high" |} ];
              coverage_statistics := Samples.stats_three_of_four;
              detailed_recommendations := [] |} in
  VectorAnalysisCard.strengths_preview v = js "Rocq, OCaml"
  /\ VectorAnalysisCard.gaps_preview v = js "无".
Proof.
  intros v.
  destruct (skill_summaries v) as (_ & _ & _ & Hs & Hg & _).
  split.
  - rewrite Hs; [vm_compute; reflexivity | vm_compute; discriminate
                 | vm_compute; discriminate].
  - apply Hg. by left.
Defined.

(** ** The context and the dashboard *)

(** X20: what is stored through the hook's setter is what the hook
    returns on the next render, whatever providers lie further out; in
    particular, after the "clear data" button of the dashboard has been
    pressed, the dashboard shows its empty state, and after a result has
    been stored it shows that result. *)
Theorem stored_result_is_rendered
    (cell : ProviderState) (outer : list ProviderState) (tab : Tab) :
  (forall v : option ImprovedResult,
     exists ctx', useResumePreview
                    (ResumePreviewContext.setImprovedData (provided_value cell) v cell :: outer)
                  = Normal ctx'
                  /\ improvedData ctx' = v)
  /\ (exists ctx', useResumePreview
                     (DashboardHandlers.clear_data (provided_value cell) cell :: outer)
                   = Normal ctx'
                   /\ DashboardPage ctx' tab = EmptyState)
  /\ (forall r : ImprovedResult,
        exists ctx' b,
          useResumePreview (ResumePreviewContext.setImprovedData (provided_value cell) (Some r) cell :: outer)
            = Normal ctx'
          /\ DashboardPage ctx' tab = Analysis b
          /\ board_score_card b = score_card (data r)).
Proof.
  split; last split.
  - intros v. by eexists.
  - by eexists.
  - intros r. by eexists _, _.
Qed.

(** ** Through the address bar *)

Import URL.

Lemma component_unit_facts (c : N) :
  is_component_unit c = true ->
  0x20 < c /\ c < 0x7F /\ c <> 0x23 /\ c <> 0x3F /\ c <> 0x26 /\ c <> 0x3D
  /\ c <> 0x2B.
Proof.
  unfold is_component_unit, is_uri_unescaped. intros H.
  repeat match goal with
         | H : _ && _ = true |- _ => apply andb_prop in H as [? ?]
         | H : _ || _ = true |- _ => apply orb_prop in H as [?|?]
         | H : (_ <=? _) = true |- _ => apply N.leb_le in H
         | H : (_ =? _) = true |- _ => apply N.eqb_eq in H
         end; lia.
Qed.


Ltac ndiv := zify; Z.to_euclidean_division_equations; lia.

Lemma land_low_bits (b : N) :
  N.land b 0x3F = b mod 64 /\ N.land b 0x1F = b mod 32
  /\ N.land b 0xF = b mod 16 /\ N.land b 0x7 = b mod 8.
Proof.
  repeat split.
  - exact (N.land_ones b 6).
  - exact (N.land_ones b 5).
  - exact (N.land_ones b 4).
  - exact (N.land_ones b 3).
Qed.

Lemma lor_shiftl_6 (a b : N) : b < 64 -> N.lor (N.shiftl a 6) b = a * 64 + b.
Proof.
  intros Hb. rewrite N.shiftl_mul_pow2.
  assert (Hland : N.land (a * 2 ^ 6) b = 0).
  { apply N.bits_inj_0. intros n. rewrite N.land_spec.
    destruct (N.lt_ge_cases n 6) as [Hn | Hn].
    - by rewrite N.mul_pow2_bits_low.
    - rewrite <- (N.mod_small b (2 ^ 6)) by exact Hb.
      rewrite N.mod_pow2_bits_high by exact Hn. apply andb_false_r. }
  rewrite <- N.lxor_lor by exact Hland.
  rewrite <- N.add_nocarry_lxor by exact Hland. reflexivity.
Qed.

Lemma utf8_decode_octets (cp : N) (rest : list N) :
  is_scalar_value cp ->
  utf8_decode_from None (utf8_octets cp ++ rest) = cp :: utf8_decode_from None rest.
Proof.
  intros Hcp. unfold is_scalar_value in Hcp. unfold utf8_octets.
  destruct (N.ltb_spec cp 0x80) as [H1 | H1].
  { cbn [app utf8_decode_from]. unfold utf8_lead.
    destruct (N.leb_spec cp 0x7F); [reflexivity | lia]. }
  destruct (N.ltb_spec cp 0x800) as [H2 | H2].
  { cbn [app utf8_decode_from]. unfold utf8_lead.
    destruct (N.leb_spec (0xC0 + cp / 64) 0x7F); first (exfalso; ndiv).
    destruct (N.leb_spec 0xC2 (0xC0 + cp / 64)); last (exfalso; ndiv).
    destruct (N.leb_spec (0xC0 + cp / 64) 0xDF); last (exfalso; ndiv).
    cbn [andb lower_boundary upper_boundary code_point bytes_seen bytes_needed].
    destruct (N.leb_spec 0x80 (0x80 + cp mod 64)); last (exfalso; ndiv).
    destruct (N.leb_spec (0x80 + cp mod 64) 0xBF); last (exfalso; ndiv).
    cbn [andb]. replace (0 + 1 =? 1) with true by reflexivity.
    f_equal. destruct (land_low_bits (0x80 + cp mod 64)) as (-> & _).
    destruct (land_low_bits (0xC0 + cp / 64)) as (_ & -> & _).
    rewrite lor_shiftl_6 by ndiv. ndiv. }
  destruct (N.ltb_spec cp 0x10000) as [H3 | H3].
  { cbn [app utf8_decode_from]. unfold utf8_lead.
    destruct (N.leb_spec (0xE0 + cp / 4096) 0x7F); first (exfalso; ndiv).
    destruct (N.leb_spec 0xC2 (0xE0 + cp / 4096)); last (exfalso; ndiv).
    destruct (N.leb_spec (0xE0 + cp / 4096) 0xDF); first (exfalso; ndiv).
    destruct (N.leb_spec 0xE0 (0xE0 + cp / 4096)); last (exfalso; ndiv).
    destruct (N.leb_spec (0xE0 + cp / 4096) 0xEF); last (exfalso; ndiv).
    cbn [andb lower_boundary upper_boundary code_point bytes_seen bytes_needed].
    assert (Hin : ((if 0xE0 + cp / 4096 =? 0xE0 then 0xA0 else 0x80)
                     <=? 0x80 + (cp / 64) mod 64)
                  && (0x80 + (cp / 64) mod 64
                        <=? (if 0xE0 + cp / 4096 =? 0xED then 0x9F else 0xBF)) = true).
    { apply andb_true_intro. split; apply N.leb_le.
      - destruct (N.eqb_spec (0xE0 + cp / 4096) 0xE0); ndiv.
      - destruct (N.eqb_spec (0xE0 + cp / 4096) 0xED); ndiv. }
    rewrite Hin. replace (0 + 1 =? 2) with false by reflexivity.
    cbn [utf8_decode_from lower_boundary upper_boundary code_point bytes_seen bytes_needed].
    destruct (N.leb_spec 0x80 (0x80 + cp mod 64)); last (exfalso; ndiv).
    destruct (N.leb_spec (0x80 + cp mod 64) 0xBF); last (exfalso; ndiv).
    cbn [andb]. replace (0 + 1 + 1 =? 2) with true by reflexivity.
    f_equal. destruct (land_low_bits (0x80 + cp mod 64)) as (-> & _).
    destruct (land_low_bits (0x80 + (cp / 64) mod 64)) as (-> & _).
    destruct (land_low_bits (0xE0 + cp / 4096)) as (_ & _ & -> & _).
    rewrite (lor_shiftl_6 _ ((0x80 + (cp / 64) mod 64) mod 64)) by ndiv.
    rewrite lor_shiftl_6 by ndiv. ndiv. }
  cbn [app utf8_decode_from]. unfold utf8_lead.
  destruct (N.leb_spec (0xF0 + cp / 262144) 0x7F); first (exfalso; ndiv).
  destruct (N.leb_spec 0xC2 (0xF0 + cp / 262144)); last (exfalso; ndiv).
  destruct (N.leb_spec (0xF0 + cp / 262144) 0xDF); first (exfalso; ndiv).
  destruct (N.leb_spec 0xE0 (0xF0 + cp / 262144)); last (exfalso; ndiv).
  destruct (N.leb_spec (0xF0 + cp / 262144) 0xEF); first (exfalso; ndiv).
  destruct (N.leb_spec 0xF0 (0xF0 + cp / 262144)); last (exfalso; ndiv).
  destruct (N.leb_spec (0xF0 + cp / 262144) 0xF4); last (exfalso; ndiv).
  cbn [andb lower_boundary upper_boundary code_point bytes_seen bytes_needed].
  assert (Hin : ((if 0xF0 + cp / 262144 =? 0xF0 then 0x90 else 0x80)
                   <=? 0x80 + (cp / 4096) mod 64)
                && (0x80 + (cp / 4096) mod 64
                      <=? (if 0xF0 + cp / 262144 =? 0xF4 then 0x8F else 0xBF)) = true).
  { apply andb_true_intro. split; apply N.leb_le.
    - destruct (N.eqb_spec (0xF0 + cp / 262144) 0xF0); ndiv.
    - destruct (N.eqb_spec (0xF0 + cp / 262144) 0xF4); ndiv. }
  rewrite Hin. replace (0 + 1 =? 3) with false by reflexivity.
  cbn [utf8_decode_from lower_boundary upper_boundary code_point bytes_seen bytes_needed].
  destruct (N.leb_spec 0x80 (0x80 + (cp / 64) mod 64)); last (exfalso; ndiv).
  destruct (N.leb_spec (0x80 + (cp / 64) mod 64) 0xBF); last (exfalso; ndiv).
  cbn [andb]. replace (0 + 1 + 1 =? 3) with false by reflexivity.
  cbn [utf8_decode_from lower_boundary upper_boundary code_point bytes_seen bytes_needed].
  destruct (N.leb_spec 0x80 (0x80 + cp mod 64)); last (exfalso; ndiv).
  destruct (N.leb_spec (0x80 + cp mod 64) 0xBF); last (exfalso; ndiv).
  cbn [andb]. replace (0 + 1 + 1 + 1 =? 3) with true by reflexivity.
  f_equal. destruct (land_low_bits (0x80 + cp mod 64)) as (-> & _).
  destruct (land_low_bits (0x80 + (cp / 64) mod 64)) as (-> & _).
  destruct (land_low_bits (0x80 + (cp / 4096) mod 64)) as (-> & _).
  destruct (land_low_bits (0xF0 + cp / 262144)) as (_ & _ & _ & ->).
  rewrite (lor_shiftl_6 _ ((0x80 + (cp / 4096) mod 64) mod 64)) by ndiv.
  rewrite (lor_shiftl_6 _ ((0x80 + (cp / 64) mod 64) mod 64)) by ndiv.
  rewrite lor_shiftl_6 by ndiv. ndiv.
Qed.

Lemma hex_value_hex_digit (d : N) : d < 16 -> hex_value (hex_digit d) = Some d.
Proof.
  intros Hd. unfold hex_digit, hex_value.
  destruct (N.ltb_spec d 10).
  - destruct (N.leb_spec 0x30 (0x30 + d)); last lia.
    destruct (N.leb_spec (0x30 + d) 0x39); last lia.
    cbn [andb]. f_equal. lia.
  - destruct (N.leb_spec 0x30 (0x41 + (d - 10))); last lia.
    destruct (N.leb_spec (0x41 + (d - 10)) 0x39); first lia.
    cbn [andb].
    destruct (N.leb_spec 0x41 (0x41 + (d - 10))); last lia.
    destruct (N.leb_spec (0x41 + (d - 10)) 0x46); last lia.
    cbn [andb]. f_equal. lia.
Qed.

Lemma percent_decode_octet (o : N) (rest : list N) :
  o < 256 ->
  percent_decode (percent_octet o ++ rest) = o :: percent_decode rest.
Proof.
  intros Ho. unfold percent_octet. cbn [app percent_decode].
  replace (0x25 =? 0x25) with true by reflexivity.
  rewrite !hex_value_hex_digit by ndiv. f_equal. ndiv.
Qed.

Lemma query_encode_plain (c : N) :
  is_component_unit c = true -> c <> 0x27 -> query_encode c = [c].
Proof.
  intros Hc Hq. unfold query_encode.
  replace (in_special_query_set c) with false; first reflexivity.
  symmetry. destruct (component_unit_facts c Hc) as (H1 & H2 & H3 & _).
  unfold in_special_query_set.
  repeat (apply orb_false_intro); try (apply N.leb_gt); try (apply N.ltb_ge);
    try (apply N.eqb_neq); try lia.
  all: unfold is_component_unit, is_uri_unescaped in Hc;
    repeat match goal with
           | H : _ && _ = true |- _ => apply andb_prop in H as [? ?]
           | H : _ || _ = true |- _ => apply orb_prop in H as [?|?]
           | H : (_ <=? _) = true |- _ => apply N.leb_le in H
           | H : (_ =? _) = true |- _ => apply N.eqb_eq in H
           end; lia.
Qed.

Lemma query_encode_octet (o : N) :
  o < 256 -> flat_map query_encode (percent_octet o) = percent_octet o.
Proof.
  intros Ho.
  pose proof (percent_octet_units o Ho) as Hu.
  unfold percent_octet in *. cbn [forallb] in Hu.
  apply andb_prop in Hu as [H1 Hu]. apply andb_prop in Hu as [H2 Hu].
  apply andb_prop in Hu as [H3 _].
  cbn [flat_map app].
  rewrite (query_encode_plain 0x25) by done.
  assert (Hd : forall d, d < 16 -> hex_digit d <> 0x27).
  { intros d Hd. unfold hex_digit. destruct (d <? 10); lia. }
  rewrite (query_encode_plain _ H2) by (apply Hd; ndiv).
  rewrite (query_encode_plain _ H3) by (apply Hd; ndiv).
  reflexivity.
Qed.

Lemma percent_encode_through_query (cp : N) (rest : list N) :
  cp < 0x110000 ->
  flat_map query_encode (percent_encode cp) = percent_encode cp
  /\ percent_decode (percent_encode cp ++ rest) = utf8_octets cp ++ percent_decode rest.
Proof.
  intros Hcp. unfold percent_encode.
  pose proof (utf8_octets_bytes cp Hcp) as Hb.
  induction Hb as [|o os Ho _ [IH1 IH2]]; first done.
  cbn [flat_map]. split.
  - by rewrite flat_map_app, IH1, query_encode_octet.
  - rewrite <- app_assoc, percent_decode_octet by exact Ho.
    cbn [app]. by rewrite IH2.
Qed.

(** What an identifier turns into on its way through the address, and
    back. *)
Lemma encoded_component_decodes (n : nat) :
  forall s enc : jsstring,
    (length s <= n)%nat ->
    Forall (fun c => c < 0x10000) s ->
    encodeURIComponent s = Normal enc ->
    percent_decode (flat_map query_encode enc) = flat_map utf8_octets (scalar_values s)
    /\ Forall is_scalar_value (scalar_values s)
    /\ flat_map units_of_code_point (scalar_values s) = s.
Proof.
  induction n as [|n IH]; intros s enc Hlen Hs.
  - destruct s; last (cbn in Hlen; lia). intros [= <-]. by repeat split.
  - destruct s as [|c rest]; first (intros [= <-]; by repeat split).
    cbn in Hlen. apply Forall_cons in Hs as [Hc Hrest].
    cbn [encodeURIComponent scalar_values].
    destruct (is_uri_unescaped c) eqn:Hu.
    { destruct (encodeURIComponent rest) as [r|] eqn:E; last discriminate.
      intros [= <-].
      destruct (IH rest r ltac:(lia) Hrest E) as (IH1 & IH2 & IH3).
      assert (Hcu : is_component_unit c = true)
        by (unfold is_component_unit; by rewrite Hu).
      destruct (component_unit_facts c Hcu) as (Hlo & Hhi & _).
      assert (Hl : is_lead_surrogate c = false).
      { unfold is_lead_surrogate. apply andb_false_iff. left. apply N.leb_gt. lia. }
      assert (Ht : is_trail_surrogate c = false).
      { unfold is_trail_surrogate. apply andb_false_iff. left. apply N.leb_gt. lia. }
      rewrite Hl, Ht. cbn [flat_map].
      assert (H8 : utf8_octets c = [c]).
      { unfold utf8_octets. destruct (N.ltb_spec c 0x80); [reflexivity | lia]. }
      assert (H16 : units_of_code_point c = [c]).
      { unfold units_of_code_point. destruct (N.ltb_spec c 0x10000); [reflexivity | lia]. }
      rewrite H8, H16. split; last split.
      - destruct (N.eq_dec c 0x27) as [-> | Hq].
        + unfold query_encode at 1.
          replace (in_special_query_set 0x27) with true by reflexivity.
          destruct (percent_encode_through_query 0x27 (flat_map query_encode r)
                      ltac:(lia)) as [_ ->].
          by rewrite IH1.
        + rewrite (query_encode_plain c Hcu Hq). cbn [app percent_decode].
          destruct (N.eqb_spec c 0x25) as [-> | _]; first discriminate.
          by rewrite IH1.
      - apply Forall_cons. split; last exact IH2. left. lia.
      - cbn [app]. by rewrite IH3. }
    destruct (is_trail_surrogate c) eqn:Ht; first discriminate.
    destruct (is_lead_surrogate c) eqn:Hl.
    + destruct rest as [|d rest']; first discriminate.
      destruct (is_trail_surrogate d) eqn:Hd; last discriminate.
      cbn in Hlen. apply Forall_cons in Hrest as [Hd16 Hrest'].
      destruct (encodeURIComponent rest') as [r|] eqn:E; last discriminate.
      intros [= <-].
      destruct (IH rest' r ltac:(lia) Hrest' E) as (IH1 & IH2 & IH3).
      unfold is_lead_surrogate, is_trail_surrogate in Hl, Hd.
      apply andb_prop in Hl as [Hl1 Hl2]. apply andb_prop in Hd as [Hd1 Hd2].
      apply N.leb_le in Hl1, Hl2, Hd1, Hd2.
      set (cp := (c - 0xD800) * 0x400 + (d - 0xDC00) + 0x10000).
      assert (Hcp : 0x10000 <= cp /\ cp < 0x110000) by (unfold cp; lia).
      rewrite flat_map_app. cbn [flat_map].
      destruct (percent_encode_through_query cp (flat_map query_encode r)
                  ltac:(lia)) as [-> ->].
      split; last split.
      * by rewrite IH1.
      * apply Forall_cons. split; last exact IH2. right. lia.
      * rewrite IH3. unfold units_of_code_point.
        destruct (N.ltb_spec cp 0x10000); first lia.
        cbn [app]. f_equal; [|f_equal]; unfold cp; ndiv.
    + destruct (encodeURIComponent rest) as [r|] eqn:E; last discriminate.
      intros [= <-].
      destruct (IH rest r ltac:(lia) Hrest E) as (IH1 & IH2 & IH3).
      unfold is_lead_surrogate, is_trail_surrogate in Hl, Ht.
      apply andb_false_iff in Hl, Ht. rewrite !N.leb_gt in Hl, Ht.
      rewrite flat_map_app. cbn [flat_map].
      destruct (percent_encode_through_query c (flat_map query_encode r)
                  ltac:(lia)) as [-> ->].
      split; last split.
      * by rewrite IH1.
      * apply Forall_cons. split; last exact IH2. unfold is_scalar_value. lia.
      * rewrite IH3. unfold units_of_code_point.
        destruct (N.ltb_spec c 0x10000); [reflexivity | lia].
Qed.

Lemma utf8_decode_scalar_values (cps : list N) :
  Forall is_scalar_value cps ->
  utf8_decode_from None (flat_map utf8_octets cps) = cps.
Proof.
  induction 1 as [|cp cps Hcp _ IH]; first reflexivity.
  cbn [flat_map]. by rewrite utf8_decode_octets, IH.
Qed.

(** *** Reading the parameter back *)

Lemma scalar_values_ascii (s : jsstring) :
  Forall printable s -> scalar_values s = s.
Proof.
  induction 1 as [|c s [H1 H2] _ IH]; first reflexivity.
  cbn [scalar_values].
  assert (Hl : is_lead_surrogate c = false).
  { unfold is_lead_surrogate. apply andb_false_iff. left. apply N.leb_gt. lia. }
  assert (Ht : is_trail_surrogate c = false).
  { unfold is_trail_surrogate. apply andb_false_iff. left. apply N.leb_gt. lia. }
  by rewrite Hl, Ht, IH.
Qed.

Lemma drop_while_space_printable (l : list N) :
  Forall printable l -> drop_while is_c0_or_space l = l.
Proof.
  destruct 1 as [|c l [H1 H2] _]; first reflexivity.
  cbn [drop_while]. unfold is_c0_or_space.
  destruct (N.leb_spec c 0x20); [lia | reflexivity].
Qed.

Lemma strip_input_printable (l : list N) :
  Forall printable l -> strip_input l = l.
Proof.
  intros Hl. unfold strip_input.
  rewrite (drop_while_space_printable l Hl).
  rewrite (drop_while_space_printable (rev l)) by (by apply Forall_rev).
  rewrite rev_involutive.
  induction Hl as [|c l [H1 H2] _ IH]; first reflexivity.
  rewrite filter_cons, IH. rewrite decide_True; first reflexivity.
  unfold is_tab_or_newline.
  destruct (N.eqb_spec c 9); first lia.
  destruct (N.eqb_spec c 10); first lia.
  destruct (N.eqb_spec c 13); first lia. reflexivity.
Qed.

Lemma before_first_absent (sep : N) (l : list N) :
  Forall (fun c => c <> sep) l -> before_first sep l = l.
Proof.
  induction 1 as [|c l Hc _ IH]; first reflexivity.
  cbn [before_first]. destruct (N.eqb_spec c sep); first done. by rewrite IH.
Qed.

Lemma before_first_app (sep : N) (p r x : list N) :
  after_first sep p = Some r ->
  before_first sep (p ++ x) = before_first sep p.
Proof.
  revert r. induction p as [|c p IH]; intros r; first discriminate.
  cbn [after_first before_first app]. destruct (c =? sep); first reflexivity.
  intros H. by rewrite (IH r H).
Qed.

Lemma after_first_app (sep : N) (p r x : list N) :
  after_first sep p = Some r ->
  after_first sep (p ++ x) = Some (r ++ x).
Proof.
  induction p as [|c p IH]; first discriminate.
  cbn [after_first app]. destruct (c =? sep); last exact IH.
  by intros [= ->].
Qed.

Lemma split_on_absent (sep : N) (l : list N) :
  Forall (fun c => c <> sep) l -> UseFileUpload.split_on sep l = [l].
Proof.
  induction 1 as [|c l Hc _ IH]; first reflexivity.
  cbn [UseFileUpload.split_on]. destruct (N.eqb_spec c sep); first done.
  by rewrite IH.
Qed.

Lemma plus_to_space_absent (l : list N) :
  Forall (fun c => c <> 0x2B) l -> plus_to_space l = l.
Proof.
  unfold plus_to_space. induction 1 as [|c l Hc _ IH]; first reflexivity.
  cbn [map]. destruct (N.eqb_spec c 0x2B); first done. by rewrite IH.
Qed.

Lemma query_encode_units (enc : list N) :
  forallb is_component_unit enc = true ->
  forallb is_component_unit (flat_map query_encode enc) = true.
Proof.
  induction enc as [|c enc IH]; first reflexivity.
  cbn [forallb flat_map]. intros H. apply andb_prop in H as [Hc Henc].
  rewrite forallb_app, (IH Henc), andb_true_r.
  destruct (N.eq_dec c 0x27) as [-> | Hq]; first reflexivity.
  rewrite (query_encode_plain c Hc Hq). cbn [forallb]. by rewrite Hc.
Qed.

Lemma component_units_printable (l : list N) :
  forallb is_component_unit l = true ->
  Forall printable l
  /\ Forall (fun c => c <> 0x23) l /\ Forall (fun c => c <> 0x26) l
  /\ Forall (fun c => c <> 0x3D) l /\ Forall (fun c => c <> 0x2B) l.
Proof.
  intros H. rewrite forallb_forall in H.
  repeat split; apply Forall_forall; intros c Hc;
    apply list_elem_of_In in Hc;
    destruct (component_unit_facts c (H c Hc)) as (? & ? & ? & ? & ? & ? & ?);
    done.
Qed.

Lemma encoded_query_read_back (rid enc : jsstring) :
  Forall (fun c => c < 0x10000) rid ->
  encodeURIComponent rid = Normal enc ->
  useSearchParams_get (js "resume_id") (js "/jobs?resume_id=" ++ enc) = Some rid.
Proof.
  intros Hunits Henc.
  pose proof (encodeURIComponent_units (length rid) rid enc ltac:(lia) Hunits Henc)
    as Hsafe.
  destruct (component_units_printable enc Hsafe) as (Hp & Hhash & _).
  pose proof (query_encode_units enc Hsafe) as Hq.
  destruct (component_units_printable _ Hq) as (_ & _ & Hamp & Heq & Hplus).
  destruct (encoded_component_decodes (length rid) rid enc ltac:(lia) Hunits Henc)
    as (Hdec & Hscalar & Hback).
  set (Q := flat_map query_encode enc) in *.
  unfold useSearchParams_get, query_of_href.
  replace (js "/jobs?resume_id=")
    with [0x2F; 0x6A; 0x6F; 0x62; 0x73; 0x3F;
          0x72; 0x65; 0x73; 0x75; 0x6D; 0x65; 0x5F; 0x69; 0x64; 0x3D]
    by (vm_compute; reflexivity).
  set (path := [0x2F; 0x6A; 0x6F; 0x62; 0x73; 0x3F;
                0x72; 0x65; 0x73; 0x75; 0x6D; 0x65; 0x5F; 0x69; 0x64; 0x3D]).
  set (name := [0x72; 0x65; 0x73; 0x75; 0x6D; 0x65; 0x5F; 0x69; 0x64]).
  assert (Hpath : Forall printable path /\ Forall (fun c => c <> 0x23) path).
  { split; repeat (apply Forall_cons; split; [unfold printable; lia|]);
      apply Forall_nil_2. }
  destruct Hpath as [Hpp Hph].
  rewrite scalar_values_ascii by (by apply Forall_app).
  rewrite strip_input_printable by (by apply Forall_app).
  rewrite before_first_absent by (by apply Forall_app).
  rewrite (after_first_app 0x3F path (name ++ [0x3D]) enc) by reflexivity.
  rewrite flat_map_app. fold Q.
  replace (flat_map query_encode (name ++ [0x3D])) with (name ++ [0x3D])
    by (vm_compute; reflexivity).
  cbn [default from_option Datatypes.id].
  unfold parse_urlencoded.
  assert (Hname : Forall (fun c => c <> 0x26) (name ++ [0x3D])).
  { repeat (apply Forall_cons; split; [lia|]). apply Forall_nil_2. }
  rewrite split_on_absent by (by apply Forall_app).
  rewrite filter_cons, filter_nil, decide_True by (by destruct Q).
  cbn [map get]. unfold parse_pair.
  rewrite (before_first_app 0x3D (name ++ [0x3D]) [] Q) by reflexivity.
  rewrite (after_first_app 0x3D (name ++ [0x3D]) [] Q) by reflexivity.
  cbn [app default from_option Datatypes.id].
  replace (utf8_decode
             (percent_decode
                (plus_to_space (before_first 0x3D (name ++ [0x3D])))))
    with (js "resume_id") by (vm_compute; reflexivity).
  rewrite bool_decide_eq_true_2 by reflexivity.
  f_equal. rewrite plus_to_space_absent by exact Hplus.
  unfold utf8_decode. rewrite Hdec, (utf8_decode_scalar_values _ Hscalar).
  exact Hback.
Qed.

(** X21: the encoding survives the address bar.  Every identifier
    without a lone surrogate is accepted by [encodeURIComponent], and
    navigating to ['/jobs?resume_id=' + encodeURIComponent(id)] and
    reading [useSearchParams().get('resume_id')] on the page reached
    gives back the identifier, unit for unit. *)
Theorem resume_id_read_back (rid : jsstring) :
  Forall (fun c => c < 0x10000) rid ->
  isWellFormed rid = true ->
  exists enc : jsstring,
    encodeURIComponent rid = Normal enc
    /\ useSearchParams_get (js "resume_id") (js "/jobs?resume_id=" ++ enc) = Some rid.
Proof.
  intros Hunits Hwf.
  destruct (encodeURIComponent_well_formed rid Hwf) as [enc Henc].
  exists enc. split; first exact Henc.
  exact (encoded_query_read_back rid enc Hunits Henc).
Qed.

Lemma resume_id_read_back_witness :
  (Forall (fun c => c < 0x10000) (js "it's 简历/😀&x=1")
   /\ isWellFormed (js "it's 简历/😀&x=1") = true)
  /\ exists enc : jsstring,
       encodeURIComponent (js "it's 简历/😀&x=1") = Normal enc
       /\ useSearchParams_get (js "resume_id") (js "/jobs?resume_id=" ++ enc)
          = Some (js "it's 简历/😀&x=1").
Proof.
  assert (H : Forall (fun c => c < 0x10000) (js "it's 简历/😀&x=1")).
  { apply (bool_decide_unpack _). vm_compute. exact I. }
  assert (W : isWellFormed (js "it's 简历/😀&x=1") = true) by reflexivity.
  split; first done.
  exact (resume_id_read_back (js "it's 简历/😀&x=1") H W).
Defined.

(** X22: from the upload response to the first request of the jobs
    page.  When the backend issues a non-empty identifier without a lone
    surrogate, the upload component navigates to an address from which
    the jobs page reads that very identifier, and the submission of a
    non-blank description carries it to the backend unchanged. *)
Theorem issued_id_reaches_backend
    (u : UseFileUpload.UploadedFile) (response : gmap jsstring JSValue)
    (rid : jsstring) (st : FileUpload.State) :
  response !! js "resume_id" = Some (JString rid) ->
  rid <> [] ->
  isWellFormed rid = true ->
  Forall (fun c => c < 0x10000) rid ->
  exists href : jsstring,
    FileUpload.location_href (fst (FileUpload.onUploadSuccess u response st))
      = Some href
    /\ useSearchParams_get (js "resume_id") href = Some rid
    /\ forall w : World,
         trim (text (form w)) <> [] ->
         pending (run (handleUpload (useSearchParams_get (js "resume_id") href)) w)
         = pending w ++ [uploadJobDescriptions [trim (text (form w))] (Some rid)].
Proof.
  intros Hid Hne Hwf Hunits.
  destruct (encodeURIComponent_well_formed rid Hwf) as [enc Henc].
  exists (js "/jobs?resume_id=" ++ enc).
  pose proof (encoded_query_read_back rid enc Hunits Henc) as Hback.
  split.
  { rewrite (onUploadSuccess_with_id u response st rid Hid Hne). by rewrite Henc. }
  split; first exact Hback.
  intros w Htext. rewrite Hback.
  rewrite handleUpload_sends; [reflexivity | exact Htext | by destruct rid].
Qed.

Lemma issued_id_reaches_backend_witness :
  let response : gmap jsstring JSValue :=
    {[ js "resume_id" := JString (js "r 1/é") ]} in
  let u := {| UseFileUpload.file :=
                UseFileUpload.metadata_of
                  {| UseFileUpload.file_name := js "cv.pdf";
                     UseFileUpload.file_size := 1000;
                     UseFileUpload.file_type := js "application/pdf" |};
              UseFileUpload.id := js "f1" |} in
  (response !! js "resume_id" = Some (JString (js "r 1/é"))
   /\ js "r 1/é" <> []
   /\ isWellFormed (js "r 1/é") = true
   /\ Forall (fun c => c < 0x10000) (js "r 1/é"))
  /\ exists href : jsstring,
       FileUpload.location_href
         (fst (FileUpload.onUploadSuccess u response FileUpload.initial)) = Some href
       /\ useSearchParams_get (js "resume_id") href = Some (js "r 1/é").
Proof.
  intros response u.
  assert (H1 : response !! js "resume_id" = Some (JString (js "r 1/é")))
    by (vm_compute; reflexivity).
  assert (H2 : js "r 1/é" <> []) by (vm_compute; discriminate).
  assert (H3 : isWellFormed (js "r 1/é") = true) by reflexivity.
  assert (H4 : Forall (fun c => c < 0x10000) (js "r 1/é")).
  { apply (bool_decide_unpack _). vm_compute. exact I. }
  split; first done.
  destruct (issued_id_reaches_backend u response (js "r 1/é") FileUpload.initial
              H1 H2 H3 H4) as (href & Hloc & Hget & _).
  by exists href.
Defined.
